(** * nat-all-aws-connector: the NAT gateway workflows and their request handler

    A shallow embedding of [event.go] (the [Event] record, [Validate],
    [Process], [Error], [Complete]) and of [main.go] ([eventHandler],
    [CreateNat], [UpdateNat], [DeleteNat] and their helpers).

    The EC2 service and the JSON codec are collaborators of the program:
    they are taken as an interface ([EC2], [JSON]) over an abstract [World].
    Every remote call, every [time.Sleep] and every [nc.Publish] is
    recorded, in program order, in the list of [Call]s of a run. *)

From Stdlib Require Import String Ascii List Bool Arith ZArith Lia.
Import ListNotations.
Local Open Scope string_scope.
Local Open Scope list_scope.

Set Implicit Arguments.

(** ** Go values *)

(** [[]byte] *)
Definition bytes := list Byte.byte.

(** Go's [error] interface.  [errors.New] builds the errors of the program;
    the SDK and [encoding/json] build their own. *)
Inductive error : Type :=
| errors_New (msg : string)
| awserr (msg : string)
| jsonerr (msg : string).

(** [err.Error()] *)
Definition Error_string (e : error) : string :=
  match e with
  | errors_New m => m
  | awserr m => m
  | jsonerr m => m
  end.

Definition ErrDatacenterIDInvalid : error := errors_New "Datacenter VPC ID invalid".
Definition ErrDatacenterRegionInvalid : error := errors_New "Datacenter Region invalid".
Definition ErrDatacenterCredentialsInvalid : error := errors_New "Datacenter credentials invalid".
Definition ErrNetworkIDInvalid : error := errors_New "Network id invalid".
Definition ErrRoutedNetworksEmpty : error := errors_New "Routed networks are empty".
Definition ErrNatGatewayIDInvalid : error := errors_New "Nat Gateway aws id invalid".

(** [time.Duration], in nanoseconds *)
Definition time_Second : Z := 1000000000%Z.

(** [strings.Split s sep] for a separator of one character: the pieces
    between the separators, [[s]] when there is none. *)
Fixpoint split_on (sep : ascii) (s : string) : list string :=
  match s with
  | EmptyString => [EmptyString]
  | String c rest =>
      if Ascii.eqb c sep then EmptyString :: split_on sep rest
      else match split_on sep rest with
           | [] => [String c EmptyString]
           | piece :: pieces => String c piece :: pieces
           end
  end.

Definition strings_Split_dot (s : string) : list string := split_on "."%char s.

(** ** The event *)

Record Event : Type := mkEvent {
  UUID : string;
  BatchID : string;
  ProviderType : string;
  VPCID : string;
  DatacenterRegion : string;
  DatacenterAccessKey : string;
  DatacenterAccessToken : string;
  NetworkAWSID : string;
  PublicNetwork : string;
  PublicNetworkAWSID : string;
  RoutedNetworks : list string;
  RoutedNetworkAWSIDs : list string;
  NatGatewayAWSID : string;
  NatGatewayAllocationID : string;
  NatGatewayAllocationIP : string;
  InternetGatewayID : string;
  ErrorMessage : string;
  action : string
}.

(** [var n Event]: the zero value *)
Definition Event_zero : Event :=
  mkEvent "" "" "" "" "" "" "" "" "" "" [] [] "" "" "" "" "" "".

Definition set_action (a : string) (ev : Event) : Event :=
  mkEvent (UUID ev) (BatchID ev) (ProviderType ev) (VPCID ev)
    (DatacenterRegion ev) (DatacenterAccessKey ev) (DatacenterAccessToken ev)
    (NetworkAWSID ev) (PublicNetwork ev) (PublicNetworkAWSID ev)
    (RoutedNetworks ev) (RoutedNetworkAWSIDs ev) (NatGatewayAWSID ev)
    (NatGatewayAllocationID ev) (NatGatewayAllocationIP ev)
    (InternetGatewayID ev) (ErrorMessage ev) a.

Definition set_ErrorMessage (m : string) (ev : Event) : Event :=
  mkEvent (UUID ev) (BatchID ev) (ProviderType ev) (VPCID ev)
    (DatacenterRegion ev) (DatacenterAccessKey ev) (DatacenterAccessToken ev)
    (NetworkAWSID ev) (PublicNetwork ev) (PublicNetworkAWSID ev)
    (RoutedNetworks ev) (RoutedNetworkAWSIDs ev) (NatGatewayAWSID ev)
    (NatGatewayAllocationID ev) (NatGatewayAllocationIP ev)
    (InternetGatewayID ev) m (action ev).

Definition set_Allocation (id ip : string) (ev : Event) : Event :=
  mkEvent (UUID ev) (BatchID ev) (ProviderType ev) (VPCID ev)
    (DatacenterRegion ev) (DatacenterAccessKey ev) (DatacenterAccessToken ev)
    (NetworkAWSID ev) (PublicNetwork ev) (PublicNetworkAWSID ev)
    (RoutedNetworks ev) (RoutedNetworkAWSIDs ev) (NatGatewayAWSID ev)
    id ip (InternetGatewayID ev) (ErrorMessage ev) (action ev).

Definition set_InternetGatewayID (id : string) (ev : Event) : Event :=
  mkEvent (UUID ev) (BatchID ev) (ProviderType ev) (VPCID ev)
    (DatacenterRegion ev) (DatacenterAccessKey ev) (DatacenterAccessToken ev)
    (NetworkAWSID ev) (PublicNetwork ev) (PublicNetworkAWSID ev)
    (RoutedNetworks ev) (RoutedNetworkAWSIDs ev) (NatGatewayAWSID ev)
    (NatGatewayAllocationID ev) (NatGatewayAllocationIP ev)
    id (ErrorMessage ev) (action ev).

Definition set_NatGatewayAWSID (id : string) (ev : Event) : Event :=
  mkEvent (UUID ev) (BatchID ev) (ProviderType ev) (VPCID ev)
    (DatacenterRegion ev) (DatacenterAccessKey ev) (DatacenterAccessToken ev)
    (NetworkAWSID ev) (PublicNetwork ev) (PublicNetworkAWSID ev)
    (RoutedNetworks ev) (RoutedNetworkAWSIDs ev) id
    (NatGatewayAllocationID ev) (NatGatewayAllocationIP ev)
    (InternetGatewayID ev) (ErrorMessage ev) (action ev).

Definition set_VPCID (id : string) (ev : Event) : Event :=
  mkEvent (UUID ev) (BatchID ev) (ProviderType ev) id
    (DatacenterRegion ev) (DatacenterAccessKey ev) (DatacenterAccessToken ev)
    (NetworkAWSID ev) (PublicNetwork ev) (PublicNetworkAWSID ev)
    (RoutedNetworks ev) (RoutedNetworkAWSIDs ev) (NatGatewayAWSID ev)
    (NatGatewayAllocationID ev) (NatGatewayAllocationIP ev)
    (InternetGatewayID ev) (ErrorMessage ev) (action ev).

Definition set_networks (pub : string) (routed : list string) (ev : Event) : Event :=
  mkEvent (UUID ev) (BatchID ev) (ProviderType ev) (VPCID ev)
    (DatacenterRegion ev) (DatacenterAccessKey ev) (DatacenterAccessToken ev)
    (NetworkAWSID ev) (PublicNetwork ev) pub
    (RoutedNetworks ev) routed (NatGatewayAWSID ev)
    (NatGatewayAllocationID ev) (NatGatewayAllocationIP ev)
    (InternetGatewayID ev) (ErrorMessage ev) (action ev).

(** [func (ev *Event) Validate(subject string) error]; [None] is [nil]. *)
Definition Validate (ev : Event) (subject : string) : option error :=
  if VPCID ev =? "" then Some ErrDatacenterIDInvalid
  else if DatacenterRegion ev =? "" then Some ErrDatacenterRegionInvalid
  else if (DatacenterAccessKey ev =? "") || (DatacenterAccessToken ev =? "")
  then Some ErrDatacenterCredentialsInvalid
  else if subject =? "nat.delete.aws" then
    if NatGatewayAWSID ev =? "" then Some ErrNatGatewayIDInvalid
    else None
  else
    if PublicNetworkAWSID ev =? "" then Some ErrNetworkIDInvalid
    else if Nat.ltb (length (RoutedNetworkAWSIDs ev)) 1 then Some ErrRoutedNetworksEmpty
    else None.

(** ** The EC2 data the program reads

    Identifiers the service fills in on every successful answer are strings.
    The [*string] fields that a successful answer can leave nil and that the
    program dereferences are options, [None] being the nil pointer: an
    address allocated for EC2-Classic has no allocation ID, and a route has
    a destination block and a NAT gateway target only in some cases (the
    local route and gateway routes carry other targets). *)

Record AllocateAddressOutput : Type := {
  AllocationId : option string;
  PublicIp : option string
}.

Record InternetGateway : Type := {
  InternetGatewayId : string
}.

Record NatGateway : Type := {
  NatGatewayId : string;
  State : string
}.

Record Route : Type := {
  DestinationCidrBlock : option string;
  RouteNatGatewayId : option string
}.

Record RouteTable : Type := {
  RouteTableId : string;
  Routes : list Route
}.

Definition NatGatewayStateDeleted : string := "deleted".

(** [aws.Config] as the program fills it in: region and static credentials *)
Record Config : Type := {
  Region : string;
  AccessKeyID : string;
  SecretAccessKey : string
}.

(** [ec2.New(session.New(), &aws.Config{...})] *)
Definition ec2_New (ev : Event) : Config :=
  {| Region := DatacenterRegion ev;
     AccessKeyID := DatacenterAccessKey ev;
     SecretAccessKey := DatacenterAccessToken ev |}.

(** ** Observable calls *)

Inductive Call : Type :=
| CAllocateAddress
| CDescribeInternetGateways (vpc : string)
| CCreateInternetGateway
| CAttachInternetGateway (igw vpc : string)
| CCreateNatGateway (alloc subnet : string)
| CWaitUntilNatGatewayAvailable (gw : string)
| CDescribeRouteTables (subnet : string)
| CCreateRouteTable (vpc : string)
| CAssociateRouteTable (rt subnet : string)
| CCreateRoute (rt dest gw : string)
| CDeleteNatGateway (gw : string)
| CDescribeNatGateways (gw : string)
| CSleep (d : Z)
| CPublish (subject : string) (data : bytes).

Definition is_publish (c : Call) : bool :=
  match c with CPublish _ _ => true | _ => false end.

(** a call to the cloud provider, as opposed to a sleep or a publish *)
Definition is_remote (c : Call) : bool :=
  match c with CSleep _ | CPublish _ _ => false | _ => true end.


Definition is_igw_creation (c : Call) : bool :=
  match c with
  | CCreateInternetGateway | CAttachInternetGateway _ _ => true
  | _ => false
  end.

(** a call that looks up, waits for or creates a resource: what the create
    and update workflows are made of *)
Definition is_provisioning (c : Call) : bool :=
  match c with
  | CAllocateAddress
  | CDescribeInternetGateways _
  | CCreateInternetGateway
  | CAttachInternetGateway _ _
  | CCreateNatGateway _ _
  | CWaitUntilNatGatewayAvailable _
  | CDescribeRouteTables _
  | CCreateRouteTable _
  | CAssociateRouteTable _ _
  | CCreateRoute _ _ _ => true
  | _ => false
  end.

Definition provisioning (c : Call) : Prop := is_provisioning c = true.

(** a call on the route table of a subnet *)
Definition is_route_setup (c : Call) : bool :=
  match c with
  | CDescribeRouteTables _
  | CCreateRouteTable _
  | CAssociateRouteTable _ _
  | CCreateRoute _ _ _ => true
  | _ => false
  end.

Definition route_setup (c : Call) : Prop := is_route_setup c = true.

(** the only call of the program that removes a resource *)
Definition is_removal (c : Call) : bool :=
  match c with CDeleteNatGateway _ => true | _ => false end.

(** ** Runs

    A computation starts in a world and ends with the world it left, the
    calls it made and how it ended: with a value, with a Go panic, or with
    the poll budget of the model used up (the source loop has no bound). *)

Inductive result (A : Type) : Type :=
| Ret (a : A)
| Panic (msg : string)
| OutOfFuel.

Arguments Panic {A} msg.
Arguments OutOfFuel {A}.

Record Run (World A : Type) : Type := mkRun {
  final : World;
  calls : list Call;
  value : result A
}.

Definition M (World A : Type) : Type := World -> Run World A.

Definition ret {World A : Type} (a : A) : M World A :=
  fun w => mkRun w [] (Ret a).

Definition bind {World A B : Type} (m : M World A) (f : A -> M World B) : M World B :=
  fun w =>
    let r := m w in
    match value r with
    | Ret a => let r' := f a (final r) in
               mkRun (final r') (calls r ++ calls r') (value r')
    | Panic msg => mkRun (final r) (calls r) (Panic msg)
    | OutOfFuel => mkRun (final r) (calls r) OutOfFuel
    end.

Definition panic {World A : Type} (msg : string) : M World A :=
  fun w => mkRun w [] (Panic msg).

Definition out_of_fuel {World A : Type} : M World A :=
  fun w => mkRun w [] OutOfFuel.

(** one effect that does not change the world: a sleep, a publish *)
Definition emit {World : Type} (c : Call) : M World unit :=
  fun w => mkRun w [c] (Ret tt).

(** a remote call: the service answers and moves the world *)
Definition remote {World A : Type} (c : Call) (step : World -> World * A) : M World A :=
  fun w => mkRun (fst (step w)) [c] (Ret (snd (step w))).

(** [*p] *)
Definition deref {World A : Type} (p : option A) : M World A :=
  match p with
  | Some a => ret a
  | None => panic "invalid memory address or nil pointer dereference"
  end.

Declare Scope go_scope.
Delimit Scope go_scope with go.
Notation "x <- m ;; k" := (bind m (fun x => k))
  (at level 61, m at next level, right associativity) : go_scope.
Notation "m ;;; k" := (bind m (fun _ => k))
  (at level 61, right associativity) : go_scope.

(** ** The collaborators *)

(** The calls of [*ec2.EC2] the program makes.  An answer is the pair Go
    returns: the output, or the error. *)
Record EC2 (World : Type) : Type := {
  AllocateAddress : Config -> World -> World * (AllocateAddressOutput + error);
  DescribeInternetGateways : Config -> string -> World -> World * (list InternetGateway + error);
  CreateInternetGateway : Config -> World -> World * (InternetGateway + error);
  AttachInternetGateway : Config -> string -> string -> World -> World * option error;
  CreateNatGateway : Config -> string -> string -> World -> World * (NatGateway + error);
  WaitUntilNatGatewayAvailable : Config -> string -> World -> World * option error;
  DescribeRouteTables : Config -> string -> World -> World * (list RouteTable + error);
  CreateRouteTable : Config -> string -> World -> World * (RouteTable + error);
  AssociateRouteTable : Config -> string -> string -> World -> World * option error;
  CreateRoute : Config -> string -> string -> string -> World -> World * option error;
  DeleteNatGateway : Config -> string -> World -> World * option error;
  DescribeNatGateways : Config -> string -> World -> World * (list NatGateway + error)
}.

(** [encoding/json].  [Unmarshal data ev] is the event after decoding into
    it together with the error; [Marshal ev] is the encoding or the error. *)
Record JSON : Type := {
  Unmarshal : bytes -> Event -> Event * option error;
  Marshal : Event -> bytes + error
}.

Notation "' pat <- m ;; k" :=
  (bind m (fun x => match x with pat => k end))
  (at level 61, pat pattern, m at next level, right associativity) : go_scope.

(** [nats.Msg] *)
Record Msg : Type := {
  Subject : string;
  Data : bytes
}.

(** ** The program *)

Section Connector.

Context {World : Type} (ec2 : EC2 World) (json : JSON).

Local Open Scope go_scope.

(** [xs[1]] *)
Definition index1 (xs : list string) : M World string :=
  match nth_error xs 1 with
  | Some x => ret x
  | None => panic "index out of range"
  end.

(** *** event.go *)

(** [func (ev *Event) Process(subject string, data []byte) error] *)
Definition Process (ev : Event) (subject : string) (data : bytes)
  : M World (Event * option error) :=
  a <- index1 (strings_Split_dot subject) ;;
  let decoded := Unmarshal json data (set_action a ev) in
  match snd decoded with
  | Some err =>
      emit (CPublish (subject ++ ".error") data) ;;;
      ret (fst decoded, Some err)
  | None => ret (fst decoded, None)
  end.

(** [func (ev *Event) Error(err error)]; [log.Panic] on a failed encoding *)
Definition Error (ev : Event) (err : error) : M World Event :=
  let ev := set_ErrorMessage (Error_string err) ev in
  match Marshal json ev with
  | inr e => panic (Error_string e)
  | inl data =>
      emit (CPublish ("nat." ++ action ev ++ ".aws.error") data) ;;;
      ret ev
  end.

(** [func (ev *Event) Complete()]; after a failed encoding [data] is nil *)
Definition Complete (ev : Event) : M World Event :=
  match Marshal json ev with
  | inr e =>
      ev <- Error ev e ;;
      emit (CPublish ("nat." ++ action ev ++ ".aws.done") []) ;;;
      ret ev
  | inl data =>
      emit (CPublish ("nat." ++ action ev ++ ".aws.done") data) ;;;
      ret ev
  end.

(** *** main.go: lookups *)

Definition internetGatewayByVPCID (svc : Config) (vpc : string)
  : M World (option InternetGateway * option error) :=
  resp <- remote (CDescribeInternetGateways vpc) (DescribeInternetGateways ec2 svc vpc) ;;
  match resp with
  | inr err => ret (None, Some err)
  | inl [] => ret (None, None)
  | inl (ig :: _) => ret (Some ig, None)
  end.

Definition routingTableBySubnetID (svc : Config) (subnet : string)
  : M World (option RouteTable * option error) :=
  resp <- remote (CDescribeRouteTables subnet) (DescribeRouteTables ec2 svc subnet) ;;
  match resp with
  | inr err => ret (None, Some err)
  | inl [] => ret (None, None)
  | inl (rt :: _) => ret (Some rt, None)
  end.

Definition natGatewayByID (svc : Config) (id : string)
  : M World (option NatGateway * option error) :=
  resp <- remote (CDescribeNatGateways id) (DescribeNatGateways ec2 svc id) ;;
  match resp with
  | inr err => ret (None, Some err)
  | inl [gw] => ret (Some gw, None)
  | inl _ => ret (None, Some (errors_New "Could not find nat gateway"))
  end.

(** *** main.go: create-if-absent helpers *)

Definition createInternetGateway (svc : Config) (vpc : string)
  : M World (string * option error) :=
  ' (ig, err) <- internetGatewayByVPCID svc vpc ;;
  match err with
  | Some e => ret ("", Some e)
  | None =>
      match ig with
      | Some g => ret (InternetGatewayId g, None)
      | None =>
          resp <- remote CCreateInternetGateway (CreateInternetGateway ec2 svc) ;;
          match resp with
          | inr e => ret ("", Some e)
          | inl g =>
              err <- remote (CAttachInternetGateway (InternetGatewayId g) vpc)
                       (AttachInternetGateway ec2 svc (InternetGatewayId g) vpc) ;;
              match err with
              | Some e => ret ("", Some e)
              | None => ret (InternetGatewayId g, None)
              end
          end
      end
  end.

Definition createRouteTable (svc : Config) (vpc subnet : string)
  : M World (option RouteTable * option error) :=
  ' (rt, err) <- routingTableBySubnetID svc subnet ;;
  match err with
  | Some e => ret (None, Some e)
  | None =>
      match rt with
      | Some t => ret (Some t, None)
      | None =>
          resp <- remote (CCreateRouteTable vpc) (CreateRouteTable ec2 svc vpc) ;;
          match resp with
          | inr e => ret (None, Some e)
          | inl t =>
              err <- remote (CAssociateRouteTable (RouteTableId t) subnet)
                       (AssociateRouteTable ec2 svc (RouteTableId t) subnet) ;;
              match err with
              | Some e => ret (None, Some e)
              | None => ret (Some t, None)
              end
          end
      end
  end.

Definition createNatGatewayRoutes (svc : Config) (rt : option RouteTable) (gwID : string)
  : M World (option error) :=
  t <- deref rt ;;
  remote (CCreateRoute (RouteTableId t) "0.0.0.0/0" gwID)
    (CreateRoute ec2 svc (RouteTableId t) "0.0.0.0/0" gwID).

(** [for _, route := range rt.Routes { if *a == .. && *b == gwID { return true } }] *)
Fixpoint routes_configured (routes : list Route) (gwID : string) : M World bool :=
  match routes with
  | [] => ret false
  | route :: rest =>
      dest <- deref (DestinationCidrBlock route) ;;
      if dest =? "0.0.0.0/0" then
        target <- deref (RouteNatGatewayId route) ;;
        if target =? gwID then ret true else routes_configured rest gwID
      else routes_configured rest gwID
  end.

Definition routeTableIsConfigured (rt : option RouteTable) (gwID : string) : M World bool :=
  t <- deref rt ;;
  routes_configured (Routes t) gwID.

Definition isNatGatewayDeleted (svc : Config) (id : string) : M World bool :=
  ' (gw, _) <- natGatewayByID svc id ;;
  g <- deref gw ;;
  if State g =? NatGatewayStateDeleted then ret true else ret false.

(** [for _, x := range xs { if err := body(x); err != nil { return err } }; return nil] *)
Fixpoint for_range (xs : list string) (body : string -> M World (option error))
  : M World (option error) :=
  match xs with
  | [] => ret None
  | x :: rest =>
      err <- body x ;;
      match err with
      | Some e => ret (Some e)
      | None => for_range rest body
      end
  end.

(** *** main.go: the workflows

    A workflow receives [*Event] and writes the identifiers it discovers
    into it; here it returns the event as it left it, with the error. *)

(** the body of the loop of [CreateNat] *)
Definition CreateNat_subnet (svc : Config) (vpc gwID networkID : string)
  : M World (option error) :=
  ' (rt, err) <- createRouteTable svc vpc networkID ;;
  match err with
  | Some e => ret (Some e)
  | None => createNatGatewayRoutes svc rt gwID
  end.

Definition CreateNat (ev : Event) : M World (Event * option error) :=
  let svc := ec2_New ev in
  resp <- remote CAllocateAddress (AllocateAddress ec2 svc) ;;
  match resp with
  | inr e => ret (ev, Some e)
  | inl addr =>
      id <- deref (AllocationId addr) ;;
      ip <- deref (PublicIp addr) ;;
      let ev := set_Allocation id ip ev in
      ' (igw, err) <- createInternetGateway svc (VPCID ev) ;;
      let ev := set_InternetGatewayID igw ev in
      match err with
      | Some e => ret (ev, Some e)
      | None =>
          gwresp <- remote (CCreateNatGateway (NatGatewayAllocationID ev) (PublicNetworkAWSID ev))
                      (CreateNatGateway ec2 svc (NatGatewayAllocationID ev) (PublicNetworkAWSID ev)) ;;
          match gwresp with
          | inr e => ret (ev, Some e)
          | inl gw =>
              let ev := set_NatGatewayAWSID (NatGatewayId gw) ev in
              err <- remote (CWaitUntilNatGatewayAvailable (NatGatewayId gw))
                       (WaitUntilNatGatewayAvailable ec2 svc (NatGatewayId gw)) ;;
              match err with
              | Some e => ret (ev, Some e)
              | None =>
                  err <- for_range (RoutedNetworkAWSIDs ev)
                           (CreateNat_subnet svc (VPCID ev) (NatGatewayId gw)) ;;
                  ret (ev, err)
              end
          end
      end
  end.

(** the body of the loop of [UpdateNat]; [continue] ends it with no error *)
Definition UpdateNat_subnet (svc : Config) (vpc gwID networkID : string)
  : M World (option error) :=
  ' (rt, err) <- createRouteTable svc vpc networkID ;;
  match err with
  | Some e => ret (Some e)
  | None =>
      configured <- routeTableIsConfigured rt gwID ;;
      if configured then ret None
      else createNatGatewayRoutes svc rt gwID
  end.

Definition UpdateNat (ev : Event) : M World (Event * option error) :=
  let svc := ec2_New ev in
  err <- for_range (RoutedNetworkAWSIDs ev)
           (UpdateNat_subnet svc (VPCID ev) (NatGatewayAWSID ev)) ;;
  ret (ev, err).

(** [for isNatGatewayDeleted(svc, id) == false { time.Sleep(time.Second * 3) }];
    the source loop is unbounded, [fuel] bounds the polls of a run *)
Fixpoint DeleteNat_wait (fuel : nat) (svc : Config) (id : string) : M World unit :=
  match fuel with
  | O => out_of_fuel
  | S fuel' =>
      deleted <- isNatGatewayDeleted svc id ;;
      if deleted then ret tt
      else emit (CSleep (time_Second * 3)) ;;; DeleteNat_wait fuel' svc id
  end.

Definition DeleteNat (fuel : nat) (ev : Event) : M World (Event * option error) :=
  let svc := ec2_New ev in
  err <- remote (CDeleteNatGateway (NatGatewayAWSID ev))
           (DeleteNatGateway ec2 svc (NatGatewayAWSID ev)) ;;
  match err with
  | Some e => ret (ev, Some e)
  | None =>
      DeleteNat_wait fuel svc (NatGatewayAWSID ev) ;;;
      ret (ev, None)
  end.

(** *** main.go: the handler *)

(** [switch parts[1] { case "create": ..; case "update": ..; case "delete": }]
    with [err] nil before it.  The call of the delete case is commented
    out in the source ([//err = deleteNat(&n)]): that case, like a subject
    of no case, leaves [err] nil. *)
Definition switch_action (part : string) (n : Event) : M World (Event * option error) :=
  if part =? "create" then CreateNat n
  else if part =? "update" then UpdateNat n
  else if part =? "delete" then ret (n, None)
  else ret (n, None).

Definition eventHandler (m : Msg) : M World unit :=
  ' (n, err) <- Process Event_zero (Subject m) (Data m) ;;
  match err with
  | Some _ => ret tt
  | None =>
      match Validate n (Subject m) with
      | Some e => Error n e ;;; ret tt
      | None =>
          part <- index1 (strings_Split_dot (Subject m)) ;;
          ' (n, err) <- switch_action part n ;;
          match err with
          | Some e => Error n e ;;; ret tt
          | None => Complete n ;;; ret tt
          end
      end
  end.

(** *** event.go, second declaration: the workflows as methods

    The file declares the workflows a second time, as methods of [*Event]
    that read the VPC and the NAT gateway from the receiver. *)

Definition Event_createInternetGateway (ev : Event) (svc : Config) :=
  createInternetGateway svc (VPCID ev).

Definition Event_createRouteTable (ev : Event) (svc : Config) (subnet : string) :=
  createRouteTable svc (VPCID ev) subnet.

Definition Event_Create_subnet (ev : Event) (svc : Config) (gwID networkID : string)
  : M World (option error) :=
  ' (rt, err) <- Event_createRouteTable ev svc networkID ;;
  match err with
  | Some e => ret (Some e)
  | None => createNatGatewayRoutes svc rt gwID
  end.

Definition Event_Create (ev : Event) : M World (Event * option error) :=
  let svc := ec2_New ev in
  resp <- remote CAllocateAddress (AllocateAddress ec2 svc) ;;
  match resp with
  | inr e => ret (ev, Some e)
  | inl addr =>
      id <- deref (AllocationId addr) ;;
      ip <- deref (PublicIp addr) ;;
      let ev := set_Allocation id ip ev in
      ' (igw, err) <- Event_createInternetGateway ev svc ;;
      let ev := set_InternetGatewayID igw ev in
      match err with
      | Some e => ret (ev, Some e)
      | None =>
          gwresp <- remote (CCreateNatGateway (NatGatewayAllocationID ev) (PublicNetworkAWSID ev))
                      (CreateNatGateway ec2 svc (NatGatewayAllocationID ev) (PublicNetworkAWSID ev)) ;;
          match gwresp with
          | inr e => ret (ev, Some e)
          | inl gw =>
              let ev := set_NatGatewayAWSID (NatGatewayId gw) ev in
              err <- remote (CWaitUntilNatGatewayAvailable (NatGatewayId gw))
                       (WaitUntilNatGatewayAvailable ec2 svc (NatGatewayId gw)) ;;
              match err with
              | Some e => ret (ev, Some e)
              | None =>
                  err <- for_range (RoutedNetworkAWSIDs ev)
                           (Event_Create_subnet ev svc (NatGatewayId gw)) ;;
                  ret (ev, err)
              end
          end
      end
  end.

Definition Event_Delete (fuel : nat) (ev : Event) : M World (Event * option error) :=
  let svc := ec2_New ev in
  err <- remote (CDeleteNatGateway (NatGatewayAWSID ev))
           (DeleteNatGateway ec2 svc (NatGatewayAWSID ev)) ;;
  match err with
  | Some e => ret (ev, Some e)
  | None =>
      DeleteNat_wait fuel svc (NatGatewayAWSID ev) ;;;
      ret (ev, None)
  end.

End Connector.

(** ** Shapes of call sequences *)

Definition prefix_of (t full : list Call) : Prop :=
  exists rest, full = t ++ rest.

(** resolve-or-create of the internet gateway of [vpc] *)
Inductive igw_calls (vpc : string) : list Call -> Prop :=
| igw_reused :
    igw_calls vpc [CDescribeInternetGateways vpc]
| igw_created (igw : string) :
    igw_calls vpc [CDescribeInternetGateways vpc;
                   CCreateInternetGateway;
                   CAttachInternetGateway igw vpc].

(** resolve-or-create of the route table of [subnet], then its default route *)
Inductive subnet_calls (vpc gw subnet : string) : list Call -> Prop :=
| subnet_table_reused (rt : string) :
    subnet_calls vpc gw subnet
      [CDescribeRouteTables subnet;
       CCreateRoute rt "0.0.0.0/0" gw]
| subnet_table_created (rt : string) :
    subnet_calls vpc gw subnet
      [CDescribeRouteTables subnet;
       CCreateRouteTable vpc;
       CAssociateRouteTable rt subnet;
       CCreateRoute rt "0.0.0.0/0" gw].

(** a whole create workflow for [ev], subnet by subnet in the order of
    [RoutedNetworkAWSIDs] *)
Definition create_calls (ev : Event) (t : list Call) : Prop :=
  exists alloc gw igw groups,
    igw_calls (VPCID ev) igw /\
    Forall2 (subnet_calls (VPCID ev) gw) (RoutedNetworkAWSIDs ev) groups /\
    t = [CAllocateAddress] ++ igw
        ++ [CCreateNatGateway alloc (PublicNetworkAWSID ev);
            CWaitUntilNatGatewayAvailable gw]
        ++ concat groups.

(** a route with destination [0.0.0.0/0] and target [gwID] *)
Definition matching_route (gwID : string) (route : Route) : Prop :=
  DestinationCidrBlock route = Some "0.0.0.0/0" /\
  RouteNatGatewayId route = Some gwID.


(** a route the scan of [routeTableIsConfigured] can read: it has a
    destination block and, when that is [0.0.0.0/0], a NAT gateway target *)
Definition readable_route (route : Route) : Prop :=
  exists dest,
    DestinationCidrBlock route = Some dest /\
    (dest = "0.0.0.0/0" -> exists target, RouteNatGatewayId route = Some target).

(** ** A scripted service, to run the program on concrete inputs *)

Record Script : Type := {
  on_AllocateAddress : AllocateAddressOutput + error;
  on_DescribeInternetGateways : string -> list InternetGateway + error;
  on_CreateInternetGateway : InternetGateway + error;
  on_AttachInternetGateway : option error;
  on_CreateNatGateway : NatGateway + error;
  on_WaitUntilNatGatewayAvailable : option error;
  on_DescribeRouteTables : string -> list RouteTable + error;
  on_CreateRouteTable : RouteTable + error;
  on_AssociateRouteTable : string -> option error;
  on_CreateRoute : string -> option error;
  on_DeleteNatGateway : option error;
  on_DescribeNatGateways : nat -> list NatGateway + error
}.

(** The world of the scripted service is the number of calls answered so
    far; the answer to [DescribeNatGateways] depends on it. *)
Definition scripted (s : Script) : EC2 nat :=
  {| AllocateAddress := fun _ n => (S n, on_AllocateAddress s);
     DescribeInternetGateways := fun _ vpc n => (S n, on_DescribeInternetGateways s vpc);
     CreateInternetGateway := fun _ n => (S n, on_CreateInternetGateway s);
     AttachInternetGateway := fun _ _ _ n => (S n, on_AttachInternetGateway s);
     CreateNatGateway := fun _ _ _ n => (S n, on_CreateNatGateway s);
     WaitUntilNatGatewayAvailable := fun _ _ n => (S n, on_WaitUntilNatGatewayAvailable s);
     DescribeRouteTables := fun _ subnet n => (S n, on_DescribeRouteTables s subnet);
     CreateRouteTable := fun _ _ n => (S n, on_CreateRouteTable s);
     AssociateRouteTable := fun _ _ subnet n => (S n, on_AssociateRouteTable s subnet);
     CreateRoute := fun _ rt _ _ n => (S n, on_CreateRoute s rt);
     DeleteNatGateway := fun _ _ n => (S n, on_DeleteNatGateway s);
     DescribeNatGateways := fun _ _ n => (S n, on_DescribeNatGateways s n) |}.

Definition default_route (gw : string) : Route :=
  {| DestinationCidrBlock := Some "0.0.0.0/0"; RouteNatGatewayId := Some gw |}.

(** the local route of every table: a destination, no NAT gateway target *)
Definition local_route : Route :=
  {| DestinationCidrBlock := Some "10.0.0.0/16"; RouteNatGatewayId := None |}.

(** a cloud in which the VPC has its internet gateway, each subnet has its
    table [rtb-<subnet>] with the default route to [nat-1] in it, and the
    gateway is seen deleted from the third answer on *)
Definition converged : Script :=
  {| on_AllocateAddress :=
       inl {| AllocationId := Some "eipalloc-1"; PublicIp := Some "203.0.113.7" |};
     on_DescribeInternetGateways := fun _ => inl [ {| InternetGatewayId := "igw-1" |} ];
     on_CreateInternetGateway := inl {| InternetGatewayId := "igw-2" |};
     on_AttachInternetGateway := None;
     on_CreateNatGateway := inl {| NatGatewayId := "nat-1"; State := "pending" |};
     on_WaitUntilNatGatewayAvailable := None;
     on_DescribeRouteTables := fun subnet =>
       inl [ {| RouteTableId := "rtb-" ++ subnet;
                Routes := [local_route; default_route "nat-1"] |} ];
     on_CreateRouteTable := inl {| RouteTableId := "rtb-new"; Routes := [local_route] |};
     on_AssociateRouteTable := fun _ => None;
     on_CreateRoute := fun _ => None;
     on_DeleteNatGateway := None;
     on_DescribeNatGateways := fun n =>
       if Nat.ltb n 3
       then inl [ {| NatGatewayId := "nat-1"; State := "deleting" |} ]
       else inl [ {| NatGatewayId := "nat-1"; State := "deleted" |} ] |}.

(** the same cloud, in which the route of table [rtb-subnet-b] is refused *)
Definition refusing_b : Script :=
  {| on_AllocateAddress := on_AllocateAddress converged;
     on_DescribeInternetGateways := on_DescribeInternetGateways converged;
     on_CreateInternetGateway := on_CreateInternetGateway converged;
     on_AttachInternetGateway := on_AttachInternetGateway converged;
     on_CreateNatGateway := on_CreateNatGateway converged;
     on_WaitUntilNatGatewayAvailable := on_WaitUntilNatGatewayAvailable converged;
     on_DescribeRouteTables := on_DescribeRouteTables converged;
     on_CreateRouteTable := on_CreateRouteTable converged;
     on_AssociateRouteTable := on_AssociateRouteTable converged;
     on_CreateRoute := fun rt =>
       if rt =? "rtb-subnet-b" then Some (awserr "RouteLimitExceeded") else None;
     on_DeleteNatGateway := on_DeleteNatGateway converged;
     on_DescribeNatGateways := on_DescribeNatGateways converged |}.

(** the same cloud, in which the NAT gateway is no longer listed *)
Definition vanished : Script :=
  {| on_AllocateAddress := on_AllocateAddress converged;
     on_DescribeInternetGateways := on_DescribeInternetGateways converged;
     on_CreateInternetGateway := on_CreateInternetGateway converged;
     on_AttachInternetGateway := on_AttachInternetGateway converged;
     on_CreateNatGateway := on_CreateNatGateway converged;
     on_WaitUntilNatGatewayAvailable := on_WaitUntilNatGatewayAvailable converged;
     on_DescribeRouteTables := on_DescribeRouteTables converged;
     on_CreateRouteTable := on_CreateRouteTable converged;
     on_AssociateRouteTable := on_AssociateRouteTable converged;
     on_CreateRoute := on_CreateRoute converged;
     on_DeleteNatGateway := on_DeleteNatGateway converged;
     on_DescribeNatGateways := fun _ => inl [] |}.

(** the same cloud, in which describing the NAT gateway is refused *)
Definition throttled : Script :=
  {| on_AllocateAddress := on_AllocateAddress converged;
     on_DescribeInternetGateways := on_DescribeInternetGateways converged;
     on_CreateInternetGateway := on_CreateInternetGateway converged;
     on_AttachInternetGateway := on_AttachInternetGateway converged;
     on_CreateNatGateway := on_CreateNatGateway converged;
     on_WaitUntilNatGatewayAvailable := on_WaitUntilNatGatewayAvailable converged;
     on_DescribeRouteTables := on_DescribeRouteTables converged;
     on_CreateRouteTable := on_CreateRouteTable converged;
     on_AssociateRouteTable := on_AssociateRouteTable converged;
     on_CreateRoute := on_CreateRoute converged;
     on_DeleteNatGateway := on_DeleteNatGateway converged;
     on_DescribeNatGateways := fun _ => inr (awserr "RequestLimitExceeded") |}.

(** A codec for the examples: a payload is the NAT gateway ID it carries,
    written in bytes, and a payload starting with byte 0 does not decode;
    the other fields come from [base].  Encoding lists two fields. *)
Definition example_json (base : Event) : JSON :=
  {| Unmarshal := fun data ev =>
       match data with
       | Byte.x00 :: _ => (ev, Some (jsonerr "invalid character"))
       | _ => (set_action (action ev)
                 (set_NatGatewayAWSID (string_of_list_byte data) base), None)
       end;
     Marshal := fun ev =>
       inl (list_byte_of_string
              (NatGatewayAWSID ev ++ ";" ++ InternetGatewayID ev ++ ";" ++ ErrorMessage ev)) |}.

Definition example_event : Event :=
  {| UUID := "u-1"; BatchID := "b-1"; ProviderType := "aws";
     VPCID := "vpc-1"; DatacenterRegion := "us-east-1";
     DatacenterAccessKey := "k"; DatacenterAccessToken := "t";
     NetworkAWSID := ""; PublicNetwork := "public";
     PublicNetworkAWSID := "subnet-pub";
     RoutedNetworks := ["a"; "b"; "c"];
     RoutedNetworkAWSIDs := ["subnet-a"; "subnet-b"; "subnet-c"];
     NatGatewayAWSID := "nat-1";
     NatGatewayAllocationID := ""; NatGatewayAllocationIP := "";
     InternetGatewayID := ""; ErrorMessage := ""; action := "" |}.

Definition no_vpc_event : Event := set_VPCID "" example_event.

Definition msg (subject payload : string) : Msg :=
  {| Subject := subject; Data := list_byte_of_string payload |}.

(** requests for the examples *)
Definition no_vpc_no_nat_event : Event := set_NatGatewayAWSID "" no_vpc_event.

Definition bare_delete_event : Event := set_networks "" [] example_event.

(** the error of a workflow, without the event it returns *)
Definition error_of (r : result (Event * option error)) : result (option error) :=
  match r with
  | Ret (_, err) => Ret err
  | Panic msg => Panic msg
  | OutOfFuel => OutOfFuel
  end.

(** the kinds of validation error *)
Definition validation_errors : list error :=
  [ErrDatacenterIDInvalid; ErrDatacenterRegionInvalid;
   ErrDatacenterCredentialsInvalid; ErrNetworkIDInvalid;
   ErrRoutedNetworksEmpty; ErrNatGatewayIDInvalid].

(** the field a validation error of a create or update request stands for
    is empty in the request *)
Definition reports_missing_field (e : error) (ev : Event) : Prop :=
  (e = ErrDatacenterIDInvalid /\ VPCID ev = "") \/
  (e = ErrDatacenterRegionInvalid /\ DatacenterRegion ev = "") \/
  (e = ErrDatacenterCredentialsInvalid /\
     (DatacenterAccessKey ev = "" \/ DatacenterAccessToken ev = "")) \/
  (e = ErrNetworkIDInvalid /\ PublicNetworkAWSID ev = "") \/
  (e = ErrRoutedNetworksEmpty /\ RoutedNetworkAWSIDs ev = []).

(** What [encoding/json] guarantees for [Event]: a struct of strings and
    slices of strings always encodes, and decoding leaves the unexported
    field [action] alone. *)
Record json_for_Event (json : JSON) : Prop := {
  Marshal_total : forall ev, exists data, Marshal json ev = inl data;
  Unmarshal_action : forall data ev, action (fst (Unmarshal json data ev)) = action ev
}.

(** ** event.go, second declaration: the event that carries its message

    The second [Event] struct of the file has the fields of the first and
    two more unexported ones, the subject and the body of the message.
    [encoding/json] reads and writes exported fields only, so decoding and
    encoding go through [fields]. *)

Record EventM : Type := {
  fields : Event;
  subject : string;
  body : bytes
}.

(** [func New(subject string, body []byte) Event] *)
Definition New (subject : string) (body : bytes) : EventM :=
  {| fields := Event_zero; subject := subject; body := body |}.

(** [func (ev *Event) Validate() error] *)
Definition Event_Validate (ev : EventM) : option error :=
  if VPCID (fields ev) =? "" then Some ErrDatacenterIDInvalid
  else if DatacenterRegion (fields ev) =? "" then Some ErrDatacenterRegionInvalid
  else if (DatacenterAccessKey (fields ev) =? "")
          || (DatacenterAccessToken (fields ev) =? "")
  then Some ErrDatacenterCredentialsInvalid
  else if subject ev =? "nat.delete.aws" then
    if NatGatewayAWSID (fields ev) =? "" then Some ErrNatGatewayIDInvalid
    else None
  else
    if PublicNetworkAWSID (fields ev) =? "" then Some ErrNetworkIDInvalid
    else if Nat.ltb (length (RoutedNetworkAWSIDs (fields ev))) 1
         then Some ErrRoutedNetworksEmpty
    else None.

(** [func (ev *Event) Get() error]: never nil *)
Definition Event_Get (ev : EventM) : error :=
  errors_New (subject ev ++ " not implemented").

Section EventMethods.

Context {World : Type} (ec2 : EC2 World) (json : JSON).

Local Open Scope go_scope.

(** [func (ev *Event) Process() error] *)
Definition Event_Process (ev : EventM) : M World (EventM * option error) :=
  a <- index1 (strings_Split_dot (subject ev)) ;;
  let decoded := Unmarshal json (body ev) (set_action a (fields ev)) in
  let ev' := {| fields := fst decoded; subject := subject ev; body := body ev |} in
  match snd decoded with
  | Some err =>
      emit (CPublish (subject ev ++ ".error") (body ev)) ;;;
      ret (ev', Some err)
  | None => ret (ev', None)
  end.

(** [func (ev *Event) Error(err error)] *)
Definition Event_Error (ev : EventM) (err : error) : M World EventM :=
  let ev := {| fields := set_ErrorMessage (Error_string err) (fields ev);
               subject := subject ev; body := body ev |} in
  match Marshal json (fields ev) with
  | inr e => panic (Error_string e)
  | inl data =>
      emit (CPublish (subject ev ++ ".error") data) ;;;
      ret ev
  end.

(** [func (ev *Event) Complete()] *)
Definition Event_Complete (ev : EventM) : M World EventM :=
  match Marshal json (fields ev) with
  | inr e =>
      ev <- Event_Error ev e ;;
      emit (CPublish (subject ev ++ ".done") []) ;;;
      ret ev
  | inl data =>
      emit (CPublish (subject ev ++ ".done") data) ;;;
      ret ev
  end.

(** [func (ev *Event) routeTableIsConfigured(rt *ec2.RouteTable) bool] *)
Definition Event_routeTableIsConfigured (ev : Event) (rt : option RouteTable)
  : M World bool :=
  routeTableIsConfigured rt (NatGatewayAWSID ev).

(** the body of the loop of [Event.Update] *)
Definition Event_Update_subnet (ev : Event) (svc : Config) (networkID : string)
  : M World (option error) :=
  ' (rt, err) <- Event_createRouteTable ec2 ev svc networkID ;;
  match err with
  | Some e => ret (Some e)
  | None =>
      configured <- Event_routeTableIsConfigured ev rt ;;
      if configured then ret None
      else createNatGatewayRoutes ec2 svc rt (NatGatewayAWSID ev)
  end.

(** [func (ev *Event) Update() error] *)
Definition Event_Update (ev : Event) : M World (Event * option error) :=
  let svc := ec2_New ev in
  err <- for_range (RoutedNetworkAWSIDs ev) (Event_Update_subnet ev svc) ;;
  ret (ev, err).

(** the world after [n] polls of the NAT gateway [id] *)
Fixpoint after_polls (svc : Config) (id : string) (n : nat) (w : World) : World :=
  match n with
  | O => w
  | S n' => after_polls svc id n' (fst (DescribeNatGateways ec2 svc id w))
  end.

(** the poll made in world [w] lists one gateway and its state is, or is
    not, "deleted" *)
Definition poll_sees (svc : Config) (id : string) (w : World) (deleted : bool) : Prop :=
  exists gw,
    snd (DescribeNatGateways ec2 svc id w) = inl [gw] /\
    (State gw =? NatGatewayStateDeleted) = deleted.

End EventMethods.

(** the calls of a wait that sleeps [sleeps] times: a describe, then a
    sleep of three seconds and a describe for each *)
Fixpoint wait_calls (id : string) (sleeps : nat) : list Call :=
  match sleeps with
  | O => [CDescribeNatGateways id]
  | S n => CDescribeNatGateways id :: CSleep (time_Second * 3) :: wait_calls id n
  end.

(** a subject part with no separator in it *)
Fixpoint has_dot (s : string) : bool :=
  match s with
  | EmptyString => false
  | String c rest => Ascii.eqb c "."%char || has_dot rest
  end.

(** two events that differ at most in the identifiers a workflow discovers *)
Definition same_request (ev ev' : Event) : Prop :=
  UUID ev' = UUID ev /\
  BatchID ev' = BatchID ev /\
  ProviderType ev' = ProviderType ev /\
  VPCID ev' = VPCID ev /\
  DatacenterRegion ev' = DatacenterRegion ev /\
  DatacenterAccessKey ev' = DatacenterAccessKey ev /\
  DatacenterAccessToken ev' = DatacenterAccessToken ev /\
  NetworkAWSID ev' = NetworkAWSID ev /\
  PublicNetwork ev' = PublicNetwork ev /\
  PublicNetworkAWSID ev' = PublicNetworkAWSID ev /\
  RoutedNetworks ev' = RoutedNetworks ev /\
  RoutedNetworkAWSIDs ev' = RoutedNetworkAWSIDs ev /\
  ErrorMessage ev' = ErrorMessage ev /\
  action ev' = action ev.

(** a call on a route table that concerns the VPC [vpc], one of the
    subnets [subnets] and, for a route, the default destination and the
    gateway [gw] *)
Definition route_call_for (vpc gw : string) (subnets : list string) (c : Call) : Prop :=
  match c with
  | CDescribeRouteTables subnet => In subnet subnets
  | CCreateRouteTable v => v = vpc
  | CAssociateRouteTable _ subnet => In subnet subnets
  | CCreateRoute _ dest target => dest = "0.0.0.0/0" /\ target = gw
  | _ => False
  end.

(** a call of the create workflow that concerns the request [ev] and the
    identifiers recorded in the event [ev'] it returns *)
Definition create_call_for (ev ev' : Event) (c : Call) : Prop :=
  match c with
  | CAllocateAddress => True
  | CDescribeInternetGateways vpc => vpc = VPCID ev
  | CCreateInternetGateway => True
  | CAttachInternetGateway _ vpc => vpc = VPCID ev
  | CCreateNatGateway alloc subnet =>
      alloc = NatGatewayAllocationID ev' /\ subnet = PublicNetworkAWSID ev
  | CWaitUntilNatGatewayAvailable gw => gw = NatGatewayAWSID ev'
  | _ => route_call_for (VPCID ev) (NatGatewayAWSID ev') (RoutedNetworkAWSIDs ev) c
  end.

(** the scripted cloud with other route tables *)
Definition with_tables (tables : string -> list RouteTable + error) (s : Script) : Script :=
  {| on_AllocateAddress := on_AllocateAddress s;
     on_DescribeInternetGateways := on_DescribeInternetGateways s;
     on_CreateInternetGateway := on_CreateInternetGateway s;
     on_AttachInternetGateway := on_AttachInternetGateway s;
     on_CreateNatGateway := on_CreateNatGateway s;
     on_WaitUntilNatGatewayAvailable := on_WaitUntilNatGatewayAvailable s;
     on_DescribeRouteTables := tables;
     on_CreateRouteTable := on_CreateRouteTable s;
     on_AssociateRouteTable := on_AssociateRouteTable s;
     on_CreateRoute := on_CreateRoute s;
     on_DeleteNatGateway := on_DeleteNatGateway s;
     on_DescribeNatGateways := on_DescribeNatGateways s |}.

(** a cloud whose tables hold the local route only *)
Definition unrouted : Script :=
  with_tables
    (fun subnet => inl [ {| RouteTableId := "rtb-" ++ subnet; Routes := [local_route] |} ])
    converged.

(** the default route of a public subnet: to an internet gateway, with no
    NAT gateway target *)
Definition internet_route : Route :=
  {| DestinationCidrBlock := Some "0.0.0.0/0"; RouteNatGatewayId := None |}.

(** a cloud whose tables route the default destination to an internet gateway *)
Definition public_routed : Script :=
  with_tables
    (fun subnet =>
       inl [ {| RouteTableId := "rtb-" ++ subnet;
                Routes := [local_route; internet_route] |} ])
    converged.

(** a cloud in which no subnet has a route table yet *)
Definition no_tables : Script := with_tables (fun _ => inl []) converged.

(** a cloud in which the VPC has no internet gateway and no subnet has a
    route table yet *)
Definition bare : Script :=
  {| on_AllocateAddress := on_AllocateAddress converged;
     on_DescribeInternetGateways := fun _ => inl [];
     on_CreateInternetGateway := on_CreateInternetGateway converged;
     on_AttachInternetGateway := on_AttachInternetGateway converged;
     on_CreateNatGateway := on_CreateNatGateway converged;
     on_WaitUntilNatGatewayAvailable := on_WaitUntilNatGatewayAvailable converged;
     on_DescribeRouteTables := fun _ => inl [];
     on_CreateRouteTable := on_CreateRouteTable converged;
     on_AssociateRouteTable := on_AssociateRouteTable converged;
     on_CreateRoute := on_CreateRoute converged;
     on_DeleteNatGateway := on_DeleteNatGateway converged;
     on_DescribeNatGateways := on_DescribeNatGateways converged |}.

(** a cloud that allocates addresses for EC2-Classic: the answer carries
    the public IP and no allocation ID *)
Definition classic : Script :=
  {| on_AllocateAddress :=
       inl {| AllocationId := None; PublicIp := Some "203.0.113.7" |};
     on_DescribeInternetGateways := on_DescribeInternetGateways converged;
     on_CreateInternetGateway := on_CreateInternetGateway converged;
     on_AttachInternetGateway := on_AttachInternetGateway converged;
     on_CreateNatGateway := on_CreateNatGateway converged;
     on_WaitUntilNatGatewayAvailable := on_WaitUntilNatGatewayAvailable converged;
     on_DescribeRouteTables := on_DescribeRouteTables converged;
     on_CreateRouteTable := on_CreateRouteTable converged;
     on_AssociateRouteTable := on_AssociateRouteTable converged;
     on_CreateRoute := on_CreateRoute converged;
     on_DeleteNatGateway := on_DeleteNatGateway converged;
     on_DescribeNatGateways := on_DescribeNatGateways converged |}.

(** the allocation answer carries both fields the program dereferences *)
Definition allocation_complete (addr : AllocateAddressOutput) : Prop :=
  exists id ip, AllocationId addr = Some id /\ PublicIp addr = Some ip.

(** a cloud that lists two NAT gateways for one ID *)
Definition doubled : Script :=
  {| on_AllocateAddress := on_AllocateAddress converged;
     on_DescribeInternetGateways := on_DescribeInternetGateways converged;
     on_CreateInternetGateway := on_CreateInternetGateway converged;
     on_AttachInternetGateway := on_AttachInternetGateway converged;
     on_CreateNatGateway := on_CreateNatGateway converged;
     on_WaitUntilNatGatewayAvailable := on_WaitUntilNatGatewayAvailable converged;
     on_DescribeRouteTables := on_DescribeRouteTables converged;
     on_CreateRouteTable := on_CreateRouteTable converged;
     on_AssociateRouteTable := on_AssociateRouteTable converged;
     on_CreateRoute := on_CreateRoute converged;
     on_DeleteNatGateway := on_DeleteNatGateway converged;
     on_DescribeNatGateways := fun _ =>
       inl [ {| NatGatewayId := "nat-1"; State := "deleted" |};
             {| NatGatewayId := "nat-1"; State := "deleted" |} ] |}.

(** ** Proof steps *)

(** rewrite the tests of a string against the empty string *)
Ltac string_tests :=
  repeat match goal with
    | H : ?s = EmptyString |- context [String.eqb ?s EmptyString] =>
        rewrite (proj2 (String.eqb_eq s EmptyString) H)
    | H : ?s <> EmptyString |- context [String.eqb ?s EmptyString] =>
        rewrite (proj2 (String.eqb_neq s EmptyString) H)
    end.

(** case analysis on an innermost scrutinee of the goal *)
Ltac break_match :=
  match goal with
  | |- context [match ?x with _ => _ end] =>
      lazymatch x with
      | context [match _ with _ => _ end] => fail
      | _ => destruct x eqn:?; simpl
      end
  end.

(** a literal list of calls, all of one kind *)
Ltac provisioning_calls :=
  repeat (apply Forall_app; split);
  repeat (constructor; try reflexivity).

(** * Properties *)

Unset Implicit Arguments.

Example split_create : strings_Split_dot "nat.create.aws" = ["nat"; "create"; "aws"].
Proof. reflexivity. Qed.

Example split_no_separator : strings_Split_dot "nat" = ["nat"].
Proof. reflexivity. Qed.

Example split_trailing : strings_Split_dot "nat." = ["nat"; ""].
Proof. reflexivity. Qed.

(** ** Validation *)

Lemma validation_errors_distinct : NoDup validation_errors.
Proof.
  unfold validation_errors.
  repeat constructor; simpl; intuition discriminate.
Qed.

Lemma Validate_delete_ignores_networks (ev : Event) (pub : string) (routed : list string) :
  Validate (set_networks pub routed ev) "nat.delete.aws" = Validate ev "nat.delete.aws".
Proof. reflexivity. Qed.

(** C8, as the code has it: a delete request whose VPC ID, region and both
    credentials are present fails validation with the NAT gateway ID error
    exactly when its [nat_gateway_aws_id] is empty, whatever its public
    network and routed networks are. *)
Theorem delete_requires_nat_gateway_id (ev : Event) :
  VPCID ev <> "" ->
  DatacenterRegion ev <> "" ->
  DatacenterAccessKey ev <> "" ->
  DatacenterAccessToken ev <> "" ->
  (NatGatewayAWSID ev = "" ->
     Validate ev "nat.delete.aws" = Some ErrNatGatewayIDInvalid) /\
  (NatGatewayAWSID ev <> "" ->
     Validate ev "nat.delete.aws" = None) /\
  (forall pub routed,
     Validate (set_networks pub routed ev) "nat.delete.aws"
     = Validate ev "nat.delete.aws").
Proof.
  intros Hvpc Hregion Hkey Htoken.
  repeat split.
  - intros Hnat. unfold Validate. string_tests. reflexivity.
  - intros Hnat. unfold Validate. string_tests. reflexivity.
Qed.

Lemma delete_requires_nat_gateway_id_witness :
  Validate (set_NatGatewayAWSID "" bare_delete_event) "nat.delete.aws"
    = Some ErrNatGatewayIDInvalid
  /\ Validate bare_delete_event "nat.delete.aws" = None.
Proof.
  split.
  - apply (delete_requires_nat_gateway_id (set_NatGatewayAWSID "" bare_delete_event));
      simpl; try discriminate; reflexivity.
  - apply (delete_requires_nat_gateway_id bare_delete_event);
      simpl; discriminate.
Defined.

(** C8 as stated fails: a delete request with neither a NAT gateway ID nor a
    VPC ID is answered with the VPC ID error. *)
Lemma delete_without_nat_id_other_error :
  NatGatewayAWSID no_vpc_no_nat_event = ""
  /\ Validate no_vpc_no_nat_event "nat.delete.aws" = Some ErrDatacenterIDInvalid
  /\ Validate no_vpc_no_nat_event "nat.delete.aws" <> Some ErrNatGatewayIDInvalid.
Proof.
  repeat split. discriminate.
Qed.

(** C10: validation of a delete request checks the VPC ID, the region and
    the credentials, in this order, before the NAT gateway ID, so a delete
    request with an empty [vpc_id] fails with the VPC ID error; and the
    delete workflow makes the same calls and ends the same whatever the
    VPC ID is. *)
Theorem delete_validation_order (ev : Event) :
  (VPCID ev = "" ->
     Validate ev "nat.delete.aws" = Some ErrDatacenterIDInvalid) /\
  (VPCID ev <> "" -> DatacenterRegion ev = "" ->
     Validate ev "nat.delete.aws" = Some ErrDatacenterRegionInvalid) /\
  (VPCID ev <> "" -> DatacenterRegion ev <> "" ->
   DatacenterAccessKey ev = "" \/ DatacenterAccessToken ev = "" ->
     Validate ev "nat.delete.aws" = Some ErrDatacenterCredentialsInvalid) /\
  (VPCID ev <> "" -> DatacenterRegion ev <> "" ->
   DatacenterAccessKey ev <> "" -> DatacenterAccessToken ev <> "" ->
   NatGatewayAWSID ev = "" ->
     Validate ev "nat.delete.aws" = Some ErrNatGatewayIDInvalid) /\
  (Validate ev "nat.delete.aws" = None ->
     VPCID ev <> "" /\ DatacenterRegion ev <> "" /\
     DatacenterAccessKey ev <> "" /\ DatacenterAccessToken ev <> "" /\
     NatGatewayAWSID ev <> "") /\
  (forall (World : Type) (ec2 : EC2 World) (fuel : nat) (vpc : string) (w : World),
     final (DeleteNat ec2 fuel (set_VPCID vpc ev) w) = final (DeleteNat ec2 fuel ev w) /\
     calls (DeleteNat ec2 fuel (set_VPCID vpc ev) w) = calls (DeleteNat ec2 fuel ev w) /\
     error_of (value (DeleteNat ec2 fuel (set_VPCID vpc ev) w))
     = error_of (value (DeleteNat ec2 fuel ev w))).
Proof.
  repeat apply conj.
  - intros H. unfold Validate. string_tests. reflexivity.
  - intros H1 H2. unfold Validate. string_tests. reflexivity.
  - intros H1 H2 [H3 | H3]; unfold Validate; string_tests.
    + reflexivity.
    + rewrite orb_true_r. reflexivity.
  - intros H1 H2 H3 H4 H5. unfold Validate. string_tests. reflexivity.
  - unfold Validate.
    destruct (VPCID ev =? "") eqn:E1; [discriminate|].
    destruct (DatacenterRegion ev =? "") eqn:E2; [discriminate|].
    destruct (DatacenterAccessKey ev =? "") eqn:E3; [discriminate|].
    destruct (DatacenterAccessToken ev =? "") eqn:E4; [discriminate|].
    simpl.
    destruct (NatGatewayAWSID ev =? "") eqn:E5; [discriminate|].
    intros _. repeat split; apply String.eqb_neq; assumption.
  - intros World ec2 fuel vpc w.
    unfold DeleteNat.
    change (ec2_New (set_VPCID vpc ev)) with (ec2_New ev).
    change (NatGatewayAWSID (set_VPCID vpc ev)) with (NatGatewayAWSID ev).
    unfold bind, remote. simpl.
    destruct (DeleteNatGateway ec2 (ec2_New ev) (NatGatewayAWSID ev) w) as [w1 [e|]];
      simpl; [repeat split|].
    destruct (value (DeleteNat_wait ec2 fuel (ec2_New ev) (NatGatewayAWSID ev) w1));
      simpl; repeat split.
Qed.

Lemma delete_validation_order_witness :
  Validate no_vpc_event "nat.delete.aws" = Some ErrDatacenterIDInvalid.
Proof.
  exact (proj1 (delete_validation_order no_vpc_event) eq_refl).
Defined.

(** ** The scripted codec *)

Lemma example_json_for_Event (base : Event) : json_for_Event (example_json base).
Proof.
  split.
  - intros ev. eexists. reflexivity.
  - intros data ev. destruct data as [|b rest]; [reflexivity|].
    destruct b; reflexivity.
Qed.

(** ** Lookups *)

Section Lookups.

Context {World : Type} (ec2 : EC2 World).

(** C6, as the code has it: when the describe call lists nothing, the
    lookup of an internet gateway by VPC and the lookup of a route table
    by subnet return no resource and no error, and the lookup of a NAT
    gateway by ID returns the error "Could not find nat gateway". *)
Theorem lookup_of_absent_resource (svc : Config) (key : string) (w : World) :
  (snd (DescribeInternetGateways ec2 svc key w) = inl [] ->
     value (internetGatewayByVPCID ec2 svc key w) = Ret (None, None)) /\
  (snd (DescribeRouteTables ec2 svc key w) = inl [] ->
     value (routingTableBySubnetID ec2 svc key w) = Ret (None, None)) /\
  (snd (DescribeNatGateways ec2 svc key w) = inl [] ->
     value (natGatewayByID ec2 svc key w)
     = Ret (None, Some (errors_New "Could not find nat gateway"))).
Proof.
  repeat apply conj; intros H.
  - unfold internetGatewayByVPCID, bind, remote. simpl. rewrite H. reflexivity.
  - unfold routingTableBySubnetID, bind, remote. simpl. rewrite H. reflexivity.
  - unfold natGatewayByID, bind, remote. simpl. rewrite H. reflexivity.
Qed.

(** C3, on the code: when the describe call of a poll fails, or lists no
    gateway, [isNatGatewayDeleted] dereferences the nil gateway and
    panics; the wait loop ends there, with no sleep and no further poll. *)
Theorem failed_describe_panics (svc : Config) (id : string) (w : World) (fuel : nat) :
  (exists e, snd (DescribeNatGateways ec2 svc id w) = inr e)
  \/ snd (DescribeNatGateways ec2 svc id w) = inl [] ->
  isNatGatewayDeleted ec2 svc id w
  = mkRun (fst (DescribeNatGateways ec2 svc id w))
      [CDescribeNatGateways id]
      (Panic "invalid memory address or nil pointer dereference")
  /\ DeleteNat_wait ec2 (S fuel) svc id w
     = mkRun (fst (DescribeNatGateways ec2 svc id w))
         [CDescribeNatGateways id]
         (Panic "invalid memory address or nil pointer dereference").
Proof.
  intros H.
  assert (E : isNatGatewayDeleted ec2 svc id w
              = mkRun (fst (DescribeNatGateways ec2 svc id w))
                  [CDescribeNatGateways id]
                  (Panic "invalid memory address or nil pointer dereference")).
  { unfold isNatGatewayDeleted, natGatewayByID, bind, remote. simpl.
    destruct H as [[e H] | H]; rewrite H; reflexivity. }
  split; [exact E|].
  simpl. unfold bind. rewrite E. reflexivity.
Qed.

(** a poll that sees the gateway in another state sleeps three seconds and
    polls again *)
Lemma DeleteNat_wait_not_yet (svc : Config) (id : string) (w : World) (fuel : nat) :
  value (isNatGatewayDeleted ec2 svc id w) = Ret false ->
  let w1 := final (isNatGatewayDeleted ec2 svc id w) in
  DeleteNat_wait ec2 (S fuel) svc id w
  = mkRun (final (DeleteNat_wait ec2 fuel svc id w1))
      (calls (isNatGatewayDeleted ec2 svc id w)
       ++ [CSleep (3 * 1000000000)]
       ++ calls (DeleteNat_wait ec2 fuel svc id w1))
      (value (DeleteNat_wait ec2 fuel svc id w1)).
Proof.
  intros H w1. simpl. unfold bind, emit. rewrite H. simpl. fold w1.
  destruct (value (DeleteNat_wait ec2 fuel svc id w1)); reflexivity.
Qed.

(** a poll that sees the gateway deleted ends the wait *)
Lemma DeleteNat_wait_deleted (svc : Config) (id : string) (w : World) (fuel : nat) :
  value (isNatGatewayDeleted ec2 svc id w) = Ret true ->
  DeleteNat_wait ec2 (S fuel) svc id w
  = mkRun (final (isNatGatewayDeleted ec2 svc id w))
      (calls (isNatGatewayDeleted ec2 svc id w))
      (Ret tt).
Proof.
  intros H. simpl. unfold bind. rewrite H. simpl.
  rewrite app_nil_r. reflexivity.
Qed.

(** a poll is one describe call, and sees the gateway deleted exactly when
    the call lists one gateway in state "deleted" *)
Lemma isNatGatewayDeleted_listed (svc : Config) (id : string) (w : World) (gw : NatGateway) :
  snd (DescribeNatGateways ec2 svc id w) = inl [gw] ->
  isNatGatewayDeleted ec2 svc id w
  = mkRun (fst (DescribeNatGateways ec2 svc id w))
      [CDescribeNatGateways id]
      (Ret (State gw =? "deleted")).
Proof.
  intros H. unfold isNatGatewayDeleted, natGatewayByID, bind, remote, deref.
  simpl. rewrite H. simpl.
  unfold NatGatewayStateDeleted. destruct (State gw =? "deleted"); reflexivity.
Qed.

End Lookups.

Lemma failed_describe_panics_witness :
  value (isNatGatewayDeleted (scripted throttled) (ec2_New example_event) "nat-1" 1)
    = Panic "invalid memory address or nil pointer dereference"
  /\ calls (DeleteNat_wait (scripted throttled) 10 (ec2_New example_event) "nat-1" 1)
     = [CDescribeNatGateways "nat-1"].
Proof.
  pose proof (failed_describe_panics (scripted throttled) (ec2_New example_event)
                "nat-1" 1 9
                (or_introl (ex_intro _ (awserr "RequestLimitExceeded") eq_refl))) as [H1 H2].
  split.
  - rewrite H1. reflexivity.
  - rewrite H2. reflexivity.
Defined.

Lemma lookup_of_absent_resource_witness :
  value (natGatewayByID (scripted vanished) (ec2_New example_event) "nat-1" 0)
  = Ret (None, Some (errors_New "Could not find nat gateway")).
Proof.
  apply (lookup_of_absent_resource (scripted vanished) (ec2_New example_event) "nat-1" 0).
  reflexivity.
Defined.

(** C6 as stated fails for the NAT gateway: the describe call succeeds and
    lists nothing, and the lookup returns an error. *)
Lemma absent_nat_gateway_is_an_error :
  snd (DescribeNatGateways (scripted vanished) (ec2_New example_event) "nat-1" 0) = inl []
  /\ natGatewayByID (scripted vanished) (ec2_New example_event) "nat-1" 0
     = mkRun 1 [CDescribeNatGateways "nat-1"]
         (Ret (None, Some (errors_New "Could not find nat gateway")))
  /\ value (natGatewayByID (scripted vanished) (ec2_New example_event) "nat-1" 0)
     <> Ret (None, None).
Proof.
  repeat split. discriminate.
Qed.

(** The delete workflow on the scripted cloud: the gateway is seen deleted
    at the third poll, three seconds apart. *)
Example DeleteNat_polls_until_deleted :
  calls (DeleteNat (scripted converged) 10 example_event 0)
  = [CDeleteNatGateway "nat-1";
     CDescribeNatGateways "nat-1"; CSleep (3 * 1000000000);
     CDescribeNatGateways "nat-1"; CSleep (3 * 1000000000);
     CDescribeNatGateways "nat-1"]
  /\ error_of (value (DeleteNat (scripted converged) 10 example_event 0)) = Ret None.
Proof. split; reflexivity. Qed.

Example DeleteNat_panics_when_gateway_vanishes :
  calls (DeleteNat (scripted vanished) 10 example_event 0)
  = [CDeleteNatGateway "nat-1"; CDescribeNatGateways "nat-1"]
  /\ value (DeleteNat (scripted vanished) 10 example_event 0)
     = Panic "invalid memory address or nil pointer dereference".
Proof. split; reflexivity. Qed.

(** ** Runs *)

Section Runs.

Context {World : Type}.

Lemma bind_Ret {A B : Type} (m : M World A) (f : A -> M World B) (w : World) (a : A) :
  value (m w) = Ret a ->
  bind m f w
  = mkRun (final (f a (final (m w))))
      (calls (m w) ++ calls (f a (final (m w))))
      (value (f a (final (m w)))).
Proof. intros H. unfold bind. rewrite H. reflexivity. Qed.

Lemma bind_Panic {A B : Type} (m : M World A) (f : A -> M World B) (w : World) (msg : string) :
  value (m w) = Panic msg ->
  bind m f w = mkRun (final (m w)) (calls (m w)) (Panic msg).
Proof. intros H. unfold bind. rewrite H. reflexivity. Qed.

Lemma bind_OutOfFuel {A B : Type} (m : M World A) (f : A -> M World B) (w : World) :
  value (m w) = OutOfFuel ->
  bind m f w = mkRun (final (m w)) (calls (m w)) OutOfFuel.
Proof. intros H. unfold bind. rewrite H. reflexivity. Qed.

(** what holds of the calls of both parts holds of the calls of a sequence *)
Lemma bind_calls_Forall {A B : Type} (Q : Call -> Prop)
      (m : M World A) (f : A -> M World B) (w : World) :
  Forall Q (calls (m w)) ->
  (forall a, value (m w) = Ret a -> Forall Q (calls (f a (final (m w))))) ->
  Forall Q (calls (bind m f w)).
Proof.
  intros Hm Hf. unfold bind.
  destruct (value (m w)) as [a | msg |] eqn:E; simpl; auto.
  apply Forall_app. split; auto.
Qed.

Lemma for_range_calls_Forall (Q : Call -> Prop)
      (body : string -> M World (option error)) (xs : list string) :
  (forall x w, In x xs -> Forall Q (calls (body x w))) ->
  forall w, Forall Q (calls (for_range xs body w)).
Proof.
  induction xs as [|x rest IH]; intros Hbody w; simpl.
  - constructor.
  - apply bind_calls_Forall.
    + apply Hbody. left. reflexivity.
    + intros [e|] _; simpl; [constructor|].
      apply IH. intros y w' Hy. apply Hbody. right. exact Hy.
Qed.

(** the loop stops at the first element whose body returns an error: the
    elements after it are not visited *)
Lemma for_range_abort (body : string -> M World (option error))
      (pre post : list string) (x : string) (e : error) (w : World) :
  value (for_range pre body w) = Ret None ->
  value (body x (final (for_range pre body w))) = Ret (Some e) ->
  for_range (pre ++ x :: post) body w
  = mkRun (final (body x (final (for_range pre body w))))
      (calls (for_range pre body w) ++ calls (body x (final (for_range pre body w))))
      (Ret (Some e)).
Proof.
  revert w. induction pre as [|p pre IH]; intros w Hpre Hx; simpl in *.
  - unfold bind. rewrite Hx. simpl. rewrite app_nil_r. reflexivity.
  - unfold bind in *.
    destruct (value (body p w)) as [[e'|] | msg |] eqn:Ep; simpl in *;
      try discriminate.
    rewrite (IH (final (body p w)) Hpre Hx). simpl.
    rewrite app_assoc. reflexivity.
Qed.

End Runs.

(** ** The workflows call the provider only to look up, wait and create *)

Lemma route_setup_provisioning (c : Call) : route_setup c -> provisioning c.
Proof. destruct c; intros H; try discriminate H; reflexivity. Qed.

Lemma route_setup_not_igw_creation (c : Call) : route_setup c -> is_igw_creation c = false.
Proof. destruct c; intros H; try discriminate H; reflexivity. Qed.

Section Workflows.

Context {World : Type} (ec2 : EC2 World).

Lemma createInternetGateway_provisioning (svc : Config) (vpc : string) (w : World) :
  Forall provisioning (calls (createInternetGateway ec2 svc vpc w)).
Proof.
  unfold createInternetGateway, internetGatewayByVPCID, bind, remote. simpl.
  repeat break_match; provisioning_calls.
Qed.

Lemma createRouteTable_route_setup (svc : Config) (vpc subnet : string) (w : World) :
  Forall route_setup (calls (createRouteTable ec2 svc vpc subnet w)).
Proof.
  unfold createRouteTable, routingTableBySubnetID, bind, remote. simpl.
  repeat break_match; provisioning_calls.
Qed.

Lemma createNatGatewayRoutes_route_setup
      (svc : Config) (rt : option RouteTable) (gw : string) (w : World) :
  Forall route_setup (calls (createNatGatewayRoutes ec2 svc rt gw w)).
Proof.
  unfold createNatGatewayRoutes, bind, remote, deref.
  destruct rt; simpl; provisioning_calls.
Qed.

(** scanning a route table is local: no call, the world as it was *)
Lemma routes_configured_local (routes : list Route) (gw : string) (w : World) :
  calls (routes_configured routes gw w) = [] /\
  final (routes_configured routes gw w) = w.
Proof.
  induction routes as [|route rest [IHc IHf]]; simpl; [split; reflexivity|].
  unfold bind, deref.
  destruct (DestinationCidrBlock route) as [dest|]; simpl; [|split; reflexivity].
  destruct (dest =? "0.0.0.0/0"); simpl.
  - destruct (RouteNatGatewayId route) as [target|]; simpl; [|split; reflexivity].
    destruct (target =? gw); simpl; [split; reflexivity|].
    rewrite IHc, IHf. destruct (value (routes_configured rest gw w)); split; reflexivity.
  - rewrite IHc, IHf. destruct (value (routes_configured rest gw w)); split; reflexivity.
Qed.

Lemma routeTableIsConfigured_local (rt : option RouteTable) (gw : string) (w : World) :
  calls (routeTableIsConfigured rt gw w) = [] /\
  final (routeTableIsConfigured rt gw w) = w.
Proof.
  unfold routeTableIsConfigured, bind, deref.
  destruct rt as [t|]; simpl; [|split; reflexivity].
  destruct (routes_configured_local (Routes t) gw w) as [Hc Hf].
  rewrite Hc, Hf.
  destruct (value (routes_configured (Routes t) gw w)); split; reflexivity.
Qed.

Lemma CreateNat_subnet_route_setup (svc : Config) (vpc gw x : string) (w : World) :
  Forall route_setup (calls (CreateNat_subnet ec2 svc vpc gw x w)).
Proof.
  unfold CreateNat_subnet.
  apply bind_calls_Forall; [apply createRouteTable_route_setup|].
  intros [rt [e|]] _; simpl; [constructor|].
  apply createNatGatewayRoutes_route_setup.
Qed.

Lemma UpdateNat_subnet_route_setup (svc : Config) (vpc gw x : string) (w : World) :
  Forall route_setup (calls (UpdateNat_subnet ec2 svc vpc gw x w)).
Proof.
  unfold UpdateNat_subnet.
  apply bind_calls_Forall; [apply createRouteTable_route_setup|].
  intros [rt [e|]] _; simpl; [constructor|].
  apply bind_calls_Forall.
  - rewrite (proj1 (routeTableIsConfigured_local rt gw _)). constructor.
  - intros [|] _; simpl; [constructor|].
    apply createNatGatewayRoutes_route_setup.
Qed.

Lemma CreateNat_subnet_provisioning (svc : Config) (vpc gw x : string) (w : World) :
  Forall provisioning (calls (CreateNat_subnet ec2 svc vpc gw x w)).
Proof.
  eapply Forall_impl; [apply route_setup_provisioning|].
  apply CreateNat_subnet_route_setup.
Qed.

Lemma UpdateNat_subnet_provisioning (svc : Config) (vpc gw x : string) (w : World) :
  Forall provisioning (calls (UpdateNat_subnet ec2 svc vpc gw x w)).
Proof.
  eapply Forall_impl; [apply route_setup_provisioning|].
  apply UpdateNat_subnet_route_setup.
Qed.

Lemma CreateNat_provisioning (ev : Event) (w : World) :
  Forall provisioning (calls (CreateNat ec2 ev w)).
Proof.
  unfold CreateNat.
  apply bind_calls_Forall; [provisioning_calls|].
  intros [addr | e] _; [|constructor].
  apply bind_calls_Forall; [destruct (AllocationId addr); constructor|].
  intros id _.
  apply bind_calls_Forall; [destruct (PublicIp addr); constructor|].
  intros ip _.
  apply bind_calls_Forall; [apply createInternetGateway_provisioning|].
  intros [igw [e|]] _; [constructor|].
  apply bind_calls_Forall; [provisioning_calls|].
  intros [gw | e] _; [|constructor].
  apply bind_calls_Forall; [provisioning_calls|].
  intros [e|] _; [constructor|].
  apply bind_calls_Forall; [|intros; constructor].
  apply for_range_calls_Forall. intros x w' _.
  apply CreateNat_subnet_provisioning.
Qed.

Lemma UpdateNat_provisioning (ev : Event) (w : World) :
  Forall provisioning (calls (UpdateNat ec2 ev w)).
Proof.
  unfold UpdateNat.
  apply bind_calls_Forall; [|intros; constructor].
  apply for_range_calls_Forall. intros x w' _.
  apply UpdateNat_subnet_provisioning.
Qed.

Lemma switch_action_provisioning (part : string) (ev : Event) (w : World) :
  Forall provisioning (calls (switch_action ec2 part ev w)).
Proof.
  unfold switch_action.
  destruct (part =? "create"); [apply CreateNat_provisioning|].
  destruct (part =? "update"); [apply UpdateNat_provisioning|].
  destruct (part =? "delete"); constructor.
Qed.

(** the resolution of the internet gateway and the step of a subnet always
    return: they have no nil dereference and no unbounded loop *)
Lemma createInternetGateway_returns (svc : Config) (vpc : string) (w : World) :
  exists id err, value (createInternetGateway ec2 svc vpc w) = Ret (id, err).
Proof.
  unfold createInternetGateway, internetGatewayByVPCID, bind, remote. simpl.
  repeat break_match; eexists _, _; reflexivity.
Qed.

Lemma CreateNat_subnet_returns (svc : Config) (vpc gw x : string) (w : World) :
  exists err, value (CreateNat_subnet ec2 svc vpc gw x w) = Ret err.
Proof.
  unfold CreateNat_subnet, createRouteTable, routingTableBySubnetID,
    createNatGatewayRoutes, bind, remote, deref. simpl.
  repeat break_match; eexists; reflexivity.
Qed.

Lemma for_range_returns (body : string -> M World (option error)) (xs : list string) :
  (forall x w, exists err, value (body x w) = Ret err) ->
  forall w, exists err, value (for_range xs body w) = Ret err.
Proof.
  intros Hbody. induction xs as [|x rest IH]; intros w; simpl.
  - eexists. reflexivity.
  - unfold bind. destruct (Hbody x w) as [[e|] Hx]; rewrite Hx; simpl.
    + eexists. reflexivity.
    + apply IH.
Qed.

(** the run of [CreateNat], step by step *)
Lemma CreateNat_run (ev : Event) (w : World) :
  let svc := ec2_New ev in
  let allocated := AllocateAddress ec2 svc w in
  let igw := createInternetGateway ec2 svc (VPCID ev) (fst allocated) in
  let nil := "invalid memory address or nil pointer dereference" in
  CreateNat ec2 ev w
  = match snd allocated with
    | inr e => mkRun (fst allocated) [CAllocateAddress] (Ret (ev, Some e))
    | inl addr =>
        match AllocationId addr, PublicIp addr with
        | None, _ => mkRun (fst allocated) [CAllocateAddress] (Panic nil)
        | Some _, None => mkRun (fst allocated) [CAllocateAddress] (Panic nil)
        | Some aid, Some ip =>
        let ev1 := set_Allocation aid ip ev in
        match value igw with
        | Ret (id, Some e) =>
            mkRun (final igw) ([CAllocateAddress] ++ calls igw)
              (Ret (set_InternetGatewayID id ev1, Some e))
        | Ret (id, None) =>
            let ev2 := set_InternetGatewayID id ev1 in
            let created :=
              CreateNatGateway ec2 svc aid (PublicNetworkAWSID ev) (final igw) in
            let create_call := CCreateNatGateway aid (PublicNetworkAWSID ev) in
            match snd created with
            | inr e =>
                mkRun (fst created) ([CAllocateAddress] ++ calls igw ++ [create_call])
                  (Ret (ev2, Some e))
            | inl gw =>
                let ev3 := set_NatGatewayAWSID (NatGatewayId gw) ev2 in
                let waited :=
                  WaitUntilNatGatewayAvailable ec2 svc (NatGatewayId gw) (fst created) in
                let wait_call := CWaitUntilNatGatewayAvailable (NatGatewayId gw) in
                match snd waited with
                | Some e =>
                    mkRun (fst waited)
                      ([CAllocateAddress] ++ calls igw ++ [create_call; wait_call])
                      (Ret (ev3, Some e))
                | None =>
                    let loop :=
                      for_range (RoutedNetworkAWSIDs ev)
                        (CreateNat_subnet ec2 svc (VPCID ev) (NatGatewayId gw))
                        (fst waited) in
                    mkRun (final loop)
                      ([CAllocateAddress] ++ calls igw ++ [create_call; wait_call]
                       ++ calls loop)
                      (match value loop with
                       | Ret err => Ret (ev3, err)
                       | Panic msg => Panic msg
                       | OutOfFuel => OutOfFuel
                       end)
                end
            end
        | Panic msg => mkRun (final igw) ([CAllocateAddress] ++ calls igw) (Panic msg)
        | OutOfFuel => mkRun (final igw) ([CAllocateAddress] ++ calls igw) OutOfFuel
        end
        end
    end.
Proof.
  intros svc allocated igw nil.
  unfold CreateNat. fold svc. unfold bind, remote, deref. simpl. fold allocated.
  destruct (snd allocated) as [addr | e]; simpl; [|reflexivity].
  destruct (AllocationId addr) as [aid|]; simpl; [|reflexivity].
  destruct (PublicIp addr) as [ip|]; simpl; [|reflexivity].
  fold igw.
  destruct (value igw) as [[id [e|]] | msg |]; simpl;
    rewrite ?app_nil_r; try reflexivity.
  repeat break_match; rewrite ?app_nil_r; reflexivity.
Qed.

(** the workflows leave [action] as it is *)
Lemma CreateNat_action (ev ev' : Event) (err : option error) (w : World) :
  value (CreateNat ec2 ev w) = Ret (ev', err) -> action ev' = action ev.
Proof.
  unfold CreateNat, bind, remote, deref. simpl.
  repeat break_match; intros H; inversion H; reflexivity.
Qed.

Lemma UpdateNat_action (ev ev' : Event) (err : option error) (w : World) :
  value (UpdateNat ec2 ev w) = Ret (ev', err) -> action ev' = action ev.
Proof.
  unfold UpdateNat, bind.
  repeat break_match; intros H; inversion H; reflexivity.
Qed.

Lemma switch_action_action (part : string) (ev ev' : Event) (err : option error) (w : World) :
  value (switch_action ec2 part ev w) = Ret (ev', err) -> action ev' = action ev.
Proof.
  unfold switch_action.
  destruct (part =? "create"); [apply CreateNat_action|].
  destruct (part =? "update"); [apply UpdateNat_action|].
  destruct (part =? "delete"); simpl; intros H; inversion H; reflexivity.
Qed.

(** the switch of the handler makes no call for a delete request *)
Lemma switch_action_delete (ev : Event) (w : World) :
  switch_action ec2 "delete" ev w = mkRun w [] (Ret (ev, None)).
Proof. reflexivity. Qed.

End Workflows.

(** ** The handler *)

Lemma provisioning_not_publish (t : list Call) :
  Forall provisioning t -> filter is_publish t = [].
Proof.
  induction 1 as [|c t Hc _ IH]; simpl; [reflexivity|].
  destruct c; simpl in *; try discriminate Hc; exact IH.
Qed.

Lemma provisioning_remote (t : list Call) :
  Forall provisioning t -> Forall (fun c => is_remote c = true) t.
Proof.
  apply Forall_impl. intros c Hc. destruct c; try discriminate Hc; reflexivity.
Qed.

Lemma provisioning_not_removal (t : list Call) :
  Forall provisioning t -> Forall (fun c => is_removal c = false) t.
Proof.
  apply Forall_impl. intros c Hc. destruct c; try discriminate Hc; reflexivity.
Qed.

Section Handler.

Context {World : Type} (ec2 : EC2 World) (json : JSON).

Lemma Process_run (ev : Event) (subject a : string) (data : bytes) (w : World) :
  nth_error (strings_Split_dot subject) 1 = Some a ->
  Process json ev subject data w
  = match snd (Unmarshal json data (set_action a ev)) with
    | Some err =>
        mkRun w [CPublish (subject ++ ".error") data]
          (Ret (fst (Unmarshal json data (set_action a ev)), Some err))
    | None =>
        mkRun w [] (Ret (fst (Unmarshal json data (set_action a ev)), None))
    end.
Proof.
  intros Ha. unfold Process, index1, bind. rewrite Ha. simpl.
  destruct (snd (Unmarshal json data (set_action a ev))); reflexivity.
Qed.

Lemma Error_run (ev : Event) (e : error) (data : bytes) (w : World) :
  Marshal json (set_ErrorMessage (Error_string e) ev) = inl data ->
  Error json ev e w
  = mkRun w [CPublish ("nat." ++ action ev ++ ".aws.error") data]
      (Ret (set_ErrorMessage (Error_string e) ev)).
Proof.
  intros H. unfold Error. rewrite H. reflexivity.
Qed.

Lemma Complete_run (ev : Event) (data : bytes) (w : World) :
  Marshal json ev = inl data ->
  Complete json ev w
  = mkRun w [CPublish ("nat." ++ action ev ++ ".aws.done") data] (Ret ev).
Proof.
  intros H. unfold Complete. rewrite H. reflexivity.
Qed.

(** the handler, case by case, for a subject with an action part *)
Lemma eventHandler_run (m : Msg) (a : string) (w : World) :
  json_for_Event json ->
  nth_error (strings_Split_dot (Subject m)) 1 = Some a ->
  let decoded := Unmarshal json (Data m) (set_action a Event_zero) in
  let workflow := switch_action ec2 a (fst decoded) w in
  (snd decoded <> None ->
     eventHandler ec2 json m w
     = mkRun w [CPublish (Subject m ++ ".error") (Data m)] (Ret tt)) /\
  (forall e,
     snd decoded = None ->
     Validate (fst decoded) (Subject m) = Some e ->
     exists data,
       Marshal json (set_ErrorMessage (Error_string e) (fst decoded)) = inl data /\
       eventHandler ec2 json m w
       = mkRun w [CPublish ("nat." ++ a ++ ".aws.error") data] (Ret tt)) /\
  (forall n e,
     snd decoded = None ->
     Validate (fst decoded) (Subject m) = None ->
     value workflow = Ret (n, Some e) ->
     exists data,
       Marshal json (set_ErrorMessage (Error_string e) n) = inl data /\
       eventHandler ec2 json m w
       = mkRun (final workflow)
           (calls workflow ++ [CPublish ("nat." ++ a ++ ".aws.error") data])
           (Ret tt)) /\
  (forall n,
     snd decoded = None ->
     Validate (fst decoded) (Subject m) = None ->
     value workflow = Ret (n, None) ->
     exists data,
       Marshal json n = inl data /\
       eventHandler ec2 json m w
       = mkRun (final workflow)
           (calls workflow ++ [CPublish ("nat." ++ a ++ ".aws.done") data])
           (Ret tt)) /\
  (forall msg,
     snd decoded = None ->
     Validate (fst decoded) (Subject m) = None ->
     value workflow = Panic msg ->
     eventHandler ec2 json m w
     = mkRun (final workflow) (calls workflow) (Panic msg)) /\
  (snd decoded = None ->
   Validate (fst decoded) (Subject m) = None ->
   value workflow = OutOfFuel ->
   eventHandler ec2 json m w
   = mkRun (final workflow) (calls workflow) OutOfFuel).
Proof.
  intros [Htotal Haction] Ha decoded workflow.
  assert (Hact : action (fst decoded) = a).
  { unfold decoded. rewrite Haction. reflexivity. }
  repeat apply conj.
  - intros Hdec. unfold eventHandler, bind.
    rewrite (Process_run _ _ _ _ _ Ha). fold decoded.
    destruct (snd decoded); [reflexivity | congruence].
  - intros e Hdec Hval.
    destruct (Htotal (set_ErrorMessage (Error_string e) (fst decoded))) as [data Hdata].
    exists data. split; [exact Hdata|].
    unfold eventHandler, bind.
    rewrite (Process_run _ _ _ _ _ Ha). fold decoded. rewrite Hdec. simpl.
    rewrite Hval. rewrite (Error_run _ _ _ _ Hdata). simpl.
    rewrite Hact. reflexivity.
  - intros n e Hdec Hval Hw.
    destruct (Htotal (set_ErrorMessage (Error_string e) n)) as [data Hdata].
    exists data. split; [exact Hdata|].
    pose proof (switch_action_action ec2 a (fst decoded) _ _ w Hw) as Hn.
    unfold eventHandler, bind.
    rewrite (Process_run _ _ _ _ _ Ha). fold decoded. rewrite Hdec. simpl.
    rewrite Hval. unfold index1. rewrite Ha. simpl.
    fold workflow. rewrite Hw. simpl.
    rewrite (Error_run _ _ _ _ Hdata). simpl.
    rewrite Hn, Hact. reflexivity.
  - intros n Hdec Hval Hw.
    destruct (Htotal n) as [data Hdata].
    exists data. split; [exact Hdata|].
    pose proof (switch_action_action ec2 a (fst decoded) _ _ w Hw) as Hn.
    unfold eventHandler, bind.
    rewrite (Process_run _ _ _ _ _ Ha). fold decoded. rewrite Hdec. simpl.
    rewrite Hval. unfold index1. rewrite Ha. simpl.
    fold workflow. rewrite Hw. simpl.
    rewrite (Complete_run _ _ _ Hdata). simpl.
    rewrite Hn, Hact. reflexivity.
  - intros msg Hdec Hval Hw.
    unfold eventHandler, bind.
    rewrite (Process_run _ _ _ _ _ Ha). fold decoded. rewrite Hdec. simpl.
    rewrite Hval. unfold index1. rewrite Ha. simpl.
    fold workflow. rewrite Hw. reflexivity.
  - intros Hdec Hval Hw.
    unfold eventHandler, bind.
    rewrite (Process_run _ _ _ _ _ Ha). fold decoded. rewrite Hdec. simpl.
    rewrite Hval. unfold index1. rewrite Ha. simpl.
    fold workflow. rewrite Hw. reflexivity.
Qed.

Lemma Validate_reports_first_missing (ev : Event) (subject : string) :
  subject <> "nat.delete.aws" ->
  VPCID ev = "" \/ DatacenterRegion ev = "" \/
  DatacenterAccessKey ev = "" \/ DatacenterAccessToken ev = "" \/
  PublicNetworkAWSID ev = "" \/ RoutedNetworkAWSIDs ev = [] ->
  exists e,
    Validate ev subject = Some e /\
    reports_missing_field e ev /\
    (VPCID ev = "" -> e = ErrDatacenterIDInvalid) /\
    (VPCID ev <> "" -> DatacenterRegion ev = "" ->
       e = ErrDatacenterRegionInvalid) /\
    (VPCID ev <> "" -> DatacenterRegion ev <> "" ->
     DatacenterAccessKey ev = "" \/ DatacenterAccessToken ev = "" ->
       e = ErrDatacenterCredentialsInvalid) /\
    (VPCID ev <> "" -> DatacenterRegion ev <> "" ->
     DatacenterAccessKey ev <> "" -> DatacenterAccessToken ev <> "" ->
     PublicNetworkAWSID ev = "" ->
       e = ErrNetworkIDInvalid) /\
    (VPCID ev <> "" -> DatacenterRegion ev <> "" ->
     DatacenterAccessKey ev <> "" -> DatacenterAccessToken ev <> "" ->
     PublicNetworkAWSID ev <> "" -> RoutedNetworkAWSIDs ev = [] ->
       e = ErrRoutedNetworksEmpty).
Proof.
  intros Hsubject Hmissing. unfold Validate, reports_missing_field.
  rewrite (proj2 (String.eqb_neq _ _) Hsubject).
  destruct (String.eqb_spec (VPCID ev) "") as [E1|E1]; simpl.
  { eexists. split; [reflexivity|]. intuition congruence. }
  destruct (String.eqb_spec (DatacenterRegion ev) "") as [E2|E2]; simpl.
  { eexists. split; [reflexivity|]. intuition congruence. }
  destruct (String.eqb_spec (DatacenterAccessKey ev) "") as [E3|E3]; simpl.
  { eexists. split; [reflexivity|]. intuition congruence. }
  destruct (String.eqb_spec (DatacenterAccessToken ev) "") as [E4|E4]; simpl.
  { eexists. split; [reflexivity|]. intuition congruence. }
  destruct (String.eqb_spec (PublicNetworkAWSID ev) "") as [E5|E5]; simpl.
  { eexists. split; [reflexivity|]. intuition congruence. }
  destruct (RoutedNetworkAWSIDs ev) as [|x xs] eqn:E6; simpl.
  { eexists. split; [reflexivity|]. intuition congruence. }
  exfalso. intuition congruence.
Qed.

(** C7: a create or update request that decodes and has an empty
    [vpc_id], region, credential, [public_network_aws_id] or list of
    routed networks fails validation with the error of an empty field,
    the first in the order VPC ID, region, credentials, network ID, routed
    networks; these errors are distinct; and the handler then publishes
    one error reply and makes no other call, leaving the cloud as it was. *)
Theorem invalid_request_is_rejected (m : Msg) (a : string) (w : World) :
  json_for_Event json ->
  a = "create" \/ a = "update" ->
  Subject m = ("nat." ++ a ++ ".aws")%string ->
  let ev := fst (Unmarshal json (Data m) (set_action a Event_zero)) in
  snd (Unmarshal json (Data m) (set_action a Event_zero)) = None ->
  VPCID ev = "" \/ DatacenterRegion ev = "" \/
  DatacenterAccessKey ev = "" \/ DatacenterAccessToken ev = "" \/
  PublicNetworkAWSID ev = "" \/ RoutedNetworkAWSIDs ev = [] ->
  exists e data,
    Validate ev (Subject m) = Some e /\
    reports_missing_field e ev /\
    (VPCID ev = "" -> e = ErrDatacenterIDInvalid) /\
    (VPCID ev <> "" -> DatacenterRegion ev = "" ->
       e = ErrDatacenterRegionInvalid) /\
    (VPCID ev <> "" -> DatacenterRegion ev <> "" ->
     DatacenterAccessKey ev = "" \/ DatacenterAccessToken ev = "" ->
       e = ErrDatacenterCredentialsInvalid) /\
    (VPCID ev <> "" -> DatacenterRegion ev <> "" ->
     DatacenterAccessKey ev <> "" -> DatacenterAccessToken ev <> "" ->
     PublicNetworkAWSID ev = "" ->
       e = ErrNetworkIDInvalid) /\
    (VPCID ev <> "" -> DatacenterRegion ev <> "" ->
     DatacenterAccessKey ev <> "" -> DatacenterAccessToken ev <> "" ->
     PublicNetworkAWSID ev <> "" -> RoutedNetworkAWSIDs ev = [] ->
       e = ErrRoutedNetworksEmpty) /\
    NoDup validation_errors /\
    Marshal json (set_ErrorMessage (Error_string e) ev) = inl data /\
    eventHandler ec2 json m w
    = mkRun w [CPublish (Subject m ++ ".error") data] (Ret tt).
Proof.
  intros Hjson Ha Hsubject ev Hdecoded Hmissing.
  assert (Hnth : nth_error (strings_Split_dot (Subject m)) 1 = Some a).
  { rewrite Hsubject. destruct Ha; subst a; reflexivity. }
  assert (Hnot : Subject m <> "nat.delete.aws").
  { rewrite Hsubject. destruct Ha; subst a; discriminate. }
  destruct (Validate_reports_first_missing ev _ Hnot Hmissing)
    as (e & Hval & Hfield & H1 & H2 & H3 & H4 & H5).
  destruct (eventHandler_run m _ w Hjson Hnth) as (_ & Hinvalid & _).
  destruct (Hinvalid e Hdecoded Hval) as (data & Hdata & Hrun).
  exists e, data.
  repeat (split; [assumption|]).
  split; [apply validation_errors_distinct|].
  split; [exact Hdata|].
  rewrite Hrun, Hsubject. destruct Ha; subst a; reflexivity.
Qed.

(** C9: for a message whose subject has an action part, the handler
    publishes one message on [<subject>.error] with the raw payload when
    decoding fails, one message on the error subject when validation or
    the workflow fails, one message on the done subject when the workflow
    succeeds; no run publishes two messages, and every run in which the
    handler returns publishes exactly one. *)
Theorem handler_publishes_one_reply (m : Msg) (a : string) (w : World) :
  json_for_Event json ->
  nth_error (strings_Split_dot (Subject m)) 1 = Some a ->
  let decoded := Unmarshal json (Data m) (set_action a Event_zero) in
  let workflow := switch_action ec2 a (fst decoded) w in
  let replies := filter is_publish (calls (eventHandler ec2 json m w)) in
  (snd decoded <> None ->
     replies = [CPublish (Subject m ++ ".error") (Data m)]) /\
  (forall e,
     snd decoded = None ->
     Validate (fst decoded) (Subject m) = Some e ->
     exists data,
       Marshal json (set_ErrorMessage (Error_string e) (fst decoded)) = inl data /\
       replies = [CPublish ("nat." ++ a ++ ".aws.error") data]) /\
  (forall n e,
     snd decoded = None ->
     Validate (fst decoded) (Subject m) = None ->
     value workflow = Ret (n, Some e) ->
     exists data,
       Marshal json (set_ErrorMessage (Error_string e) n) = inl data /\
       replies = [CPublish ("nat." ++ a ++ ".aws.error") data]) /\
  (forall n,
     snd decoded = None ->
     Validate (fst decoded) (Subject m) = None ->
     value workflow = Ret (n, None) ->
     exists data,
       Marshal json n = inl data /\
       replies = [CPublish ("nat." ++ a ++ ".aws.done") data]) /\
  length replies <= 1 /\
  (value (eventHandler ec2 json m w) = Ret tt -> length replies = 1).
Proof.
  intros Hjson Ha decoded workflow replies.
  destruct (eventHandler_run m a w Hjson Ha)
    as (Hdecode & Hinvalid & Hfailed & Hdone & Hpanic & Hfuel).
  fold decoded in Hdecode, Hinvalid, Hfailed, Hdone, Hpanic, Hfuel.
  fold workflow in Hfailed, Hdone, Hpanic, Hfuel.
  assert (Hquiet : filter is_publish (calls workflow) = []).
  { apply provisioning_not_publish. apply switch_action_provisioning. }
  assert (Hcases :
            (snd decoded <> None ->
             replies = [CPublish (Subject m ++ ".error") (Data m)]) /\
            (forall e,
                snd decoded = None ->
                Validate (fst decoded) (Subject m) = Some e ->
                exists data,
                  Marshal json (set_ErrorMessage (Error_string e) (fst decoded)) = inl data /\
                  replies = [CPublish ("nat." ++ a ++ ".aws.error") data]) /\
            (forall n e,
                snd decoded = None ->
                Validate (fst decoded) (Subject m) = None ->
                value workflow = Ret (n, Some e) ->
                exists data,
                  Marshal json (set_ErrorMessage (Error_string e) n) = inl data /\
                  replies = [CPublish ("nat." ++ a ++ ".aws.error") data]) /\
            (forall n,
                snd decoded = None ->
                Validate (fst decoded) (Subject m) = None ->
                value workflow = Ret (n, None) ->
                exists data,
                  Marshal json n = inl data /\
                  replies = [CPublish ("nat." ++ a ++ ".aws.done") data])).
  { repeat apply conj.
    - intros H. unfold replies. rewrite (Hdecode H). reflexivity.
    - intros e H1 H2. destruct (Hinvalid e H1 H2) as (data & Hdata & Hrun).
      exists data. split; [exact Hdata|]. unfold replies. rewrite Hrun. reflexivity.
    - intros n e H1 H2 H3. destruct (Hfailed n e H1 H2 H3) as (data & Hdata & Hrun).
      exists data. split; [exact Hdata|]. unfold replies. rewrite Hrun. simpl.
      rewrite filter_app, Hquiet. reflexivity.
    - intros n H1 H2 H3. destruct (Hdone n H1 H2 H3) as (data & Hdata & Hrun).
      exists data. split; [exact Hdata|]. unfold replies. rewrite Hrun. simpl.
      rewrite filter_app, Hquiet. reflexivity. }
  destruct Hcases as (C1 & C2 & C3 & C4).
  repeat (split; [assumption|]).
  destruct (snd decoded) as [derr|] eqn:Edec.
  { rewrite C1 by discriminate. simpl. split; [lia | reflexivity]. }
  destruct (Validate (fst decoded) (Subject m)) as [verr|] eqn:Eval.
  { destruct (C2 verr eq_refl eq_refl) as (data & _ & ->).
    simpl. split; [lia | reflexivity]. }
  destruct (value workflow) as [[n [e|]] | msg |] eqn:Ew.
  - destruct (C3 n e eq_refl eq_refl eq_refl) as (data & _ & ->).
    simpl. split; [lia | reflexivity].
  - destruct (C4 n eq_refl eq_refl eq_refl) as (data & _ & ->).
    simpl. split; [lia | reflexivity].
  - unfold replies. rewrite (Hpanic msg eq_refl eq_refl eq_refl). simpl.
    rewrite Hquiet. simpl. split; [lia | discriminate].
  - unfold replies. rewrite (Hfuel eq_refl eq_refl eq_refl). simpl.
    rewrite Hquiet. simpl. split; [lia | discriminate].
Qed.

(** C1, on the code: for a delete request that decodes and passes
    validation the handler makes no call to the provider; it publishes the
    done reply at once and leaves the cloud as it was. *)
Theorem delete_request_skips_the_workflow (m : Msg) (w : World) :
  json_for_Event json ->
  Subject m = "nat.delete.aws" ->
  let decoded := Unmarshal json (Data m) (set_action "delete" Event_zero) in
  snd decoded = None ->
  Validate (fst decoded) "nat.delete.aws" = None ->
  exists data,
    Marshal json (fst decoded) = inl data /\
    eventHandler ec2 json m w
    = mkRun w [CPublish "nat.delete.aws.done" data] (Ret tt).
Proof.
  intros Hjson Hsubject decoded Hdecoded Hvalid.
  assert (Hnth : nth_error (strings_Split_dot (Subject m)) 1 = Some "delete").
  { rewrite Hsubject. reflexivity. }
  destruct (eventHandler_run m _ w Hjson Hnth) as (_ & _ & _ & Hdone & _).
  fold decoded in Hdone. rewrite Hsubject in Hdone.
  destruct (Hdone (fst decoded) Hdecoded Hvalid (f_equal (@value _ _) (switch_action_delete ec2 (fst decoded) w)))
    as (data & Hdata & Hrun).
  exists data. split; [exact Hdata|]. rewrite Hrun. reflexivity.
Qed.

End Handler.

Lemma invalid_request_is_rejected_witness :
  eventHandler (scripted converged) (example_json no_vpc_event)
    (msg "nat.create.aws" "nat-1") 0
  = mkRun 0
      [CPublish "nat.create.aws.error"
         (list_byte_of_string "nat-1;;Datacenter VPC ID invalid")]
      (Ret tt).
Proof.
  destruct (@invalid_request_is_rejected nat (scripted converged)
              (example_json no_vpc_event)
              (msg "nat.create.aws" "nat-1") "create" 0
              (example_json_for_Event no_vpc_event)
              (or_introl eq_refl) eq_refl eq_refl (or_introl eq_refl))
    as (e & data & Hval & _ & _ & _ & _ & _ & _ & _ & Hdata & Hrun).
  rewrite Hrun.
  inversion Hval; subst e.
  inversion Hdata; subst data.
  reflexivity.
Defined.

Lemma handler_publishes_one_reply_witness :
  filter is_publish
    (calls (eventHandler (scripted refusing_b) (example_json example_event)
              (msg "nat.create.aws" "nat-1") 0))
  = [CPublish "nat.create.aws.error"
       (list_byte_of_string "nat-1;igw-1;RouteLimitExceeded")].
Proof.
  destruct (@handler_publishes_one_reply nat (scripted refusing_b)
              (example_json example_event)
              (msg "nat.create.aws" "nat-1") "create" 0
              (example_json_for_Event example_event)
              (eq_refl : nth_error (strings_Split_dot "nat.create.aws") 1 = Some "create"))
    as (_ & _ & Hfailed & _).
  destruct (Hfailed _ _ eq_refl eq_refl eq_refl) as (data & Hdata & Hrun).
  rewrite Hrun.
  inversion Hdata; subst data.
  reflexivity.
Defined.

Lemma delete_request_skips_the_workflow_witness :
  eventHandler (scripted converged) (example_json example_event)
    (msg "nat.delete.aws" "nat-1") 0
  = mkRun 0
      [CPublish "nat.delete.aws.done" (list_byte_of_string "nat-1;;")]
      (Ret tt).
Proof.
  destruct (@delete_request_skips_the_workflow nat (scripted converged)
              (example_json example_event)
              (msg "nat.delete.aws" "nat-1") 0
              (example_json_for_Event example_event)
              eq_refl eq_refl eq_refl)
    as (data & Hdata & Hrun).
  rewrite Hrun.
  inversion Hdata; subst data.
  reflexivity.
Defined.

(** ** Reuse of what exists *)

Section Idempotence.

Context {World : Type} (ec2 : EC2 World).

Lemma createInternetGateway_reuses (svc : Config) (vpc : string) (w : World)
      (ig : InternetGateway) (rest : list InternetGateway) :
  snd (DescribeInternetGateways ec2 svc vpc w) = inl (ig :: rest) ->
  createInternetGateway ec2 svc vpc w
  = mkRun (fst (DescribeInternetGateways ec2 svc vpc w))
      [CDescribeInternetGateways vpc]
      (Ret (InternetGatewayId ig, None)).
Proof.
  intros H. unfold createInternetGateway, internetGatewayByVPCID, bind, remote.
  simpl. rewrite H. reflexivity.
Qed.

Lemma createInternetGateway_creates_only_when_absent
      (svc : Config) (vpc : string) (w : World) :
  Exists (fun c => is_igw_creation c = true)
    (calls (createInternetGateway ec2 svc vpc w)) ->
  snd (DescribeInternetGateways ec2 svc vpc w) = inl [].
Proof.
  unfold createInternetGateway, internetGatewayByVPCID, bind, remote. simpl.
  destruct (snd (DescribeInternetGateways ec2 svc vpc w)) as [[|ig rest] | e];
    simpl; intros H.
  - reflexivity.
  - inversion H as [? ? Hc | ? ? Hc]; [discriminate Hc | inversion Hc].
  - inversion H as [? ? Hc | ? ? Hc]; [discriminate Hc | inversion Hc].
Qed.

Lemma for_range_CreateNat_subnet_no_igw (svc : Config) (vpc gw : string)
      (xs : list string) (w : World) :
  Forall (fun c => is_igw_creation c = false)
    (calls (for_range xs (CreateNat_subnet ec2 svc vpc gw) w)).
Proof.
  apply for_range_calls_Forall. intros x w' _.
  eapply Forall_impl; [apply route_setup_not_igw_creation|].
  apply CreateNat_subnet_route_setup.
Qed.

(** Create returns when the allocation answer is an error or carries the
    two fields the program dereferences; it panics on the nil pointer,
    after that one call, when it carries one of them only or none *)
Lemma CreateNat_returns (ev : Event) (w : World) :
  (forall addr,
      snd (AllocateAddress ec2 (ec2_New ev) w) = inl addr ->
      allocation_complete addr) ->
  exists ev' err, value (CreateNat ec2 ev w) = Ret (ev', err).
Proof.
  intros Hcomplete.
  rewrite CreateNat_run. cbv zeta.
  destruct (snd (AllocateAddress ec2 (ec2_New ev) w)) as [addr | e];
    [|eexists _, _; reflexivity].
  destruct (Hcomplete addr eq_refl) as (aid & ip & -> & ->).
  destruct (createInternetGateway_returns ec2 (ec2_New ev) (VPCID ev)
              (fst (AllocateAddress ec2 (ec2_New ev) w))) as (id & err & Higw).
  rewrite Higw.
  destruct err as [e|]; [eexists _, _; reflexivity|].
  destruct (snd (CreateNatGateway _ _ _ _ _)) as [gw | e];
    [|eexists _, _; reflexivity].
  destruct (snd (WaitUntilNatGatewayAvailable _ _ _ _)) as [e|];
    [eexists _, _; reflexivity|].
  simpl.
  match goal with
  | |- context [for_range ?xs ?body ?w0] =>
      destruct (for_range_returns body xs
                  (fun x w' => CreateNat_subnet_returns ec2 _ _ _ x w') w0)
        as [err Hloop]
  end.
  rewrite Hloop. eexists _, _. reflexivity.
Qed.

Lemma CreateNat_panics_on_incomplete_allocation
      (ev : Event) (w : World) (addr : AllocateAddressOutput) :
  snd (AllocateAddress ec2 (ec2_New ev) w) = inl addr ->
  ~ allocation_complete addr ->
  CreateNat ec2 ev w
  = mkRun (fst (AllocateAddress ec2 (ec2_New ev) w)) [CAllocateAddress]
      (Panic "invalid memory address or nil pointer dereference").
Proof.
  intros Halloc Hincomplete.
  rewrite CreateNat_run. cbv zeta. rewrite Halloc.
  destruct (AllocationId addr) as [aid|] eqn:Eid; [|reflexivity].
  destruct (PublicIp addr) as [ip|] eqn:Eip; [|reflexivity].
  exfalso. apply Hincomplete. exists aid, ip. split; assumption.
Qed.

(** the internet gateway calls of [CreateNat] are those of
    [createInternetGateway], made once the address is allocated *)
Lemma CreateNat_igw_creation_origin (ev : Event) (w : World) :
  Exists (fun c => is_igw_creation c = true) (calls (CreateNat ec2 ev w)) ->
  (exists addr,
      snd (AllocateAddress ec2 (ec2_New ev) w) = inl addr /\
      allocation_complete addr) /\
  Exists (fun c => is_igw_creation c = true)
    (calls (createInternetGateway ec2 (ec2_New ev) (VPCID ev)
              (fst (AllocateAddress ec2 (ec2_New ev) w)))).
Proof.
  rewrite CreateNat_run. cbv zeta.
  set (igw := createInternetGateway ec2 (ec2_New ev) (VPCID ev) _).
  pose proof (fun gw w0 =>
                for_range_CreateNat_subnet_no_igw (ec2_New ev) (VPCID ev)
                  gw (RoutedNetworkAWSIDs ev) w0) as Hloop.
  assert (Hone : ~ Exists (fun c => is_igw_creation c = true) [CAllocateAddress]).
  { intros H. apply Exists_exists in H. destruct H as (c & [<- | []] & Hc).
    discriminate Hc. }
  destruct (snd (AllocateAddress ec2 (ec2_New ev) w)) as [addr | e0];
    [|intros H; contradiction (Hone H)].
  destruct (AllocationId addr) as [aid|] eqn:Eid;
    [|intros H; contradiction (Hone H)].
  destruct (PublicIp addr) as [ip|] eqn:Eip;
    [|intros H; contradiction (Hone H)].
  intros H.
  split; [exists addr; split; [reflexivity | exists aid, ip; split; assumption]|].
  revert H.
  destruct (value igw) as [[id [e1|]] | msg |];
     [| destruct (snd (CreateNatGateway _ _ _ _ _)) as [gw | e2];
        [destruct (snd (WaitUntilNatGatewayAvailable _ _ _ _)) as [e3|] |] | |];
    simpl; intros H;
    apply Exists_exists in H; destruct H as (c & Hin & Hc);
    apply Exists_exists; exists c; (split; [|exact Hc]);
    repeat match goal with
      | H : _ \/ _ |- _ => destruct H
      | H : In _ (_ ++ _) |- _ => apply in_app_iff in H
      | H : In _ (_ :: _) |- _ => simpl in H
      | H : In _ [] |- _ => contradiction H
      | H : False |- _ => contradiction H
      end;
    subst; try discriminate Hc; try assumption.
  exfalso.
  match goal with
  | H : In c (calls (for_range _ _ _)) |- _ =>
      pose proof (proj1 (Forall_forall _ _) (Hloop _ _) c H) as Hn
  end.
  simpl in Hn. congruence.
Qed.

(** C5: when the address is allocated, with the two fields Create reads
    from the answer, and the lookup of the internet gateway of the VPC
    lists a gateway, Create returns with that gateway's ID in the event;
    whenever that lookup lists a gateway Create makes no
    create-internet-gateway and no attach call; and a run of Create that
    makes one of these calls is a run in which the lookup was made and
    listed nothing. *)
Theorem existing_internet_gateway_is_reused (ev : Event) (w : World) :
  let svc := ec2_New ev in
  let allocated := AllocateAddress ec2 svc w in
  let lookup := DescribeInternetGateways ec2 svc (VPCID ev) (fst allocated) in
  (forall addr ig rest,
     snd allocated = inl addr ->
     allocation_complete addr ->
     snd lookup = inl (ig :: rest) ->
     exists ev' err,
       value (CreateNat ec2 ev w) = Ret (ev', err) /\
       InternetGatewayID ev' = InternetGatewayId ig) /\
  (forall ig rest,
     snd lookup = inl (ig :: rest) ->
     Forall (fun c => is_igw_creation c = false) (calls (CreateNat ec2 ev w))) /\
  (Exists (fun c => is_igw_creation c = true) (calls (CreateNat ec2 ev w)) ->
     (exists addr, snd allocated = inl addr /\ allocation_complete addr) /\
     snd lookup = inl []).
Proof.
  intros svc allocated lookup. repeat apply conj.
  - intros addr ig rest Halloc Hcomplete Hlookup.
    assert (Hall : forall addr0, snd (AllocateAddress ec2 (ec2_New ev) w) = inl addr0 ->
                                 allocation_complete addr0).
    { intros addr0 H0. fold svc in H0. fold allocated in H0.
      rewrite Halloc in H0. inversion H0; subst addr0. exact Hcomplete. }
    destruct (CreateNat_returns ev w Hall) as (ev' & err & Hret).
    exists ev', err. split; [exact Hret|].
    revert Hret. rewrite CreateNat_run. cbv zeta.
    fold svc. fold allocated. rewrite Halloc.
    destruct Hcomplete as (aid & ip & -> & ->).
    rewrite (createInternetGateway_reuses svc (VPCID ev) (fst allocated) ig rest Hlookup).
    simpl.
    repeat break_match; intros H; inversion H; reflexivity.
  - intros ig rest Hlookup.
    apply Forall_forall. intros c Hin.
    destruct (is_igw_creation c) eqn:Hc; [|reflexivity].
    exfalso.
    assert (Hex : Exists (fun c => is_igw_creation c = true) (calls (CreateNat ec2 ev w))).
    { apply Exists_exists. exists c. split; assumption. }
    apply CreateNat_igw_creation_origin in Hex. destruct Hex as [_ Hex].
    apply createInternetGateway_creates_only_when_absent in Hex.
    fold svc in Hex. fold allocated in Hex. fold lookup in Hex.
    congruence.
  - intros Hex.
    apply CreateNat_igw_creation_origin in Hex. destruct Hex as [Halloc Hex].
    split; [exact Halloc|].
    apply createInternetGateway_creates_only_when_absent in Hex. exact Hex.
Qed.

End Idempotence.

Lemma existing_internet_gateway_is_reused_witness :
  exists ev' err,
    value (CreateNat (scripted converged) example_event 0) = Ret (ev', err) /\
    InternetGatewayID ev' = "igw-1".
Proof.
  apply (proj1 (@existing_internet_gateway_is_reused nat (scripted converged)
                  example_event 0)
           {| AllocationId := Some "eipalloc-1"; PublicIp := Some "203.0.113.7" |}
           {| InternetGatewayId := "igw-1" |} []).
  - reflexivity.
  - exists "eipalloc-1", "203.0.113.7". split; reflexivity.
  - reflexivity.
Defined.

Section Update.

Context {World : Type} (ec2 : EC2 World).




Lemma createRouteTable_reuses (svc : Config) (vpc x : string) (w : World)
      (rt : RouteTable) (rest : list RouteTable) :
  snd (DescribeRouteTables ec2 svc x w) = inl (rt :: rest) ->
  createRouteTable ec2 svc vpc x w
  = mkRun (fst (DescribeRouteTables ec2 svc x w))
      [CDescribeRouteTables x] (Ret (Some rt, None)).
Proof.
  intros H. unfold createRouteTable, routingTableBySubnetID, bind, remote.
  simpl. rewrite H. reflexivity.
Qed.


Lemma routeTableIsConfigured_value (rt : RouteTable) (gw : string) (w : World) :
  value (routeTableIsConfigured (Some rt) gw w)
  = value (routes_configured (Routes rt) gw w).
Proof.
  unfold routeTableIsConfigured, bind, deref. simpl.
  destruct (value (routes_configured (Routes rt) gw w)); reflexivity.
Qed.






End Update.


(** ** The order of the create workflow *)

Lemma prefix_of_refl (t : list Call) : prefix_of t t.
Proof. exists []. rewrite app_nil_r. reflexivity. Qed.

Lemma prefix_of_app_l (t a b : list Call) :
  prefix_of a b -> prefix_of (t ++ a) (t ++ b).
Proof. intros [rest ->]. exists rest. rewrite app_assoc. reflexivity. Qed.

Lemma prefix_of_app_r (a b c : list Call) :
  prefix_of a b -> prefix_of a (b ++ c).
Proof. intros [rest ->]. exists (rest ++ c). rewrite app_assoc. reflexivity. Qed.

Lemma prefix_of_nil (t : list Call) : prefix_of [] t.
Proof. exists t. reflexivity. Qed.

Lemma subnet_calls_exist (vpc gw : string) (xs : list string) :
  exists groups, Forall2 (subnet_calls vpc gw) xs groups.
Proof.
  induction xs as [|x rest [groups IH]].
  - exists []. constructor.
  - exists ([CDescribeRouteTables x; CCreateRoute "" "0.0.0.0/0" gw] :: groups).
    constructor; [apply subnet_table_reused | exact IH].
Qed.

Section Create.

Context {World : Type} (ec2 : EC2 World).

Lemma createInternetGateway_shape (svc : Config) (vpc : string) (w : World) :
  exists t,
    igw_calls vpc t /\
    prefix_of (calls (createInternetGateway ec2 svc vpc w)) t /\
    (forall id, value (createInternetGateway ec2 svc vpc w) = Ret (id, None) ->
                calls (createInternetGateway ec2 svc vpc w) = t).
Proof.
  unfold createInternetGateway, internetGatewayByVPCID, bind, remote. simpl.
  destruct (snd (DescribeInternetGateways ec2 svc vpc w)) as [[|ig rest] | e]; simpl.
  - destruct (snd (CreateInternetGateway ec2 svc _)) as [g | e]; simpl.
    + exists [CDescribeInternetGateways vpc; CCreateInternetGateway;
              CAttachInternetGateway (InternetGatewayId g) vpc].
      split; [constructor|].
      destruct (snd (AttachInternetGateway ec2 svc _ _ _)) as [e|]; simpl;
        (split; [apply prefix_of_refl | intros; reflexivity]).
    + exists [CDescribeInternetGateways vpc; CCreateInternetGateway;
              CAttachInternetGateway "" vpc].
      split; [constructor|].
      split; [eexists; reflexivity | discriminate].
  - exists [CDescribeInternetGateways vpc].
    split; [constructor|]. split; [apply prefix_of_refl | reflexivity].
  - exists [CDescribeInternetGateways vpc].
    split; [constructor|]. split; [apply prefix_of_refl | reflexivity].
Qed.

Lemma CreateNat_subnet_shape (svc : Config) (vpc gw x : string) (w : World) :
  exists t,
    subnet_calls vpc gw x t /\
    prefix_of (calls (CreateNat_subnet ec2 svc vpc gw x w)) t /\
    (value (CreateNat_subnet ec2 svc vpc gw x w) = Ret None ->
     calls (CreateNat_subnet ec2 svc vpc gw x w) = t).
Proof.
  unfold CreateNat_subnet, createRouteTable, routingTableBySubnetID,
    createNatGatewayRoutes, bind, remote, deref. simpl.
  destruct (snd (DescribeRouteTables ec2 svc x w)) as [[|rt rest] | e]; simpl.
  - destruct (snd (CreateRouteTable ec2 svc vpc _)) as [t | e]; simpl.
    + exists [CDescribeRouteTables x; CCreateRouteTable vpc;
              CAssociateRouteTable (RouteTableId t) x;
              CCreateRoute (RouteTableId t) "0.0.0.0/0" gw].
      split; [constructor|].
      destruct (snd (AssociateRouteTable ec2 svc _ _ _)) as [e|]; simpl.
      * split; [eexists; reflexivity | discriminate].
      * split; [apply prefix_of_refl | reflexivity].
    + exists [CDescribeRouteTables x; CCreateRouteTable vpc;
              CAssociateRouteTable "" x;
              CCreateRoute "" "0.0.0.0/0" gw].
      split; [constructor|].
      split; [eexists; reflexivity | discriminate].
  - exists [CDescribeRouteTables x; CCreateRoute (RouteTableId rt) "0.0.0.0/0" gw].
    split; [constructor|]. split; [apply prefix_of_refl | reflexivity].
  - exists [CDescribeRouteTables x; CCreateRoute "" "0.0.0.0/0" gw].
    split; [constructor|].
    split; [eexists; reflexivity | discriminate].
Qed.

Lemma for_range_CreateNat_subnet_shape (svc : Config) (vpc gw : string)
      (xs : list string) (w : World) :
  exists groups,
    Forall2 (subnet_calls vpc gw) xs groups /\
    prefix_of (calls (for_range xs (CreateNat_subnet ec2 svc vpc gw) w))
      (concat groups) /\
    (value (for_range xs (CreateNat_subnet ec2 svc vpc gw) w) = Ret None ->
     calls (for_range xs (CreateNat_subnet ec2 svc vpc gw) w) = concat groups).
Proof.
  revert w. induction xs as [|x rest IH]; intros w; simpl.
  - exists []. split; [constructor|].
    split; [apply prefix_of_refl | reflexivity].
  - destruct (CreateNat_subnet_shape svc vpc gw x w) as (t & Ht & Hprefix & Hfull).
    unfold bind.
    destruct (value (CreateNat_subnet ec2 svc vpc gw x w)) as [[e|] | msg |] eqn:Ex;
      simpl.
    2:{ destruct (IH (final (CreateNat_subnet ec2 svc vpc gw x w)))
          as (groups & Hgroups & Hp & Hf).
        exists (t :: groups). split; [constructor; assumption|]. simpl.
        rewrite (Hfull eq_refl).
        split; [apply prefix_of_app_l; exact Hp|].
        intros Hv. rewrite (Hf Hv). reflexivity. }
    all: destruct (subnet_calls_exist vpc gw rest) as [groups Hgroups];
      exists (t :: groups); (split; [constructor; assumption|]); simpl;
      rewrite ?app_nil_r;
      (split; [apply prefix_of_app_r; exact Hprefix | discriminate]).
Qed.

(** the loop reaches an element when the elements before it went well *)
Lemma for_range_visits (body : string -> M World (option error))
      (pre post : list string) (x : string) (w : World) :
  value (for_range pre body w) = Ret None ->
  prefix_of
    (calls (for_range pre body w) ++ calls (body x (final (for_range pre body w))))
    (calls (for_range (pre ++ x :: post) body w)).
Proof.
  revert w. induction pre as [|p pre IH]; intros w Hpre; simpl in *.
  - unfold bind.
    destruct (value (body x w)) as [[e|] | msg |]; simpl;
      first [apply prefix_of_refl | eexists; reflexivity].
  - unfold bind in *.
    destruct (value (body p w)) as [[e'|] | msg |] eqn:Ep; simpl in *;
      try discriminate.
    rewrite <- app_assoc. apply prefix_of_app_l. apply IH. exact Hpre.
Qed.

(** the run of [createInternetGateway], answer by answer *)
Lemma createInternetGateway_run (svc : Config) (vpc : string) (w : World) :
  let lookup := DescribeInternetGateways ec2 svc vpc w in
  let made := CreateInternetGateway ec2 svc (fst lookup) in
  createInternetGateway ec2 svc vpc w
  = match snd lookup with
    | inr e => mkRun (fst lookup) [CDescribeInternetGateways vpc] (Ret ("", Some e))
    | inl (ig :: _) =>
        mkRun (fst lookup) [CDescribeInternetGateways vpc]
          (Ret (InternetGatewayId ig, None))
    | inl [] =>
        match snd made with
        | inr e =>
            mkRun (fst made) [CDescribeInternetGateways vpc; CCreateInternetGateway]
              (Ret ("", Some e))
        | inl g =>
            let attached :=
              AttachInternetGateway ec2 svc (InternetGatewayId g) vpc (fst made) in
            mkRun (fst attached)
              [CDescribeInternetGateways vpc; CCreateInternetGateway;
               CAttachInternetGateway (InternetGatewayId g) vpc]
              (match snd attached with
               | Some e => Ret ("", Some e)
               | None => Ret (InternetGatewayId g, None)
               end)
        end
    end.
Proof.
  intros lookup made.
  unfold createInternetGateway, internetGatewayByVPCID, bind, remote. simpl.
  fold lookup. destruct (snd lookup) as [[|ig rest] | e]; simpl; try reflexivity.
  fold made. destruct (snd made) as [g | e]; simpl; try reflexivity.
  destruct (snd (AttachInternetGateway ec2 svc _ _ _)); reflexivity.
Qed.

(** the run of the step of one subnet, answer by answer *)
Lemma CreateNat_subnet_run (svc : Config) (vpc gw x : string) (w : World) :
  let found := DescribeRouteTables ec2 svc x w in
  let made := CreateRouteTable ec2 svc vpc (fst found) in
  CreateNat_subnet ec2 svc vpc gw x w
  = match snd found with
    | inr e => mkRun (fst found) [CDescribeRouteTables x] (Ret (Some e))
    | inl (rt :: _) =>
        let routed := CreateRoute ec2 svc (RouteTableId rt) "0.0.0.0/0" gw (fst found) in
        mkRun (fst routed)
          [CDescribeRouteTables x; CCreateRoute (RouteTableId rt) "0.0.0.0/0" gw]
          (Ret (snd routed))
    | inl [] =>
        match snd made with
        | inr e =>
            mkRun (fst made) [CDescribeRouteTables x; CCreateRouteTable vpc]
              (Ret (Some e))
        | inl t =>
            let associated :=
              AssociateRouteTable ec2 svc (RouteTableId t) x (fst made) in
            match snd associated with
            | Some e =>
                mkRun (fst associated)
                  [CDescribeRouteTables x; CCreateRouteTable vpc;
                   CAssociateRouteTable (RouteTableId t) x]
                  (Ret (Some e))
            | None =>
                let routed :=
                  CreateRoute ec2 svc (RouteTableId t) "0.0.0.0/0" gw (fst associated) in
                mkRun (fst routed)
                  [CDescribeRouteTables x; CCreateRouteTable vpc;
                   CAssociateRouteTable (RouteTableId t) x;
                   CCreateRoute (RouteTableId t) "0.0.0.0/0" gw]
                  (Ret (snd routed))
            end
        end
    end.
Proof.
  intros found made.
  unfold CreateNat_subnet, createRouteTable, routingTableBySubnetID,
    createNatGatewayRoutes, bind, remote, deref. simpl.
  fold found. destruct (snd found) as [[|rt rest] | e]; simpl; try reflexivity.
  fold made. destruct (snd made) as [t | e]; simpl; try reflexivity.
  destruct (snd (AssociateRouteTable ec2 svc _ _ _)); reflexivity.
Qed.

(** a run of [CreateNat] that reaches its loop *)
Lemma CreateNat_reaches_loop (ev : Event) (w : World)
      (addr : AllocateAddressOutput) (aid ip id : string) (gw : NatGateway) :
  let svc := ec2_New ev in
  let allocated := AllocateAddress ec2 svc w in
  let igw := createInternetGateway ec2 svc (VPCID ev) (fst allocated) in
  let nat := CreateNatGateway ec2 svc aid (PublicNetworkAWSID ev) (final igw) in
  let waited := WaitUntilNatGatewayAvailable ec2 svc (NatGatewayId gw) (fst nat) in
  let loop :=
    for_range (RoutedNetworkAWSIDs ev)
      (CreateNat_subnet ec2 svc (VPCID ev) (NatGatewayId gw)) (fst waited) in
  snd allocated = inl addr ->
  AllocationId addr = Some aid ->
  PublicIp addr = Some ip ->
  value igw = Ret (id, None) ->
  snd nat = inl gw ->
  snd waited = None ->
  CreateNat ec2 ev w
  = mkRun (final loop)
      ([CAllocateAddress] ++ calls igw
       ++ [CCreateNatGateway aid (PublicNetworkAWSID ev);
           CWaitUntilNatGatewayAvailable (NatGatewayId gw)]
       ++ calls loop)
      (match value loop with
       | Ret err =>
           Ret (set_NatGatewayAWSID (NatGatewayId gw)
                  (set_InternetGatewayID id (set_Allocation aid ip ev)), err)
       | Panic msg => Panic msg
       | OutOfFuel => OutOfFuel
       end).
Proof.
  intros svc allocated igw nat waited loop Halloc Haid Hip Higw Hnat Hwaited.
  rewrite CreateNat_run. cbv zeta.
  fold svc. fold allocated. rewrite Halloc, Haid, Hip.
  fold igw. rewrite Higw.
  fold nat. rewrite Hnat.
  fold waited. rewrite Hwaited.
  reflexivity.
Qed.

(** a run of [CreateNat] that returns no error got every answer it waited
    for *)
Lemma CreateNat_success (ev ev1 : Event) (w : World) :
  value (CreateNat ec2 ev w) = Ret (ev1, None) ->
  exists addr aid ip id gw,
    let svc := ec2_New ev in
    let allocated := AllocateAddress ec2 svc w in
    let igw := createInternetGateway ec2 svc (VPCID ev) (fst allocated) in
    let nat := CreateNatGateway ec2 svc aid (PublicNetworkAWSID ev) (final igw) in
    let waited := WaitUntilNatGatewayAvailable ec2 svc (NatGatewayId gw) (fst nat) in
    let loop :=
      for_range (RoutedNetworkAWSIDs ev)
        (CreateNat_subnet ec2 svc (VPCID ev) (NatGatewayId gw)) (fst waited) in
    snd allocated = inl addr /\
    AllocationId addr = Some aid /\
    PublicIp addr = Some ip /\
    value igw = Ret (id, None) /\
    snd nat = inl gw /\
    snd waited = None /\
    value loop = Ret None /\
    ev1 = set_NatGatewayAWSID (NatGatewayId gw)
            (set_InternetGatewayID id (set_Allocation aid ip ev)).
Proof.
  rewrite CreateNat_run. cbv zeta.
  destruct (snd (AllocateAddress ec2 (ec2_New ev) w)) as [addr | e0] eqn:Ealloc;
    [|discriminate].
  destruct (AllocationId addr) as [aid|] eqn:Eaid; [|discriminate].
  destruct (PublicIp addr) as [ip|] eqn:Eip; [|discriminate].
  destruct (value (createInternetGateway ec2 _ _ _)) as [[id [e1|]] | msg |] eqn:Eigw;
    try discriminate.
  destruct (snd (CreateNatGateway ec2 _ _ _ _)) as [gw | e2] eqn:Enat; [|discriminate].
  destruct (snd (WaitUntilNatGatewayAvailable ec2 _ _ _)) as [e3|] eqn:Ewaited;
    [discriminate|].
  simpl.
  destruct (value (for_range _ _ _)) as [[e4|] | msg |] eqn:Eloop; try discriminate.
  intros H. inversion H.
  exists addr, aid, ip, id, gw. cbv zeta.
  repeat (split; [assumption || reflexivity|]). reflexivity.
Qed.

Lemma CreateNat_shape (ev : Event) (w : World) :
  exists full,
    create_calls ev full /\
    prefix_of (calls (CreateNat ec2 ev w)) full /\
    (forall ev', value (CreateNat ec2 ev w) = Ret (ev', None) ->
                 calls (CreateNat ec2 ev w) = full).
Proof.
  rewrite CreateNat_run. cbv zeta.
  set (svc := ec2_New ev).
  set (igw := createInternetGateway ec2 svc (VPCID ev) _).
  destruct (createInternetGateway_shape svc (VPCID ev)
              (fst (AllocateAddress ec2 svc w))) as (ti & Hti & Hpi & Hfi).
  fold igw in Hpi, Hfi.
  assert (Halone : exists full,
             create_calls ev full /\ prefix_of [CAllocateAddress] full).
  { destruct (subnet_calls_exist (VPCID ev) "" (RoutedNetworkAWSIDs ev))
      as [groups Hgroups].
    eexists. split; [exists "", "", ti, groups; repeat split; eassumption|].
    eexists; reflexivity. }
  destruct (snd (AllocateAddress ec2 svc w)) as [addr | e0].
  2:{ destruct Halone as (full & Hfull & Hp).
      exists full. simpl. repeat split; [exact Hfull | exact Hp | discriminate]. }
  destruct (AllocationId addr) as [aid|].
  2:{ destruct Halone as (full & Hfull & Hp).
      exists full. simpl. repeat split; [exact Hfull | exact Hp | discriminate]. }
  destruct (PublicIp addr) as [ip|].
  2:{ destruct Halone as (full & Hfull & Hp).
      exists full. simpl. repeat split; [exact Hfull | exact Hp | discriminate]. }
  clear Halone.
  destruct (value igw) as [[id [e1|]] | msg |] eqn:Eigw.
  1,3,4: destruct (subnet_calls_exist (VPCID ev) "" (RoutedNetworkAWSIDs ev))
        as [groups Hgroups];
      eexists; (split; [exists "", "", ti, groups; repeat split; eassumption|]);
      simpl; (split; [|discriminate]);
      apply (prefix_of_app_l [CAllocateAddress]);
      apply prefix_of_app_r; exact Hpi.
  rewrite (Hfi id eq_refl).
  destruct (snd (CreateNatGateway ec2 svc _ _ _)) as [gw | e2].
  2:{ destruct (subnet_calls_exist (VPCID ev) "" (RoutedNetworkAWSIDs ev))
        as [groups Hgroups].
      eexists. split; [exists aid, "", ti, groups;
                       repeat split; eassumption|].
      simpl. split; [|discriminate].
      apply (prefix_of_app_l [CAllocateAddress]). apply prefix_of_app_l.
      eexists. reflexivity. }
  destruct (snd (WaitUntilNatGatewayAvailable ec2 svc _ _)) as [e3|].
  { destruct (subnet_calls_exist (VPCID ev) (NatGatewayId gw) (RoutedNetworkAWSIDs ev))
      as [groups Hgroups].
    eexists. split; [exists aid, (NatGatewayId gw), ti, groups;
                     repeat split; eassumption|].
    simpl. split; [|discriminate].
    apply (prefix_of_app_l [CAllocateAddress]). apply prefix_of_app_l.
    exists (concat groups). reflexivity. }
  match goal with
  | |- context [for_range ?xs ?body ?w0] =>
      destruct (for_range_CreateNat_subnet_shape svc (VPCID ev) (NatGatewayId gw) xs w0)
        as (groups & Hgroups & Hp & Hf)
  end.
  eexists. split; [exists aid, (NatGatewayId gw), ti, groups;
                   repeat split; eassumption|].
  simpl. split.
  - apply (prefix_of_app_l [CAllocateAddress]). apply prefix_of_app_l.
    apply (prefix_of_app_l [_; _]). exact Hp.
  - intros ev' Hv.
    destruct (value (for_range _ _ _)) as [[e|] | msg |]; try discriminate Hv.
    rewrite (Hf eq_refl). reflexivity.
Qed.
(** C2: the calls of Create are an initial part of the sequence
    allocate address, resolve-or-create the internet gateway, create the
    NAT gateway, wait for it, then, subnet by subnet in the order of the
    request, resolve-or-create the route table and create the default
    route; they are the whole sequence when Create returns no error.
    Create returns when the allocation answer is an error or carries the
    allocation ID and the public IP, and it never calls a removal.

    Each step is fixed by the answers of the service.  With the address
    allocated, the resolution of the internet gateway follows the
    allocation; when it succeeds the NAT gateway is created with the
    allocation ID of the answer in the public subnet, and the wait is for
    the gateway of that answer.  The resolution is the lookup alone when
    the lookup lists a gateway; when it lists none it is the lookup, the
    creation and the attachment of the gateway created to the VPC.

    For a subnet [x] of the request, when Create went well for the subnets
    before it: the run continues with the step of [x], whose routes target
    the NAT gateway the service created.  The step is the lookup of the
    table and the route in the table listed first when the lookup lists
    one; when it lists none it is the lookup, the creation of a table in
    the VPC, its association with [x] and, once that is accepted, the route
    in the table created.  When the step of [x] fails, Create returns that
    error having made the calls of the earlier subnets and of that step and
    nothing more, in the world that step left. *)
Theorem create_calls_in_order (ev : Event) (w : World) :
  let svc := ec2_New ev in
  let vpc := VPCID ev in
  let pub := PublicNetworkAWSID ev in
  let run := CreateNat ec2 ev w in
  let allocated := AllocateAddress ec2 svc w in
  let igw := createInternetGateway ec2 svc vpc (fst allocated) in
  (exists full,
      create_calls ev full /\
      prefix_of (calls run) full /\
      (forall ev', value run = Ret (ev', None) -> calls run = full)) /\
  ((forall addr, snd allocated = inl addr -> allocation_complete addr) ->
   exists ev' err, value run = Ret (ev', err)) /\
  Forall (fun c => is_removal c = false) (calls run) /\
  (forall addr aid ip,
      snd allocated = inl addr ->
      AllocationId addr = Some aid ->
      PublicIp addr = Some ip ->
      prefix_of ([CAllocateAddress] ++ calls igw) (calls run) /\
      (forall id,
          value igw = Ret (id, None) ->
          let nat := CreateNatGateway ec2 svc aid pub (final igw) in
          prefix_of ([CAllocateAddress] ++ calls igw ++ [CCreateNatGateway aid pub])
            (calls run) /\
          (forall gw,
              snd nat = inl gw ->
              prefix_of
                ([CAllocateAddress] ++ calls igw
                 ++ [CCreateNatGateway aid pub;
                     CWaitUntilNatGatewayAvailable (NatGatewayId gw)])
                (calls run)))) /\
  (let lookup := DescribeInternetGateways ec2 svc vpc (fst allocated) in
   let made := CreateInternetGateway ec2 svc (fst lookup) in
   (forall ig rest,
       snd lookup = inl (ig :: rest) ->
       calls igw = [CDescribeInternetGateways vpc] /\
       value igw = Ret (InternetGatewayId ig, None)) /\
   (forall g,
       snd lookup = inl [] ->
       snd made = inl g ->
       calls igw = [CDescribeInternetGateways vpc;
                    CCreateInternetGateway;
                    CAttachInternetGateway (InternetGatewayId g) vpc] /\
       (snd (AttachInternetGateway ec2 svc (InternetGatewayId g) vpc (fst made)) = None ->
        value igw = Ret (InternetGatewayId g, None)))) /\
  (forall pre x post ev1,
      RoutedNetworkAWSIDs ev = pre ++ x :: post ->
      let before := CreateNat ec2 (set_networks pub pre ev) w in
      value before = Ret (ev1, None) ->
      let gw := NatGatewayAWSID ev1 in
      let step := CreateNat_subnet ec2 svc vpc gw x (final before) in
      let found := DescribeRouteTables ec2 svc x (final before) in
      let made := CreateRouteTable ec2 svc vpc (fst found) in
      prefix_of (calls before ++ calls step) (calls run) /\
      (exists addr aid nat,
          snd allocated = inl addr /\
          AllocationId addr = Some aid /\
          snd (CreateNatGateway ec2 svc aid pub (final igw)) = inl nat /\
          gw = NatGatewayId nat) /\
      (forall rt rest,
          snd found = inl (rt :: rest) ->
          calls step = [CDescribeRouteTables x;
                        CCreateRoute (RouteTableId rt) "0.0.0.0/0" gw]) /\
      (forall t,
          snd found = inl [] ->
          snd made = inl t ->
          prefix_of [CDescribeRouteTables x;
                     CCreateRouteTable vpc;
                     CAssociateRouteTable (RouteTableId t) x] (calls step) /\
          (snd (AssociateRouteTable ec2 svc (RouteTableId t) x (fst made)) = None ->
           calls step = [CDescribeRouteTables x;
                         CCreateRouteTable vpc;
                         CAssociateRouteTable (RouteTableId t) x;
                         CCreateRoute (RouteTableId t) "0.0.0.0/0" gw])) /\
      (forall e,
          value step = Ret (Some e) ->
          final run = final step /\
          calls run = calls before ++ calls step /\
          error_of (value run) = Ret (Some e))).
Proof.
  intros svc vpc pub run allocated igw.
  split; [apply CreateNat_shape|].
  split; [apply CreateNat_returns|].
  split; [apply provisioning_not_removal; apply CreateNat_provisioning|].
  split; [|split].
  - intros addr aid ip Halloc Haid Hip.
    unfold run. rewrite CreateNat_run. cbv zeta.
    fold svc. fold allocated. rewrite Halloc, Haid, Hip.
    fold vpc. fold igw. fold pub.
    split.
    + destruct (value igw) as [[id [e1|]] | msg |]; simpl;
        try apply prefix_of_refl.
      destruct (snd (CreateNatGateway ec2 svc aid pub (final igw))) as [gw | e2];
        [destruct (snd (WaitUntilNatGatewayAvailable ec2 svc _ _)) as [e3|] |];
        simpl; eexists; reflexivity.
    + intros id Higw. rewrite Higw. split.
      * destruct (snd (CreateNatGateway ec2 svc aid pub (final igw))) as [gw | e2];
          [destruct (snd (WaitUntilNatGatewayAvailable ec2 svc _ _)) as [e3|] |];
          simpl; apply (prefix_of_app_l [CAllocateAddress]);
          try apply prefix_of_refl;
          apply prefix_of_app_l; eexists; reflexivity.
      * intros gw Hnat. rewrite Hnat.
        destruct (snd (WaitUntilNatGatewayAvailable ec2 svc _ _)) as [e3|];
          simpl; apply (prefix_of_app_l [CAllocateAddress]);
          try apply prefix_of_refl;
          apply prefix_of_app_l; eexists; reflexivity.
  - intros lookup made. unfold igw. rewrite createInternetGateway_run. cbv zeta.
    fold lookup. fold made. split.
    + intros ig rest Hlookup. rewrite Hlookup. split; reflexivity.
    + intros g Hlookup Hmade. rewrite Hlookup, Hmade. simpl.
      split; [reflexivity|]. intros Hattached. rewrite Hattached. reflexivity.
  - intros pre x post ev1 Hrouted before Hbefore gw step found made.
    destruct (CreateNat_success _ _ _ Hbefore)
      as (addr & aid & ip & id & nat & Halloc & Haid & Hip & Higw & Hnat
          & Hwaited & Hloop & Hev1).
    cbv zeta in Halloc, Higw, Hnat, Hwaited, Hloop.
    change (ec2_New (set_networks pub pre ev)) with svc in *.
    change (VPCID (set_networks pub pre ev)) with vpc in *.
    change (PublicNetworkAWSID (set_networks pub pre ev)) with pub in *.
    change (RoutedNetworkAWSIDs (set_networks pub pre ev)) with pre in *.
    fold allocated in Halloc, Higw, Hnat, Hwaited, Hloop.
    fold igw in Higw, Hnat, Hwaited, Hloop.
    assert (Hgw : gw = NatGatewayId nat) by (unfold gw; rewrite Hev1; reflexivity).
    pose proof (CreateNat_reaches_loop (set_networks pub pre ev) w addr aid ip id nat
                  Halloc Haid Hip Higw Hnat Hwaited) as Hrun_before.
    pose proof (CreateNat_reaches_loop ev w addr aid ip id nat
                  Halloc Haid Hip Higw Hnat Hwaited) as Hrun.
    cbv zeta in Hrun_before, Hrun.
    change (ec2_New (set_networks pub pre ev)) with svc in *.
    change (VPCID (set_networks pub pre ev)) with vpc in *.
    change (PublicNetworkAWSID (set_networks pub pre ev)) with pub in *.
    change (RoutedNetworkAWSIDs (set_networks pub pre ev)) with pre in *.
    fold svc vpc pub in Hrun. fold allocated igw in Hrun, Hrun_before.
    rewrite Hrouted in Hrun.
    set (body := CreateNat_subnet ec2 svc vpc (NatGatewayId nat)) in *.
    set (w0 := fst (WaitUntilNatGatewayAvailable ec2 svc (NatGatewayId nat) _)) in *.
    rewrite Hloop in Hrun_before.
    assert (Hstep : step = body x (final (for_range pre body w0))).
    { unfold step, before. rewrite Hrun_before, Hgw. reflexivity. }
    assert (Hfound : found = DescribeRouteTables ec2 svc x (final (for_range pre body w0))).
    { unfold found, before. rewrite Hrun_before. reflexivity. }
    split; [|split; [|split; [|split]]].
    + unfold run, before. rewrite Hrun, Hrun_before, Hstep. simpl.
      apply (prefix_of_app_l [CAllocateAddress]).
      rewrite <- app_assoc. apply prefix_of_app_l.
      apply (prefix_of_app_l [_; _]).
      apply for_range_visits. exact Hloop.
    + exists addr, aid, nat. repeat split; assumption.
    + intros rt rest Hlisted.
      unfold step. rewrite CreateNat_subnet_run. cbv zeta.
      fold found. rewrite Hlisted. reflexivity.
    + intros t Hlisted Hmade.
      unfold step. rewrite CreateNat_subnet_run. cbv zeta.
      fold found. rewrite Hlisted. fold made. rewrite Hmade.
      destruct (snd (AssociateRouteTable ec2 svc (RouteTableId t) x (fst made)))
        as [e|]; simpl.
      * split; [apply prefix_of_refl | discriminate].
      * split; [eexists; reflexivity | reflexivity].
    + intros e Hfails. rewrite Hstep in Hfails.
      unfold run, before. rewrite Hrun, Hrun_before, Hstep.
      rewrite (for_range_abort body pre post x e w0 Hloop Hfails). simpl.
      repeat split.
      repeat rewrite <- app_assoc. reflexivity.
Qed.

End Create.

Lemma create_calls_in_order_witness :
  prefix_of
    ([CAllocateAddress;
      CDescribeInternetGateways "vpc-1";
      CCreateInternetGateway;
      CAttachInternetGateway "igw-2" "vpc-1";
      CCreateNatGateway "eipalloc-1" "subnet-pub";
      CWaitUntilNatGatewayAvailable "nat-1"]
     ++ [CDescribeRouteTables "subnet-a";
         CCreateRouteTable "vpc-1";
         CAssociateRouteTable "rtb-new" "subnet-a";
         CCreateRoute "rtb-new" "0.0.0.0/0" "nat-1"])
    (calls (CreateNat (scripted bare) example_event 0))
  /\ calls (CreateNat (scripted refusing_b) example_event 0)
     = [CAllocateAddress;
        CDescribeInternetGateways "vpc-1";
        CCreateNatGateway "eipalloc-1" "subnet-pub";
        CWaitUntilNatGatewayAvailable "nat-1";
        CDescribeRouteTables "subnet-a";
        CCreateRoute "rtb-subnet-a" "0.0.0.0/0" "nat-1";
        CDescribeRouteTables "subnet-b";
        CCreateRoute "rtb-subnet-b" "0.0.0.0/0" "nat-1"]
  /\ error_of (value (CreateNat (scripted refusing_b) example_event 0))
     = Ret (Some (awserr "RouteLimitExceeded")).
Proof.
  split.
  - destruct (@create_calls_in_order nat (scripted bare) example_event 0)
      as (_ & _ & _ & _ & Higw & Hsubnet).
    destruct (proj2 Higw {| InternetGatewayId := "igw-2" |} eq_refl eq_refl)
      as (Hresolution & _).
    destruct (Hsubnet [] "subnet-a" ["subnet-b"; "subnet-c"] _ eq_refl eq_refl)
      as (Hprefix & _ & _ & Hmade & _).
    destruct (Hmade {| RouteTableId := "rtb-new"; Routes := [local_route] |}
                eq_refl eq_refl) as (_ & Hstep).
    rewrite (Hstep eq_refl) in Hprefix.
    exact Hprefix.
  - destruct (@create_calls_in_order nat (scripted refusing_b) example_event 0)
      as (_ & _ & _ & _ & _ & Hsubnet).
    destruct (Hsubnet ["subnet-a"] "subnet-b" ["subnet-c"] _ eq_refl eq_refl)
      as (_ & _ & _ & _ & Habort).
    destruct (Habort (awserr "RouteLimitExceeded") eq_refl) as (_ & Hcalls & Herr).
    split.
    + rewrite Hcalls. reflexivity.
    + exact Herr.
Defined.

(** ** The workflows declared as methods *)

Section Methods.

Context {World : Type} (ec2 : EC2 World).

(** the method [Event.Create] is the function [CreateNat] *)
Lemma Event_Create_is_CreateNat (ev : Event) (w : World) :
  Event_Create ec2 ev w = CreateNat ec2 ev w.
Proof. reflexivity. Qed.

(** the method [Event.Delete] is the function [DeleteNat] *)
Lemma Event_Delete_is_DeleteNat (fuel : nat) (ev : Event) (w : World) :
  Event_Delete ec2 fuel ev w = DeleteNat ec2 fuel ev w.
Proof. reflexivity. Qed.

End Methods.

(** * Further properties *)

(** ** What validation accepts *)

Lemma eqb_empty_false (s : string) : (s =? "") = false <-> s <> "".
Proof. apply String.eqb_neq. Qed.

Lemma ltb_length_1 (xs : list string) : Nat.ltb (length xs) 1 = false <-> xs <> [].
Proof.
  destruct xs as [|x rest]; simpl; split; intros H;
    try discriminate; try congruence; reflexivity.
Qed.

(** X1: validation accepts a delete request exactly when its VPC ID, region,
    both credentials and NAT gateway ID are present; it accepts a request of
    any other subject exactly when its VPC ID, region, both credentials and
    public network ID are present and it lists a routed network.  No other
    field is looked at. *)
Theorem Validate_accepts_exactly (ev : Event) :
  (Validate ev "nat.delete.aws" = None <->
     VPCID ev <> "" /\ DatacenterRegion ev <> "" /\
     DatacenterAccessKey ev <> "" /\ DatacenterAccessToken ev <> "" /\
     NatGatewayAWSID ev <> "") /\
  (forall subject,
      subject <> "nat.delete.aws" ->
      (Validate ev subject = None <->
         VPCID ev <> "" /\ DatacenterRegion ev <> "" /\
         DatacenterAccessKey ev <> "" /\ DatacenterAccessToken ev <> "" /\
         PublicNetworkAWSID ev <> "" /\ RoutedNetworkAWSIDs ev <> [])).
Proof.
  split; [|intros subject Hsubject]; unfold Validate;
    [|rewrite (proj2 (String.eqb_neq _ _) Hsubject)];
    simpl;
    repeat rewrite <- eqb_empty_false; rewrite <- ?ltb_length_1;
    destruct (VPCID ev =? ""), (DatacenterRegion ev =? ""),
      (DatacenterAccessKey ev =? ""), (DatacenterAccessToken ev =? "");
    simpl; try (split; [discriminate | intuition discriminate]).
  - destruct (NatGatewayAWSID ev =? ""); split; intuition discriminate.
  - destruct (PublicNetworkAWSID ev =? "");
      [split; [discriminate | intuition discriminate]|].
    destruct (Nat.ltb (length (RoutedNetworkAWSIDs ev)) 1);
      split; intuition discriminate.
Qed.

Lemma Validate_accepts_exactly_witness :
  Validate example_event "nat.get.aws" = None.
Proof.
  apply (proj2 (Validate_accepts_exactly example_event) "nat.get.aws").
  - discriminate.
  - repeat split; discriminate.
Defined.

(** X2: an error of validation is one of the six declared kinds; the NAT
    gateway ID error is returned for the delete subject only, the network ID
    and routed networks errors for other subjects only. *)
Theorem Validate_error_kinds (ev : Event) (subject : string) (e : error) :
  Validate ev subject = Some e ->
  In e validation_errors /\
  (e = ErrNatGatewayIDInvalid -> subject = "nat.delete.aws") /\
  (e = ErrNetworkIDInvalid \/ e = ErrRoutedNetworksEmpty ->
   subject <> "nat.delete.aws").
Proof.
  unfold Validate, validation_errors.
  destruct (VPCID ev =? ""); [intros H; inversion H; subst e; simpl;
                              intuition discriminate|].
  destruct (DatacenterRegion ev =? ""); [intros H; inversion H; subst e; simpl;
                                         intuition discriminate|].
  destruct ((DatacenterAccessKey ev =? "") || (DatacenterAccessToken ev =? ""));
    [intros H; inversion H; subst e; simpl; intuition discriminate|].
  destruct (String.eqb_spec subject "nat.delete.aws") as [Hs|Hs].
  - destruct (NatGatewayAWSID ev =? ""); intros H; inversion H; subst e; simpl.
    intuition discriminate.
  - destruct (PublicNetworkAWSID ev =? "");
      [intros H; inversion H; subst e; simpl; intuition discriminate|].
    destruct (Nat.ltb (length (RoutedNetworkAWSIDs ev)) 1);
      intros H; inversion H; subst e; simpl; intuition discriminate.
Qed.

Lemma Validate_error_kinds_witness :
  In ErrDatacenterIDInvalid validation_errors.
Proof.
  exact (proj1 (Validate_error_kinds no_vpc_event "nat.create.aws"
                  ErrDatacenterIDInvalid eq_refl)).
Defined.

(** ** Subjects and replies *)

Lemma split_no_dot (s : string) :
  has_dot s = false -> strings_Split_dot s = [s].
Proof.
  unfold strings_Split_dot.
  induction s as [|c rest IH]; simpl; [reflexivity|].
  destruct (Ascii.eqb c "."); simpl; [discriminate|].
  intros H. rewrite (IH H). reflexivity.
Qed.

Lemma split_at_first_dot (p rest : string) :
  has_dot p = false ->
  strings_Split_dot (p ++ String "." rest) = p :: strings_Split_dot rest.
Proof.
  unfold strings_Split_dot.
  induction p as [|c p IH]; simpl; [reflexivity|].
  destruct (Ascii.eqb c "."); simpl; [discriminate|].
  intros H. rewrite (IH H). reflexivity.
Qed.

Lemma split_nat_subject (a : string) :
  has_dot a = false ->
  strings_Split_dot ("nat." ++ a ++ ".aws") = ["nat"; a; "aws"].
Proof.
  intros H.
  change ("nat." ++ a ++ ".aws")%string with ("nat" ++ String "." (a ++ String "." "aws"))%string.
  rewrite (split_at_first_dot "nat" _ eq_refl).
  rewrite (split_at_first_dot a "aws" H).
  reflexivity.
Qed.

Lemma append_assoc3 (a b c : string) :
  ((a ++ b) ++ c)%string = (a ++ b ++ c)%string.
Proof.
  induction a as [|x a IH]; simpl; [reflexivity|]. rewrite IH. reflexivity.
Qed.

Lemma nat_subject_replies (a suffix : string) :
  (("nat." ++ a ++ ".aws") ++ suffix)%string = ("nat." ++ a ++ ".aws" ++ suffix)%string.
Proof.
  rewrite append_assoc3. f_equal. rewrite append_assoc3. reflexivity.
Qed.

Section Replies.

Context {World : Type} (ec2 : EC2 World) (json : JSON).

Lemma eventHandler_no_action (m : Msg) (w : World) :
  nth_error (strings_Split_dot (Subject m)) 1 = None ->
  eventHandler ec2 json m w = mkRun w [] (Panic "index out of range").
Proof.
  intros H. unfold eventHandler, Process, index1, bind. rewrite H. reflexivity.
Qed.

Lemma switch_action_returns (a : string) (ev : Event) (w : World) :
  a <> "update" ->
  (a = "create" ->
   forall addr,
     snd (AllocateAddress ec2 (ec2_New ev) w) = inl addr -> allocation_complete addr) ->
  exists n err, value (switch_action ec2 a ev w) = Ret (n, err).
Proof.
  intros Ha Hcomplete. unfold switch_action.
  destruct (a =? "create") eqn:Ec.
  { apply CreateNat_returns. apply Hcomplete. apply String.eqb_eq. exact Ec. }
  rewrite (proj2 (String.eqb_neq _ _) Ha).
  destruct (a =? "delete"); eexists _, _; reflexivity.
Qed.

(** X3: a message whose subject has no "." has no action part: the handler
    panics on the index, having published nothing and called nothing. *)
Theorem subject_without_action_panics (m : Msg) (w : World) :
  has_dot (Subject m) = false ->
  eventHandler ec2 json m w = mkRun w [] (Panic "index out of range").
Proof.
  intros H. apply eventHandler_no_action.
  rewrite (split_no_dot _ H). reflexivity.
Qed.

(** X4: in every run of the handler the calls are calls that look up, wait
    for or create a resource, followed by at most one publish; the handler
    never deletes, polls a deletion or sleeps; and when it returns, the
    publish is there, after all the other calls. *)
Theorem reply_follows_the_calls (m : Msg) (w : World) :
  json_for_Event json ->
  exists t,
    Forall provisioning t /\
    (calls (eventHandler ec2 json m w) = t \/
     exists subject data,
       calls (eventHandler ec2 json m w) = t ++ [CPublish subject data]) /\
    (value (eventHandler ec2 json m w) = Ret tt ->
     exists subject data,
       calls (eventHandler ec2 json m w) = t ++ [CPublish subject data]).
Proof.
  intros Hjson.
  destruct (nth_error (strings_Split_dot (Subject m)) 1) as [a|] eqn:Ha.
  2:{ rewrite (eventHandler_no_action m w Ha). simpl.
      exists []. split; [constructor|]. split; [left; reflexivity | discriminate]. }
  destruct (eventHandler_run ec2 json m a w Hjson Ha)
    as (Hdecode & Hinvalid & Hfailed & Hdone & Hpanic & Hfuel).
  set (decoded := Unmarshal json (Data m) (set_action a Event_zero)) in *.
  set (workflow := switch_action ec2 a (fst decoded) w) in *.
  destruct (snd decoded) as [derr|] eqn:Edec.
  { rewrite Hdecode by discriminate. simpl.
    exists []. split; [constructor|].
    split; [right|intros _]; eexists _, _; reflexivity. }
  destruct (Validate (fst decoded) (Subject m)) as [verr|] eqn:Eval.
  { destruct (Hinvalid verr eq_refl eq_refl) as (data & _ & ->). simpl.
    exists []. split; [constructor|].
    split; [right|intros _]; eexists _, _; reflexivity. }
  exists (calls workflow).
  split; [apply switch_action_provisioning|].
  destruct (value workflow) as [[n [e|]] | msg |] eqn:Ew.
  - destruct (Hfailed n e eq_refl eq_refl eq_refl) as (data & _ & ->). simpl.
    split; [right|intros _]; eexists _, _; reflexivity.
  - destruct (Hdone n eq_refl eq_refl eq_refl) as (data & _ & ->). simpl.
    split; [right|intros _]; eexists _, _; reflexivity.
  - rewrite (Hpanic msg eq_refl eq_refl eq_refl). simpl.
    split; [left; reflexivity | discriminate].
  - rewrite (Hfuel eq_refl eq_refl eq_refl). simpl.
    split; [left; reflexivity | discriminate].
Qed.

(** X5: for a subject whose action part is not "update" (create and delete
    among them) the handler returns, having published exactly one message,
    unless the request is a create request that decodes and passes
    validation and the allocation answer lacks the allocation ID or the
    public IP: then Create dereferences a nil pointer and the handler
    panics after that one call, with no reply. *)
Theorem request_other_than_update_gets_a_reply (m : Msg) (a : string) (w : World) :
  json_for_Event json ->
  nth_error (strings_Split_dot (Subject m)) 1 = Some a ->
  a <> "update" ->
  let decoded := Unmarshal json (Data m) (set_action a Event_zero) in
  let allocated := AllocateAddress ec2 (ec2_New (fst decoded)) w in
  let reaches_create :=
    a = "create" /\ snd decoded = None /\
    Validate (fst decoded) (Subject m) = None in
  ((reaches_create ->
    forall addr, snd allocated = inl addr -> allocation_complete addr) ->
   value (eventHandler ec2 json m w) = Ret tt /\
   length (filter is_publish (calls (eventHandler ec2 json m w))) = 1) /\
  (reaches_create ->
   forall addr,
     snd allocated = inl addr ->
     ~ allocation_complete addr ->
     eventHandler ec2 json m w
     = mkRun (fst allocated) [CAllocateAddress]
         (Panic "invalid memory address or nil pointer dereference")).
Proof.
  intros Hjson Ha Hupdate decoded allocated reaches_create.
  destruct (eventHandler_run ec2 json m a w Hjson Ha)
    as (Hdecode & Hinvalid & Hfailed & Hdone & Hpanic & _).
  fold decoded in Hdecode, Hinvalid, Hfailed, Hdone, Hpanic.
  set (workflow := switch_action ec2 a (fst decoded) w) in *.
  assert (Hquiet : filter is_publish (calls workflow) = []).
  { apply provisioning_not_publish. apply switch_action_provisioning. }
  split.
  - intros Hcomplete.
    destruct (snd decoded) as [derr|] eqn:Edec.
    { rewrite Hdecode by discriminate. split; reflexivity. }
    destruct (Validate (fst decoded) (Subject m)) as [verr|] eqn:Eval.
    { destruct (Hinvalid verr eq_refl eq_refl) as (data & _ & ->). split; reflexivity. }
    destruct (switch_action_returns a (fst decoded) w Hupdate) as (n & err & Hw).
    { intros Hcreate. apply Hcomplete. repeat split; assumption || reflexivity. }
    fold workflow in Hw.
    destruct err as [e|].
    + destruct (Hfailed n e eq_refl eq_refl Hw) as (data & _ & ->). simpl.
      rewrite filter_app, Hquiet. split; reflexivity.
    + destruct (Hdone n eq_refl eq_refl Hw) as (data & _ & ->). simpl.
      rewrite filter_app, Hquiet. split; reflexivity.
  - intros (Hcreate & Hdecoded & Hvalid) addr Halloc Hincomplete.
    assert (Hw : workflow
                 = mkRun (fst allocated) [CAllocateAddress]
                     (Panic "invalid memory address or nil pointer dereference")).
    { unfold workflow, switch_action. rewrite Hcreate. simpl.
      apply (CreateNat_panics_on_incomplete_allocation ec2 (fst decoded) w addr Halloc
               Hincomplete). }
    rewrite (Hpanic "invalid memory address or nil pointer dereference" Hdecoded Hvalid)
      by (rewrite Hw; reflexivity).
    rewrite Hw. reflexivity.
Qed.

(** X6: for a subject of the form [nat.<action>.aws] every message the
    handler publishes is on [<subject>.error] or on [<subject>.done]: the
    reply subject built from the action part is the subject of the request
    with the suffix. *)
Theorem replies_go_to_the_subject (m : Msg) (a : string) (w : World) :
  json_for_Event json ->
  has_dot a = false ->
  Subject m = ("nat." ++ a ++ ".aws")%string ->
  Forall (fun c =>
            is_publish c = true ->
            exists data,
              c = CPublish (Subject m ++ ".error") data \/
              c = CPublish (Subject m ++ ".done") data)
    (calls (eventHandler ec2 json m w)).
Proof.
  intros Hjson Hdot Hsubject.
  assert (Ha : nth_error (strings_Split_dot (Subject m)) 1 = Some a).
  { rewrite Hsubject, (split_nat_subject a Hdot). reflexivity. }
  assert (Herror : (Subject m ++ ".error")%string = ("nat." ++ a ++ ".aws.error")%string).
  { rewrite Hsubject. apply (nat_subject_replies a ".error"). }
  assert (Hdone' : (Subject m ++ ".done")%string = ("nat." ++ a ++ ".aws.done")%string).
  { rewrite Hsubject. apply (nat_subject_replies a ".done"). }
  destruct (eventHandler_run ec2 json m a w Hjson Ha)
    as (Hdecode & Hinvalid & Hfailed & Hdone & Hpanic & Hfuel).
  set (decoded := Unmarshal json (Data m) (set_action a Event_zero)) in *.
  set (workflow := switch_action ec2 a (fst decoded) w) in *.
  assert (Hquiet : Forall (fun c =>
                             is_publish c = true ->
                             exists data,
                               c = CPublish (Subject m ++ ".error") data \/
                               c = CPublish (Subject m ++ ".done") data)
                     (calls workflow)).
  { eapply Forall_impl; [|apply switch_action_provisioning].
    intros c Hc Hp. destruct c; discriminate. }
  destruct (snd decoded) as [derr|] eqn:Edec.
  { rewrite Hdecode by discriminate. simpl.
    constructor; [|constructor]. intros _. eexists. left. reflexivity. }
  destruct (Validate (fst decoded) (Subject m)) as [verr|] eqn:Eval.
  { destruct (Hinvalid verr eq_refl eq_refl) as (data & _ & ->). simpl.
    constructor; [|constructor]. intros _. exists data. left.
    rewrite Herror. reflexivity. }
  destruct (value workflow) as [[n [e|]] | msg |] eqn:Ew.
  - destruct (Hfailed n e eq_refl eq_refl eq_refl) as (data & _ & ->). simpl.
    apply Forall_app. split; [exact Hquiet|].
    constructor; [|constructor]. intros _. exists data. left.
    rewrite Herror. reflexivity.
  - destruct (Hdone n eq_refl eq_refl eq_refl) as (data & _ & ->). simpl.
    apply Forall_app. split; [exact Hquiet|].
    constructor; [|constructor]. intros _. exists data. right.
    rewrite Hdone'. reflexivity.
  - rewrite (Hpanic msg eq_refl eq_refl eq_refl). exact Hquiet.
  - rewrite (Hfuel eq_refl eq_refl eq_refl). exact Hquiet.
Qed.

End Replies.

Lemma subject_without_action_panics_witness :
  eventHandler (scripted converged) (example_json example_event) (msg "nat" "nat-1") 0
  = mkRun 0 [] (Panic "index out of range").
Proof.
  apply (@subject_without_action_panics nat (scripted converged)
           (example_json example_event) (msg "nat" "nat-1") 0).
  reflexivity.
Defined.

Lemma reply_follows_the_calls_witness :
  exists t,
    Forall provisioning t /\
    (calls (eventHandler (scripted refusing_b) (example_json example_event)
              (msg "nat.create.aws" "nat-1") 0) = t \/
     exists subject data,
       calls (eventHandler (scripted refusing_b) (example_json example_event)
                (msg "nat.create.aws" "nat-1") 0) = t ++ [CPublish subject data]) /\
    (value (eventHandler (scripted refusing_b) (example_json example_event)
              (msg "nat.create.aws" "nat-1") 0) = Ret tt ->
     exists subject data,
       calls (eventHandler (scripted refusing_b) (example_json example_event)
                (msg "nat.create.aws" "nat-1") 0) = t ++ [CPublish subject data]).
Proof.
  exact (@reply_follows_the_calls nat (scripted refusing_b) (example_json example_event)
           (msg "nat.create.aws" "nat-1") 0 (example_json_for_Event example_event)).
Defined.

Lemma request_other_than_update_gets_a_reply_witness :
  value (eventHandler (scripted refusing_b) (example_json example_event)
           (msg "nat.create.aws" "nat-1") 0) = Ret tt
  /\ eventHandler (scripted classic) (example_json example_event)
       (msg "nat.create.aws" "nat-1") 0
     = mkRun 1 [CAllocateAddress]
         (Panic "invalid memory address or nil pointer dereference").
Proof.
  split.
  - refine (proj1 (proj1 (@request_other_than_update_gets_a_reply nat
                            (scripted refusing_b) (example_json example_event)
                            (msg "nat.create.aws" "nat-1") "create" 0
                            (example_json_for_Event example_event) eq_refl _) _)).
    + discriminate.
    + intros _ addr Haddr. inversion Haddr.
      exists "eipalloc-1", "203.0.113.7". split; reflexivity.
  - refine (proj2 (@request_other_than_update_gets_a_reply nat
                     (scripted classic) (example_json example_event)
                     (msg "nat.create.aws" "nat-1") "create" 0
                     (example_json_for_Event example_event) eq_refl _)
              _ {| AllocationId := None; PublicIp := Some "203.0.113.7" |} eq_refl _).
    + discriminate.
    + repeat split; reflexivity.
    + intros (id & ip & Hid & _). discriminate Hid.
Defined.

Lemma replies_go_to_the_subject_witness :
  Forall (fun c =>
            is_publish c = true ->
            exists data,
              c = CPublish "nat.get.aws.error" data \/
              c = CPublish "nat.get.aws.done" data)
    (calls (eventHandler (scripted converged) (example_json example_event)
              (msg "nat.get.aws" "nat-1") 0)).
Proof.
  exact (@replies_go_to_the_subject nat (scripted converged) (example_json example_event)
           (msg "nat.get.aws" "nat-1") "get" 0
           (example_json_for_Event example_event) eq_refl eq_refl).
Defined.

(** ** What Create records and what its calls are about *)

Lemma prefix_of_Forall (Q : Call -> Prop) (t full : list Call) :
  prefix_of t full -> Forall Q full -> Forall Q t.
Proof.
  intros [rest ->] H. apply Forall_app in H. exact (proj1 H).
Qed.

Lemma igw_calls_for (ev ev' : Event) (t : list Call) :
  igw_calls (VPCID ev) t -> Forall (create_call_for ev ev') t.
Proof.
  intros H. destruct H; repeat constructor.
Qed.

Lemma subnet_calls_for (vpc gw x : string) (subnets : list string) (t : list Call) :
  In x subnets ->
  subnet_calls vpc gw x t -> Forall (route_call_for vpc gw subnets) t.
Proof.
  intros Hx H. destruct H; repeat constructor; simpl; auto.
Qed.

Lemma route_call_for_create (ev ev' : Event) (c : Call) :
  route_call_for (VPCID ev) (NatGatewayAWSID ev') (RoutedNetworkAWSIDs ev) c ->
  create_call_for ev ev' c.
Proof.
  destruct c; simpl; intros H; try contradiction; exact H.
Qed.

Section Outcome.

Context {World : Type} (ec2 : EC2 World).

Lemma CreateNat_subnet_calls_for (svc : Config) (vpc gw x : string)
      (subnets : list string) (w : World) :
  In x subnets ->
  Forall (route_call_for vpc gw subnets) (calls (CreateNat_subnet ec2 svc vpc gw x w)).
Proof.
  intros Hx.
  destruct (CreateNat_subnet_shape ec2 svc vpc gw x w) as (t & Ht & Hp & _).
  apply (prefix_of_Forall _ _ t Hp).
  apply (subnet_calls_for vpc gw x subnets t Hx Ht).
Qed.

(** X7: the event Create returns differs from the request at most in the
    four identifiers it discovers.  When the address allocation fails the
    event is returned as it was; once it succeeds the allocation ID and IP
    of the answer are in the event, whatever fails later; and when Create
    returns no error the NAT gateway ID in the event is the ID of the
    gateway the provider created for that allocation. *)
Theorem CreateNat_outcome (ev ev' : Event) (err : option error) (w : World) :
  value (CreateNat ec2 ev w) = Ret (ev', err) ->
  let svc := ec2_New ev in
  let allocated := AllocateAddress ec2 svc w in
  let igw := createInternetGateway ec2 svc (VPCID ev) (fst allocated) in
  same_request ev ev' /\
  (forall e, snd allocated = inr e -> ev' = ev /\ err = Some e) /\
  (forall addr,
      snd allocated = inl addr ->
      AllocationId addr = Some (NatGatewayAllocationID ev') /\
      PublicIp addr = Some (NatGatewayAllocationIP ev') /\
      exists id igwerr,
        value igw = Ret (id, igwerr) /\ InternetGatewayID ev' = id) /\
  (err = None ->
   exists addr gw,
     snd allocated = inl addr /\
     snd (CreateNatGateway ec2 svc (NatGatewayAllocationID ev') (PublicNetworkAWSID ev)
            (final igw)) = inl gw /\
     NatGatewayAWSID ev' = NatGatewayId gw).
Proof.
  rewrite CreateNat_run. cbv zeta.
  set (svc := ec2_New ev).
  set (allocated := AllocateAddress ec2 svc w).
  set (igw := createInternetGateway ec2 svc (VPCID ev) (fst allocated)).
  unfold same_request.
  destruct (snd allocated) as [addr | e0] eqn:Ealloc;
    [destruct (AllocationId addr) as [aid|] eqn:Eaid; [|discriminate];
     destruct (PublicIp addr) as [ip|] eqn:Eip; [|discriminate];
     destruct (value igw) as [[id [e1|]] | msg |] eqn:Eigw;
     [| destruct (snd (CreateNatGateway ec2 svc _ _ _)) as [gw | e2] eqn:Ecreate;
        [destruct (snd (WaitUntilNatGatewayAvailable ec2 svc _ _)) as [e3|];
         [| simpl; destruct (value (for_range _ _ _)) as [lerr | msg |]] |] | |] |];
    try discriminate;
    intros H; inversion H; subst ev' err; simpl;
    repeat split; try discriminate; intros;
    repeat match goal with
      | Hx : inl _ = inl _ |- _ => inversion Hx; clear Hx; subst
      | Hx : inr _ = inr _ |- _ => inversion Hx; clear Hx; subst
      end;
    try reflexivity; try assumption;
    try (eexists _, _; split; reflexivity).
  exists addr, gw. repeat split. exact Ecreate.
Qed.

(** X8: every call of a run of Create concerns the request: the internet
    gateway calls name its VPC, the NAT gateway is created in its public
    network with the allocation recorded in the event, the wait and every
    route name the NAT gateway recorded in the event, every route has
    destination [0.0.0.0/0], and the route table calls name its VPC and its
    routed networks. *)
Theorem CreateNat_calls_concern_the_request
        (ev ev' : Event) (err : option error) (w : World) :
  value (CreateNat ec2 ev w) = Ret (ev', err) ->
  Forall (create_call_for ev ev') (calls (CreateNat ec2 ev w)).
Proof.
  rewrite CreateNat_run. cbv zeta.
  set (svc := ec2_New ev).
  set (allocated := AllocateAddress ec2 svc w).
  set (igw := createInternetGateway ec2 svc (VPCID ev) (fst allocated)).
  assert (Higw : forall ev0, Forall (create_call_for ev ev0) (calls igw)).
  { intros ev0.
    destruct (createInternetGateway_shape ec2 svc (VPCID ev) (fst allocated))
      as (t & Ht & Hp & _).
    apply (prefix_of_Forall _ _ t Hp). apply igw_calls_for. exact Ht. }
  assert (Hloop : forall gw w0 ev0,
             NatGatewayAWSID ev0 = gw ->
             Forall (create_call_for ev ev0)
               (calls (for_range (RoutedNetworkAWSIDs ev)
                         (CreateNat_subnet ec2 svc (VPCID ev) gw) w0))).
  { intros gw w0 ev0 Hgw.
    eapply Forall_impl; [apply route_call_for_create|].
    rewrite Hgw.
    apply for_range_calls_Forall. intros x w1 Hx.
    apply CreateNat_subnet_calls_for. exact Hx. }
  destruct (snd allocated) as [addr | e0];
    [destruct (AllocationId addr) as [aid|]; [|discriminate];
     destruct (PublicIp addr) as [ip|]; [|discriminate];
     destruct (value igw) as [[id [e1|]] | msg |] eqn:Eigw;
     [| destruct (snd (CreateNatGateway ec2 svc _ _ _)) as [gw | e2];
        [destruct (snd (WaitUntilNatGatewayAvailable ec2 svc _ _)) as [e3|];
         [| simpl; destruct (value (for_range _ _ _)) as [lerr | msg |] eqn:El] |] | |] |];
    try discriminate;
    intros H; inversion H; subst ev' err; simpl;
    repeat match goal with
      | |- Forall _ (_ :: _) => apply Forall_cons
      | |- Forall _ (_ ++ _) => apply Forall_app; split
      | |- Forall _ [] => apply Forall_nil
      end;
    try apply Higw; try (apply Hloop; reflexivity);
    simpl; auto.
Qed.

End Outcome.

Lemma CreateNat_outcome_witness :
  Some "eipalloc-1"
  = Some (NatGatewayAllocationID
            (set_NatGatewayAWSID "nat-1"
               (set_InternetGatewayID "igw-1"
                  (set_Allocation "eipalloc-1" "203.0.113.7" example_event)))).
Proof.
  refine (proj1 (proj1 (proj2 (proj2
            (@CreateNat_outcome nat (scripted refusing_b) example_event _
               (Some (awserr "RouteLimitExceeded")) 0 eq_refl))) _ eq_refl)).
Defined.

Lemma CreateNat_calls_concern_the_request_witness :
  Forall (create_call_for example_event
            (set_NatGatewayAWSID "nat-1"
               (set_InternetGatewayID "igw-1"
                  (set_Allocation "eipalloc-1" "203.0.113.7" example_event))))
    (calls (CreateNat (scripted refusing_b) example_event 0)).
Proof.
  exact (@CreateNat_calls_concern_the_request nat (scripted refusing_b) example_event _
           (Some (awserr "RouteLimitExceeded")) 0 eq_refl).
Defined.

(** ** Route tables *)

Section RouteTables.

Context {World : Type} (ec2 : EC2 World).

(** X9: the route table of a subnet is resolved or created: when the lookup
    lists a table it is returned after that one call; a table is created,
    in the VPC given, only when the lookup lists none, and it is then
    associated with the subnet asked for and returned unless the
    association fails; in every case the function returns, with a table
    exactly when it returns no error. *)
Theorem createRouteTable_resolves_or_creates
        (svc : Config) (vpc x : string) (w : World) :
  let lookup := DescribeRouteTables ec2 svc x w in
  let r := createRouteTable ec2 svc vpc x w in
  (exists rt err, value r = Ret (rt, err) /\ (rt = None <-> err <> None)) /\
  (forall rt rest,
      snd lookup = inl (rt :: rest) ->
      r = mkRun (fst lookup) [CDescribeRouteTables x] (Ret (Some rt, None))) /\
  (forall t,
      snd lookup = inl [] ->
      snd (CreateRouteTable ec2 svc vpc (fst lookup)) = inl t ->
      calls r = [CDescribeRouteTables x; CCreateRouteTable vpc;
                 CAssociateRouteTable (RouteTableId t) x] /\
      value r
      = Ret (match snd (AssociateRouteTable ec2 svc (RouteTableId t) x
                          (fst (CreateRouteTable ec2 svc vpc (fst lookup)))) with
             | Some e => (None, Some e)
             | None => (Some t, None)
             end)) /\
  (Exists (fun c => c = CCreateRouteTable vpc) (calls r) -> snd lookup = inl []).
Proof.
  intros lookup r. subst lookup r.
  unfold createRouteTable, routingTableBySubnetID, bind, remote. simpl.
  destruct (snd (DescribeRouteTables ec2 svc x w)) as [[|rt rest] | e]; simpl.
  - split.
    { destruct (snd (CreateRouteTable ec2 svc vpc _)) as [t | e]; simpl;
        [destruct (snd (AssociateRouteTable ec2 svc _ _ _)) as [e|]; simpl |];
        eexists _, _; (split; [reflexivity|]);
        split; congruence. }
    split; [discriminate|].
    split; [|reflexivity].
    intros t _ Ht. rewrite Ht. simpl.
    destruct (snd (AssociateRouteTable ec2 svc _ _ _)) as [e|]; simpl;
      split; reflexivity.
  - split; [eexists _, _; split; [reflexivity | split; congruence]|].
    split; [intros rt0 rest0 H; inversion H; reflexivity|].
    split; [discriminate|].
    intros H. inversion H as [? ? Hc | ? ? Hc]; [discriminate Hc | inversion Hc].
  - split; [eexists _, _; split; [reflexivity | split; congruence]|].
    split; [discriminate|].
    split; [discriminate|].
    intros H. inversion H as [? ? Hc | ? ? Hc]; [discriminate Hc | inversion Hc].
Qed.

End RouteTables.

Lemma createRouteTable_resolves_or_creates_witness :
  calls (createRouteTable (scripted no_tables) (ec2_New example_event)
           "vpc-1" "subnet-a" 0)
  = [CDescribeRouteTables "subnet-a"; CCreateRouteTable "vpc-1";
     CAssociateRouteTable "rtb-new" "subnet-a"].
Proof.
  exact (proj1 (proj1 (proj2 (proj2
           (@createRouteTable_resolves_or_creates nat (scripted no_tables)
              (ec2_New example_event) "vpc-1" "subnet-a" 0)))
           _ eq_refl eq_refl)).
Defined.

(** ** Update *)

Section UpdateRoutes.

Context {World : Type} (ec2 : EC2 World).


Lemma routes_configured_panics (pre post : list Route) (r : Route) (gw : string) (w : World) :
  Forall readable_route pre ->
  (forall p, In p pre -> ~ matching_route gw p) ->
  ~ readable_route r ->
  value (routes_configured (pre ++ r :: post) gw w)
  = Panic "invalid memory address or nil pointer dereference".
Proof.
  intros Hpre Hnone Hr.
  induction pre as [|p pre IH]; simpl.
  - unfold bind, deref.
    destruct (DestinationCidrBlock r) as [dest|] eqn:Ed; simpl; [|reflexivity].
    destruct (String.eqb_spec dest "0.0.0.0/0") as [Hd|Hd]; simpl.
    + destruct (RouteNatGatewayId r) as [target|] eqn:Et; simpl; [|reflexivity].
      exfalso. apply Hr. exists dest. split; [exact Ed|].
      intros _. exists target. exact Et.
    + exfalso. apply Hr. exists dest. split; [exact Ed|].
      intros Hd'. contradiction.
  - inversion Hpre as [|? ? (dest & Ed & Ht) Hpre']; subst.
    assert (IH' : value (routes_configured (pre ++ r :: post) gw w)
                  = Panic "invalid memory address or nil pointer dereference").
    { apply IH; [exact Hpre'|]. intros q Hq. apply Hnone. right. exact Hq. }
    unfold bind, deref. rewrite Ed. simpl.
    destruct (String.eqb_spec dest "0.0.0.0/0") as [Hd|Hd]; simpl.
    + destruct (Ht Hd) as [target Et]. rewrite Et. simpl.
      destruct (String.eqb_spec target gw) as [Hg|Hg]; simpl.
      * exfalso. apply (Hnone p (or_introl eq_refl)). split; congruence.
      * rewrite IH'. reflexivity.
    + rewrite IH'. reflexivity.
Qed.

Lemma createRouteTable_calls_for (svc : Config) (vpc gw x : string)
      (subnets : list string) (w : World) :
  In x subnets ->
  Forall (route_call_for vpc gw subnets) (calls (createRouteTable ec2 svc vpc x w)).
Proof.
  intros Hx.
  unfold createRouteTable, routingTableBySubnetID, bind, remote. simpl.
  repeat break_match; repeat constructor; simpl; auto.
Qed.

Lemma createNatGatewayRoutes_calls_for (svc : Config) (rt : option RouteTable)
      (vpc gw : string) (subnets : list string) (w : World) :
  Forall (route_call_for vpc gw subnets) (calls (createNatGatewayRoutes ec2 svc rt gw w)).
Proof.
  unfold createNatGatewayRoutes, bind, remote, deref.
  destruct rt; simpl; repeat constructor.
Qed.

Lemma UpdateNat_subnet_calls_for (svc : Config) (vpc gw x : string)
      (subnets : list string) (w : World) :
  In x subnets ->
  Forall (route_call_for vpc gw subnets) (calls (UpdateNat_subnet ec2 svc vpc gw x w)).
Proof.
  intros Hx. unfold UpdateNat_subnet.
  apply bind_calls_Forall; [apply createRouteTable_calls_for; exact Hx|].
  intros [rt [e|]] _; simpl; [constructor|].
  apply bind_calls_Forall.
  - rewrite (proj1 (routeTableIsConfigured_local rt gw _)). constructor.
  - intros [|] _; simpl; [constructor|].
    apply createNatGatewayRoutes_calls_for.
Qed.



(** X11: when the table of the first routed subnet holds, before any route
    to the NAT gateway of the request, a route the scan cannot read (one
    with no destination block, or with destination [0.0.0.0/0] and no NAT
    gateway target, as the default route to an internet gateway), Update
    panics on the nil pointer right after the lookup. *)
Theorem UpdateNat_panics_on_unreadable_route
        (ev : Event) (w : World) (x : string) (others : list string)
        (rt : RouteTable) (rest : list RouteTable)
        (pre post : list Route) (r : Route) :
  RoutedNetworkAWSIDs ev = x :: others ->
  snd (DescribeRouteTables ec2 (ec2_New ev) x w) = inl (rt :: rest) ->
  Routes rt = pre ++ r :: post ->
  Forall readable_route pre ->
  (forall p, In p pre -> ~ matching_route (NatGatewayAWSID ev) p) ->
  ~ readable_route r ->
  UpdateNat ec2 ev w
  = mkRun (fst (DescribeRouteTables ec2 (ec2_New ev) x w))
      [CDescribeRouteTables x]
      (Panic "invalid memory address or nil pointer dereference").
Proof.
  intros Hsubnets E Hroutes Hpre Hnone Hr.
  unfold UpdateNat. rewrite Hsubnets. simpl.
  pose proof (createRouteTable_reuses ec2 (ec2_New ev) (VPCID ev) x w rt rest E) as Hrt.
  set (w1 := fst (DescribeRouteTables ec2 (ec2_New ev) x w)) in *.
  destruct (routeTableIsConfigured_local (Some rt) (NatGatewayAWSID ev) w1) as [Hc Hf].
  pose proof (routes_configured_panics pre post r (NatGatewayAWSID ev) w1
                Hpre Hnone Hr) as Hpanic.
  rewrite <- Hroutes, <- routeTableIsConfigured_value in Hpanic.
  assert (Hstep : UpdateNat_subnet ec2 (ec2_New ev) (VPCID ev) (NatGatewayAWSID ev) x w
                  = mkRun w1 [CDescribeRouteTables x]
                      (Panic "invalid memory address or nil pointer dereference")).
  { unfold UpdateNat_subnet.
    rewrite (bind_Ret _ _ w (Some rt, None)) by (rewrite Hrt; reflexivity).
    rewrite Hrt. simpl.
    rewrite (bind_Panic _ _ w1 _ Hpanic). rewrite Hc, Hf. reflexivity. }
  unfold bind. rewrite Hstep. reflexivity.
Qed.

(** X12: every call of a run of Update is a call on a route table that
    concerns the request: lookups and associations name its routed
    networks, tables are created in its VPC, routes have destination
    [0.0.0.0/0] and its NAT gateway as target; Update allocates nothing,
    touches no gateway, and returns the event as it received it. *)
Theorem UpdateNat_calls_concern_the_request (ev : Event) (w : World) :
  Forall (route_call_for (VPCID ev) (NatGatewayAWSID ev) (RoutedNetworkAWSIDs ev))
    (calls (UpdateNat ec2 ev w)) /\
  (forall ev' err, value (UpdateNat ec2 ev w) = Ret (ev', err) -> ev' = ev).
Proof.
  split.
  - unfold UpdateNat.
    apply bind_calls_Forall; [|intros; constructor].
    apply for_range_calls_Forall. intros x w0 Hx.
    apply UpdateNat_subnet_calls_for. exact Hx.
  - intros ev' err. unfold UpdateNat, bind.
    destruct (value (for_range _ _ _)); simpl; intros H; inversion H; reflexivity.
Qed.

End UpdateRoutes.


Lemma UpdateNat_panics_on_unreadable_route_witness :
  UpdateNat (scripted public_routed) example_event 0
  = mkRun 1 [CDescribeRouteTables "subnet-a"]
      (Panic "invalid memory address or nil pointer dereference").
Proof.
  apply (@UpdateNat_panics_on_unreadable_route nat (scripted public_routed)
           example_event 0 "subnet-a" ["subnet-b"; "subnet-c"]
           {| RouteTableId := "rtb-subnet-a"; Routes := [local_route; internet_route] |}
           [] [local_route] [] internet_route).
  - reflexivity.
  - reflexivity.
  - reflexivity.
  - repeat constructor. exists "10.0.0.0/16". split; [reflexivity | discriminate].
  - intros p [<- | []] [Hd _]. discriminate Hd.
  - intros (dest & Hd & Ht). inversion Hd; subst dest.
    destruct (Ht eq_refl) as [target Htarget]. discriminate Htarget.
Defined.

Lemma UpdateNat_calls_concern_the_request_witness :
  Forall (route_call_for "vpc-1" "nat-1" ["subnet-a"; "subnet-b"; "subnet-c"])
    (calls (UpdateNat (scripted unrouted) example_event 0)).
Proof.
  exact (proj1 (@UpdateNat_calls_concern_the_request nat (scripted unrouted)
                  example_event 0)).
Defined.

(** the handler on an update request for such a cloud: no reply *)
Example update_handler_panics_on_public_route :
  eventHandler (scripted public_routed) (example_json example_event)
    (msg "nat.update.aws" "nat-1") 0
  = mkRun 1 [CDescribeRouteTables "subnet-a"]
      (Panic "invalid memory address or nil pointer dereference").
Proof. reflexivity. Qed.

(** ** The NAT gateway lookup and the delete workflow *)

Section Delete.

Context {World : Type} (ec2 : EC2 World).

(** X13: the lookup of a NAT gateway by ID makes one describe call and
    returns either a gateway or an error, never both and never neither: the
    gateway exactly when the call lists one gateway, and the error "Could
    not find nat gateway" also when it lists two or more. *)
Theorem natGatewayByID_exactly_one (svc : Config) (id : string) (w : World) :
  calls (natGatewayByID ec2 svc id w) = [CDescribeNatGateways id] /\
  final (natGatewayByID ec2 svc id w) = fst (DescribeNatGateways ec2 svc id w) /\
  (exists g err,
      value (natGatewayByID ec2 svc id w) = Ret (g, err) /\
      (g = None <-> err <> None)) /\
  (forall gw,
      value (natGatewayByID ec2 svc id w) = Ret (Some gw, None) <->
      snd (DescribeNatGateways ec2 svc id w) = inl [gw]) /\
  (forall g1 g2 more,
      snd (DescribeNatGateways ec2 svc id w) = inl (g1 :: g2 :: more) ->
      value (natGatewayByID ec2 svc id w)
      = Ret (None, Some (errors_New "Could not find nat gateway"))).
Proof.
  unfold natGatewayByID, bind, remote. simpl.
  destruct (snd (DescribeNatGateways ec2 svc id w)) as [[|g [|g' more]] | e]; simpl;
    (split; [reflexivity|]); (split; [reflexivity|]);
    (split; [eexists _, _; split; [reflexivity | split; congruence]|]);
    (split; [intros gw; split; intros H; inversion H; reflexivity|]);
    intros g1 g2 more' H; inversion H; reflexivity.
Qed.

Lemma after_polls_next (svc : Config) (id : string) (n : nat) (w : World) :
  after_polls ec2 svc id (S n) w
  = fst (DescribeNatGateways ec2 svc id (after_polls ec2 svc id n w)).
Proof.
  revert w. induction n as [|n IH]; intros w; [reflexivity|].
  change (after_polls ec2 svc id (S (S n)) w)
    with (after_polls ec2 svc id (S n) (fst (DescribeNatGateways ec2 svc id w))).
  rewrite IH. reflexivity.
Qed.

(** a poll that returns has seen one gateway listed *)
Lemma isNatGatewayDeleted_returns (svc : Config) (id : string) (w : World) (b : bool) :
  value (isNatGatewayDeleted ec2 svc id w) = Ret b ->
  poll_sees ec2 svc id w b /\
  calls (isNatGatewayDeleted ec2 svc id w) = [CDescribeNatGateways id] /\
  final (isNatGatewayDeleted ec2 svc id w) = fst (DescribeNatGateways ec2 svc id w).
Proof.
  unfold isNatGatewayDeleted, natGatewayByID, poll_sees, bind, remote, deref. simpl.
  destruct (snd (DescribeNatGateways ec2 svc id w)) as [[|g [|g' more]] | e]; simpl;
    try discriminate.
  destruct (State g =? NatGatewayStateDeleted) eqn:Es; simpl;
    intros H; inversion H; subst b;
    (split; [exists g; split; [reflexivity | exact Es] | split; reflexivity]).
Qed.

Lemma isNatGatewayDeleted_sees (svc : Config) (id : string) (w : World) (b : bool) :
  poll_sees ec2 svc id w b ->
  isNatGatewayDeleted ec2 svc id w
  = mkRun (fst (DescribeNatGateways ec2 svc id w)) [CDescribeNatGateways id] (Ret b).
Proof.
  intros (gw & E & Hb).
  rewrite (isNatGatewayDeleted_listed ec2 svc id w gw E).
  unfold NatGatewayStateDeleted in Hb. rewrite Hb. reflexivity.
Qed.

Lemma DeleteNat_wait_completes (svc : Config) (id : string) (k : nat) :
  forall (fuel : nat) (w : World),
    (forall i, i < k -> poll_sees ec2 svc id (after_polls ec2 svc id i w) false) ->
    poll_sees ec2 svc id (after_polls ec2 svc id k w) true ->
    k < fuel ->
    DeleteNat_wait ec2 fuel svc id w
    = mkRun (after_polls ec2 svc id (S k) w) (wait_calls id k) (Ret tt).
Proof.
  induction k as [|k IH]; intros fuel w Hnot Hdel Hfuel;
    (destruct fuel as [|fuel]; [lia|]).
  - simpl in Hdel.
    pose proof (isNatGatewayDeleted_sees svc id w true Hdel) as Hpoll.
    rewrite (DeleteNat_wait_deleted ec2 svc id w fuel)
      by (rewrite Hpoll; reflexivity).
    rewrite Hpoll. reflexivity.
  - pose proof (isNatGatewayDeleted_sees svc id w false (Hnot 0 (Nat.lt_0_succ k)))
      as Hpoll.
    rewrite (DeleteNat_wait_not_yet ec2 svc id w fuel)
      by (rewrite Hpoll; reflexivity).
    rewrite Hpoll. cbv zeta. simpl final. simpl calls.
    rewrite (IH fuel (fst (DescribeNatGateways ec2 svc id w))).
    + reflexivity.
    + intros i Hi. apply (Hnot (S i)). lia.
    + exact Hdel.
    + lia.
Qed.

Lemma DeleteNat_wait_returns (svc : Config) (id : string) (fuel : nat) :
  forall (w : World),
    value (DeleteNat_wait ec2 fuel svc id w) = Ret tt ->
    exists k,
      k < fuel /\
      (forall i, i < k -> poll_sees ec2 svc id (after_polls ec2 svc id i w) false) /\
      poll_sees ec2 svc id (after_polls ec2 svc id k w) true /\
      calls (DeleteNat_wait ec2 fuel svc id w) = wait_calls id k /\
      final (DeleteNat_wait ec2 fuel svc id w) = after_polls ec2 svc id (S k) w.
Proof.
  induction fuel as [|fuel IH]; intros w; [discriminate|].
  destruct (value (isNatGatewayDeleted ec2 svc id w)) as [[|] | msg |] eqn:Epoll.
  - destruct (isNatGatewayDeleted_returns svc id w true Epoll) as (Hsee & Hc & Hf).
    rewrite (DeleteNat_wait_deleted ec2 svc id w fuel Epoll). simpl.
    intros _. exists 0. repeat split; try assumption; try lia.
  - destruct (isNatGatewayDeleted_returns svc id w false Epoll) as (Hsee & Hc & Hf).
    rewrite (DeleteNat_wait_not_yet ec2 svc id w fuel Epoll). cbv zeta. simpl.
    rewrite Hc, Hf. intros Hv.
    destruct (IH _ Hv) as (k & Hk & Hnot & Hdel & Hcalls & Hfinal).
    exists (S k). repeat split.
    + lia.
    + intros [|i] Hi; [exact Hsee | apply Hnot; lia].
    + exact Hdel.
    + rewrite Hcalls. reflexivity.
    + rewrite Hfinal. reflexivity.
  - simpl. unfold bind. rewrite Epoll. discriminate.
  - simpl. unfold bind. rewrite Epoll. discriminate.
Qed.

(** X14: when the delete call is accepted and the polls that follow list
    the gateway in another state [k] times and then in state "deleted",
    Delete, given more than [k] polls, returns no error after the delete
    call, [k + 1] describe calls and [k] sleeps of three seconds between
    them. *)
Theorem DeleteNat_waits_until_deleted (ev : Event) (w : World) (k fuel : nat) :
  let svc := ec2_New ev in
  let id := NatGatewayAWSID ev in
  let w0 := fst (DeleteNatGateway ec2 svc id w) in
  snd (DeleteNatGateway ec2 svc id w) = None ->
  (forall i, i < k -> poll_sees ec2 svc id (after_polls ec2 svc id i w0) false) ->
  poll_sees ec2 svc id (after_polls ec2 svc id k w0) true ->
  k < fuel ->
  DeleteNat ec2 fuel ev w
  = mkRun (after_polls ec2 svc id (S k) w0)
      (CDeleteNatGateway id :: wait_calls id k)
      (Ret (ev, None)).
Proof.
  intros svc id w0 Hdelete Hnot Hdel Hfuel.
  unfold DeleteNat, bind, remote. simpl.
  fold svc. fold id. rewrite Hdelete. simpl. fold w0.
  rewrite (DeleteNat_wait_completes svc id k fuel w0 Hnot Hdel Hfuel). simpl.
  rewrite app_nil_r. reflexivity.
Qed.

(** X15: Delete is the delete call followed by the wait.  When the delete
    call is refused Delete returns that error at once, with no poll; it
    returns an error in no other case; and when it returns no error, the
    delete call was accepted and the last of its polls, made three seconds
    after the one before, listed the gateway in state "deleted", every
    earlier poll having listed it in another state. *)
Theorem DeleteNat_outcomes (ev : Event) (w : World) (fuel : nat) :
  let svc := ec2_New ev in
  let id := NatGatewayAWSID ev in
  let w0 := fst (DeleteNatGateway ec2 svc id w) in
  (forall e,
      snd (DeleteNatGateway ec2 svc id w) = Some e ->
      DeleteNat ec2 fuel ev w = mkRun w0 [CDeleteNatGateway id] (Ret (ev, Some e))) /\
  (forall ev' e,
      value (DeleteNat ec2 fuel ev w) = Ret (ev', Some e) ->
      snd (DeleteNatGateway ec2 svc id w) = Some e /\
      calls (DeleteNat ec2 fuel ev w) = [CDeleteNatGateway id]) /\
  (forall ev',
      value (DeleteNat ec2 fuel ev w) = Ret (ev', None) ->
      ev' = ev /\
      snd (DeleteNatGateway ec2 svc id w) = None /\
      exists k,
        k < fuel /\
        (forall i, i < k -> poll_sees ec2 svc id (after_polls ec2 svc id i w0) false) /\
        poll_sees ec2 svc id (after_polls ec2 svc id k w0) true /\
        calls (DeleteNat ec2 fuel ev w) = CDeleteNatGateway id :: wait_calls id k).
Proof.
  intros svc id w0.
  unfold DeleteNat, bind, remote. simpl. fold svc. fold id. fold w0.
  destruct (snd (DeleteNatGateway ec2 svc id w)) as [e0|]; simpl.
  - repeat split; try discriminate.
    + intros e He. inversion He. reflexivity.
    + inversion H. reflexivity.
  - split; [discriminate|].
    destruct (value (DeleteNat_wait ec2 fuel svc id w0)) as [[] | msg |] eqn:Ewait;
      simpl; (split; [discriminate|]); try discriminate.
    intros ev' H. inversion H; subst ev'.
    split; [reflexivity|]. split; [reflexivity|].
    destruct (DeleteNat_wait_returns svc id fuel w0 Ewait)
      as (k & Hk & Hnot & Hdel & Hcalls & _).
    exists k. repeat split; try assumption.
    rewrite Hcalls, app_nil_r. reflexivity.
Qed.

End Delete.

Lemma natGatewayByID_exactly_one_witness :
  value (natGatewayByID (scripted doubled) (ec2_New example_event) "nat-1" 0)
  = Ret (None, Some (errors_New "Could not find nat gateway")).
Proof.
  exact (proj2 (proj2 (proj2 (proj2
           (@natGatewayByID_exactly_one nat (scripted doubled)
              (ec2_New example_event) "nat-1" 0)))) _ _ _ eq_refl).
Defined.

Lemma DeleteNat_waits_until_deleted_witness :
  DeleteNat (scripted converged) 3 example_event 0
  = mkRun 4
      [CDeleteNatGateway "nat-1";
       CDescribeNatGateways "nat-1"; CSleep (3 * 1000000000);
       CDescribeNatGateways "nat-1"; CSleep (3 * 1000000000);
       CDescribeNatGateways "nat-1"]
      (Ret (example_event, None)).
Proof.
  apply (@DeleteNat_waits_until_deleted nat (scripted converged) example_event 0 2 3).
  - reflexivity.
  - intros [|[|i]] Hi; try lia; eexists; split; reflexivity.
  - eexists; split; reflexivity.
  - lia.
Defined.

Lemma DeleteNat_outcomes_witness :
  exists k,
    k < 10 /\
    calls (DeleteNat (scripted converged) 10 example_event 0)
    = CDeleteNatGateway "nat-1" :: wait_calls "nat-1" k.
Proof.
  destruct (proj2 (proj2 (@DeleteNat_outcomes nat (scripted converged) example_event 0 10))
              example_event eq_refl)
    as (_ & _ & k & Hk & _ & _ & Hcalls).
  exists k. split; [exact Hk | exact Hcalls].
Defined.

(** ** The two declarations of event.go *)

Section Declarations.

Context {World : Type} (ec2 : EC2 World) (json : JSON).

Lemma Event_Update_is_UpdateNat (ev : Event) (w : World) :
  Event_Update ec2 ev w = UpdateNat ec2 ev w.
Proof. reflexivity. Qed.

(** X17: the methods of the second declaration agree with the functions of
    the first on an event made by [New]: validation is the same function of
    the fields and the subject; [Process] makes the same calls and decodes
    the same fields, keeping the subject and the body; and for a subject
    [nat.<action>.aws], whose action part [Process] has recorded, [Error]
    and [Complete] publish on the same subjects as their first
    declarations, which build them from the action. *)
Theorem methods_agree_with_functions (subj : string) (data : bytes) (w : World) :
  (forall ev, Event_Validate ev = Validate (fields ev) (subject ev)) /\
  calls (Event_Process json (New subj data) w)
  = calls (Process json Event_zero subj data w) /\
  (forall ev1 err,
      value (Event_Process json (New subj data) w) = Ret (ev1, err) ->
      value (Process json Event_zero subj data w) = Ret (fields ev1, err) /\
      subject ev1 = subj /\ body ev1 = data) /\
  (forall a ev e,
      subj = ("nat." ++ a ++ ".aws")%string ->
      subject ev = subj ->
      action (fields ev) = a ->
      calls (Event_Error json ev e w) = calls (Error json (fields ev) e w) /\
      calls (Event_Complete json ev w) = calls (Complete json (fields ev) w)).
Proof.
  repeat apply conj.
  - intros ev. reflexivity.
  - unfold Event_Process, Process, New, index1, bind. cbn [subject body fields].
    destruct (nth_error (strings_Split_dot subj) 1) as [a|]; simpl; [|reflexivity].
    destruct (snd (Unmarshal json data (set_action a Event_zero))); reflexivity.
  - intros ev1 err.
    unfold Event_Process, Process, New, index1, bind. cbn [subject body fields].
    destruct (nth_error (strings_Split_dot subj) 1) as [a|]; simpl; [|discriminate].
    destruct (snd (Unmarshal json data (set_action a Event_zero))); simpl;
      intros H; inversion H; subst; simpl; repeat split.
  - intros a ev e Hsubj Hsubject Haction.
    assert (Herror : (subject ev ++ ".error")%string
                     = ("nat." ++ action (fields ev) ++ ".aws.error")%string).
    { rewrite Hsubject, Hsubj, Haction. apply (nat_subject_replies a ".error"). }
    assert (Hdone : (subject ev ++ ".done")%string
                    = ("nat." ++ action (fields ev) ++ ".aws.done")%string).
    { rewrite Hsubject, Hsubj, Haction. apply (nat_subject_replies a ".done"). }
    assert (Herr : forall e0,
               calls (Event_Error json ev e0 w) = calls (Error json (fields ev) e0 w) /\
               (forall ev2, value (Event_Error json ev e0 w) = Ret ev2 ->
                            subject ev2 = subject ev /\
                            action (fields ev2) = action (fields ev))).
    { intros e0. unfold Event_Error, Error. simpl.
      destruct (Marshal json (set_ErrorMessage (Error_string e0) (fields ev))); simpl.
      - rewrite Herror. split; [reflexivity|].
        intros ev2 H. inversion H. split; reflexivity.
      - split; [reflexivity | discriminate]. }
    split; [apply Herr|].
    unfold Event_Complete, Complete.
    destruct (Marshal json (fields ev)) as [d | e1]; simpl.
    + rewrite Hdone. reflexivity.
    + destruct (Herr e1) as [Hc Hv].
      unfold bind. rewrite Hc.
      unfold Event_Error, Error in *. simpl in *.
      destruct (Marshal json (set_ErrorMessage (Error_string e1) (fields ev)));
        simpl; [|reflexivity].
      rewrite Hdone. reflexivity.
Qed.

End Declarations.

Lemma methods_agree_with_functions_witness :
  calls (Event_Error (example_json example_event)
           {| fields := set_action "create" example_event;
              subject := "nat.create.aws"; body := [] |}
           ErrNetworkIDInvalid 0)
  = calls (Error (example_json example_event) (set_action "create" example_event)
             ErrNetworkIDInvalid 0).
Proof.
  exact (proj1 (proj2 (proj2 (proj2
           (@methods_agree_with_functions nat (example_json example_event)
              "nat.create.aws" [] 0)))
           "create"
           {| fields := set_action "create" example_event;
              subject := "nat.create.aws"; body := [] |}
           ErrNetworkIDInvalid eq_refl eq_refl eq_refl)).
Defined.
